(** * OpenPricev7: the response-parsing and program-selection pipeline

    A shallow embedding of the pricing endpoint (the handler of
    [get-pricing] with its SOAP/XML parser, followed by the [PricingLogic]
    helpers kept in the same backup file) and of the copy of
    [getTargetPricing] in the client component [App], together with the
    properties the design specification states about them.

    Modelling conventions.
    - A JavaScript string is a [string] of the standard library, one
      character per 8-bit code unit; [toUpperCase] and the [i] flag of
      regular expressions map the ASCII letters.
    - A JavaScript number is the rational it denotes ([Q], kept in lowest
      terms); [NaN], the result of a failed [parseFloat] or [parseInt], is
      [None].  The rounding of doubles and the literal [Infinity] are not
      part of the model.
    - [undefined] in an optional position is [None].
    - Program objects are shared between [result.programs] and the
      filtered array of the handler, and the filter assigns to them; the
      handler is therefore run over a store of program objects addressed
      by index.  Rate options belong to one program each, and adjustment
      objects are never assigned to, so both are kept by value. *)

From Stdlib Require Import String Ascii List Bool Arith ZArith QArith.
From Stdlib Require Import Qabs Qround Lia Lqa Permutation Sorted DecimalString.
Import ListNotations.

Close Scope Q_scope.
Open Scope string_scope.
Open Scope list_scope.
Open Scope nat_scope.

(** ** JavaScript strings *)

Module JsString.

(** The quotation mark, written by its code. *)
Definition dquote : ascii := "034"%char.

(** [!s] of a string: only the empty string is falsy. *)
Definition truthy (s : string) : bool :=
  match s with
  | EmptyString => false
  | String _ _ => true
  end.

(** [a || b] on strings. *)
Definition orElse (a b : string) : string :=
  if truthy a then a else b.

Definition isLower (c : ascii) : bool :=
  (97 <=? nat_of_ascii c) && (nat_of_ascii c <=? 122).

Definition upperChar (c : ascii) : ascii :=
  if isLower c then ascii_of_nat (nat_of_ascii c - 32) else c.

(** [String.prototype.toUpperCase]. *)
Fixpoint toUpperCase (s : string) : string :=
  match s with
  | EmptyString => EmptyString
  | String c t => String (upperChar c) (toUpperCase t)
  end.

(** [stripPrefix p s] is the rest of [s] after [p] when [s] starts
    with [p]. *)
Fixpoint stripPrefix (p s : string) : option string :=
  match p with
  | EmptyString => Some s
  | String a p' =>
      match s with
      | EmptyString => None
      | String b s' => if Ascii.eqb a b then stripPrefix p' s' else None
      end
  end.

(** [String.prototype.includes]. *)
Fixpoint includes (s p : string) : bool :=
  match stripPrefix p s with
  | Some _ => true
  | None =>
      match s with
      | EmptyString => false
      | String _ t => includes t p
      end
  end.

(** [s.replace(/p/g, r)] for a literal, non-empty pattern [p]: the
    occurrences are found from left to right and do not overlap. *)
Fixpoint replaceAllFrom (fuel : nat) (p r s : string) : string :=
  match fuel with
  | O => s
  | S fuel' =>
      match stripPrefix p s with
      | Some rest => (r ++ replaceAllFrom fuel' p r rest)%string
      | None =>
          match s with
          | EmptyString => EmptyString
          | String c t => String c (replaceAllFrom fuel' p r t)
          end
      end
  end.

Definition replaceAll (p r s : string) : string :=
  match p with
  | EmptyString => s
  | String _ _ => replaceAllFrom (S (String.length s)) p r s
  end.

(** [s.replace(p, r)] for a string pattern: the first occurrence only. *)
Fixpoint replaceFirst (p r s : string) : string :=
  match stripPrefix p s with
  | Some rest => (r ++ rest)%string
  | None =>
      match s with
      | EmptyString => EmptyString
      | String c t => String c (replaceFirst p r t)
      end
  end.

(** [s.substring(0, n)]. *)
Fixpoint take (n : nat) (s : string) : string :=
  match n, s with
  | S n', String c t => String c (take n' t)
  | _, _ => EmptyString
  end.

Fixpoint drop (n : nat) (s : string) : string :=
  match n, s with
  | S n', String _ t => drop n' t
  | _, _ => s
  end.

End JsString.

(** ** Regular expressions

    The source scans the payload with JavaScript regular expressions.
    The fragment it uses is embedded as a syntax tree and run by a
    backtracking matcher in continuation-passing style, which follows the
    ECMAScript semantics: alternatives are tried from left to right, a
    greedy star tries one more iteration before it tries to stop, a lazy
    star the other way round, and an iteration that consumes nothing is
    rejected. *)

Module Regex.
Import JsString.

(** Members of a character class. *)
Inductive cset : Type :=
| CChar (c : ascii)
| CDigit
| CSpace.

Inductive regex : Type :=
| REmpty
| RChar (c : ascii)
| RSet (negated : bool) (items : list cset)
| RSeq (r1 r2 : regex)
| RAlt (r1 r2 : regex)
| RStar (greedy : bool) (r : regex)
| RGroup (n : nat) (r : regex).

(** A literal run of characters. *)
Fixpoint RLit (s : string) : regex :=
  match s with
  | EmptyString => REmpty
  | String c EmptyString => RChar c
  | String c t => RSeq (RChar c) (RLit t)
  end.

(** [r+], [r?] and the escapes of the source. *)
Definition RPlus (r : regex) : regex := RSeq r (RStar true r).
Definition ROpt (r : regex) : regex := RAlt r REmpty.
Definition RSpaceCls : regex := RSet false [CSpace].
Definition RDigitCls : regex := RSet false [CDigit].
Definition RNot (c : ascii) : regex := RSet true [CChar c].
(** [[\s\S]]: any character. *)
Definition RAny : regex := RSet true [].
Fixpoint RSeqs (rs : list regex) : regex :=
  match rs with
  | [] => REmpty
  | [r] => r
  | r :: rs' => RSeq r (RSeqs rs')
  end.

Definition isDigit (c : ascii) : bool :=
  (48 <=? nat_of_ascii c) && (nat_of_ascii c <=? 57).

(** White space of [\s] within the 8-bit range: TAB, LF, VT, FF, CR,
    space and the no-break space. *)
Definition isSpace (c : ascii) : bool :=
  let n := nat_of_ascii c in
  ((9 <=? n) && (n <=? 13)) || (n =? 32) || (n =? 160).

(** With the [i] flag two characters are compared through their
    upper-case forms. *)
Definition charEq (ci : bool) (a b : ascii) : bool :=
  if ci then Ascii.eqb (upperChar a) (upperChar b) else Ascii.eqb a b.

Definition csetMem (ci : bool) (d : ascii) (it : cset) : bool :=
  match it with
  | CChar c => charEq ci c d
  | CDigit => isDigit d
  | CSpace => isSpace d
  end.

(** The state of a match attempt: what is left of the input, how many
    characters were consumed since the start of the subject, and the
    captures made so far (the latest first). *)
Record mstate : Type := mkState {
  rest : string;
  pos : nat;
  caps : list (nat * string)
}.

Definition advance (s : mstate) (t : string) : mstate :=
  mkState t (S (pos s)) (caps s).

Definition capture (n : nat) (from to : mstate) : mstate :=
  mkState (rest to) (pos to)
          ((n, take (pos to - pos from) (rest from)) :: caps to).

Section Matcher.
Context {A : Type}.

Definition orTry (x y : option A) : option A :=
  match x with
  | Some _ => x
  | None => y
  end.

Fixpoint starLoop (fuel : nat)
         (step : mstate -> (mstate -> option A) -> option A)
         (greedy : bool) (s : mstate) (k : mstate -> option A)
  : option A :=
  match fuel with
  | O => k s
  | S fuel' =>
      let again :=
        step s (fun s' =>
                  if pos s <? pos s'
                  then starLoop fuel' step greedy s' k
                  else None) in
      if greedy then orTry again (k s) else orTry (k s) again
  end.

Fixpoint rmatch (ci : bool) (r : regex) (s : mstate)
         (k : mstate -> option A) : option A :=
  match r with
  | REmpty => k s
  | RChar c =>
      match rest s with
      | String d t => if charEq ci c d then k (advance s t) else None
      | EmptyString => None
      end
  | RSet negated items =>
      match rest s with
      | String d t =>
          if xorb negated (existsb (csetMem ci d) items)
          then k (advance s t) else None
      | EmptyString => None
      end
  | RSeq r1 r2 => rmatch ci r1 s (fun s' => rmatch ci r2 s' k)
  | RAlt r1 r2 => orTry (rmatch ci r1 s k) (rmatch ci r2 s k)
  | RStar greedy r1 =>
      starLoop (String.length (rest s)) (rmatch ci r1) greedy s k
  | RGroup n r1 => rmatch ci r1 s (fun s' => k (capture n s s'))
  end.
End Matcher.

(** A regular expression with its flags ([g] is a matter of the caller:
    [execAll] below). *)
Record RegExp : Type := mkRegExp {
  source : regex;
  ignoreCase : bool
}.

(** The result of [exec]: [index], the matched text [m[0]], the captures
    and the input after the match. *)
Record MatchResult : Type := mkMatch {
  index : nat;
  matched : string;
  groups : list (nat * string);
  after : string
}.

(** [m[n]]; [None] is [undefined]. *)
Fixpoint group (n : nat) (cs : list (nat * string)) : option string :=
  match cs with
  | [] => None
  | (m, v) :: cs' => if n =? m then Some v else group n cs'
  end.

(** [m[n] || ''] *)
Definition groupOr (n : nat) (m : MatchResult) : string :=
  match group n (groups m) with
  | Some v => v
  | None => EmptyString
  end.

Definition matchHere (re : RegExp) (s : string) (at_ : nat)
  : option MatchResult :=
  rmatch (ignoreCase re) (source re) (mkState s at_ [])
         (fun e => Some (mkMatch at_ (take (pos e - at_) s) (caps e) (rest e))).

(** [re.exec(s)] from a given offset: the leftmost position at which the
    expression matches. *)
Fixpoint execFrom (re : RegExp) (s : string) (at_ : nat)
  : option MatchResult :=
  match matchHere re s at_ with
  | Some m => Some m
  | None =>
      match s with
      | EmptyString => None
      | String _ t => execFrom re t (S at_)
      end
  end.

Definition exec (re : RegExp) (s : string) : option MatchResult :=
  execFrom re s 0.

(** [re.test(s)] *)
Definition test (re : RegExp) (s : string) : bool :=
  match exec re s with
  | Some _ => true
  | None => false
  end.

(** The loop [while ((m = re.exec(s)) !== null)] of a global expression:
    all matches from left to right, each search resuming where the last
    match ended.  None of the expressions of the source matches the empty
    string; the enumeration stops at such a match. *)
Fixpoint execAllFrom (fuel : nat) (re : RegExp) (s : string) (at_ : nat)
  : list MatchResult :=
  match fuel with
  | O => []
  | S fuel' =>
      match execFrom re s at_ with
      | None => []
      | Some m =>
          match matched m with
          | EmptyString => [m]
          | String _ _ =>
              m :: execAllFrom fuel' re (after m)
                     (index m + String.length (matched m))
          end
      end
  end.

Definition execAll (re : RegExp) (s : string) : list MatchResult :=
  execAllFrom (S (String.length s)) re s 0.

(** The replacement patterns of [String.prototype.replace] that are
    meaningful for an expression without groups: [$$], [$&], [$`] and
    [$']. *)
Fixpoint expandReplacement (r before m afterm : string) : string :=
  match r with
  | EmptyString => EmptyString
  | String "$" (String c t as t0) =>
      let rest := expandReplacement t before m afterm in
      if Ascii.eqb c "$" then String "$" rest
      else if Ascii.eqb c "&" then (m ++ rest)%string
      else if Ascii.eqb c "`" then (before ++ rest)%string
      else if Ascii.eqb c "'" then (afterm ++ rest)%string
      else String "$" (expandReplacement t0 before m afterm)
  | String c t => String c (expandReplacement t before m afterm)
  end.

(** [s.replace(re, r)] for an expression without the [g] flag. *)
Definition replace (re : RegExp) (r s : string) : string :=
  match exec re s with
  | None => s
  | Some m =>
      let before := take (index m) s in
      (before ++ expandReplacement r before (matched m) (after m)
              ++ after m)%string
  end.

End Regex.

(** ** JavaScript numbers *)

Module JsNumber.
Import JsString.

(** Arithmetic keeps every number in lowest terms, so that a number has
    one representation and equality of records is equality of values. *)
Definition neg (a : Q) : Q := Qred (Qopp a).
Definition sub (a b : Q) : Q := Qred (Qminus a b).
Definition abs (a : Q) : Q := Qred (Qabs a).
Definition ltb (a b : Q) : bool := negb (Qle_bool b a).
Definition leb (a b : Q) : bool := Qle_bool a b.
Definition geb (a b : Q) : bool := Qle_bool b a.
Definition isZero (a : Q) : bool := Qeq_bool a 0.

(** Truthiness of a number: [NaN] and [0] are falsy. *)
Definition truthy (v : option Q) : bool :=
  match v with
  | Some q => negb (isZero q)
  | None => false
  end.

(** [a || b] between numbers, and the closing [|| d] of such a chain. *)
Definition orElse (a b : option Q) : option Q :=
  if truthy a then a else b.

Definition orDefault (a : option Q) (d : Q) : Q :=
  match a with
  | Some q => if isZero q then d else q
  | None => d
  end.

Definition orDefaultZ (a : option Z) (d : Z) : Z :=
  match a with
  | Some z => if Z.eqb z 0 then d else z
  | None => d
  end.

Definition digitVal (c : ascii) : Z := Z.of_nat (nat_of_ascii c - 48).

(** The leading white space that [parseFloat] and [parseInt] skip. *)
Fixpoint trimStart (s : string) : string :=
  match s with
  | String c t => if Regex.isSpace c then trimStart t else s
  | EmptyString => s
  end.

(** The longest run of decimal digits at the head of [s]: its value, its
    length, and what follows. *)
Fixpoint spanDigits (acc : Z) (len : nat) (s : string) : Z * nat * string :=
  match s with
  | String c t =>
      if Regex.isDigit c then spanDigits (10 * acc + digitVal c) (S len) t
      else (acc, len, s)
  | EmptyString => (acc, len, s)
  end.

Definition takeSign (s : string) : bool * string :=
  match s with
  | String "-" t => (true, t)
  | String "+" t => (false, t)
  | _ => (false, s)
  end.

(** The exponent part [e[+-]digits], which counts only when a digit
    follows. *)
Definition exponentPart (s : string) : Z :=
  match s with
  | String c t =>
      if Ascii.eqb c "e" || Ascii.eqb c "E" then
        let '(negative, t') := takeSign t in
        let '(v, len, _) := spanDigits 0 0 t' in
        match len with
        | O => 0%Z
        | S _ => if negative then (- v)%Z else v
        end
      else 0%Z
  | EmptyString => 0%Z
  end.

(** [m * 10^k] *)
Definition scale10 (m k : Z) : Q :=
  if (0 <=? k)%Z then Qred (inject_Z (m * 10 ^ k))
  else Qred (Qmake m (Z.to_pos (10 ^ (- k)))).

(** [parseFloat]: the value of the longest prefix that is a decimal
    literal, [None] for [NaN]. *)
Definition parseFloat (s : string) : option Q :=
  let '(negative, s1) := takeSign (trimStart s) in
  let '(ip, ilen, s2) := spanDigits 0 0 s1 in
  let '(m, flen, s3) :=
    match s2 with
    | String "." t => spanDigits ip 0 t
    | _ => (ip, 0, s2)
    end in
  match ilen + flen with
  | O => None
  | S _ =>
      let e := (exponentPart s3 - Z.of_nat flen)%Z in
      Some (scale10 (if negative then (- m)%Z else m) e)
  end.

Definition hexVal (c : ascii) : option Z :=
  let n := nat_of_ascii c in
  if Regex.isDigit c then Some (Z.of_nat (n - 48))
  else if (97 <=? n) && (n <=? 102) then Some (Z.of_nat (n - 87))
  else if (65 <=? n) && (n <=? 70) then Some (Z.of_nat (n - 55))
  else None.

Fixpoint spanHex (acc : Z) (len : nat) (s : string) : Z * nat :=
  match s with
  | String c t =>
      match hexVal c with
      | Some d => spanHex (16 * acc + d) (S len) t
      | None => (acc, len)
      end
  | EmptyString => (acc, len)
  end.

(** [parseInt] without a radix argument: decimal, or hexadecimal after
    [0x]. *)
Definition parseInt (s : string) : option Z :=
  let '(negative, s1) := takeSign (trimStart s) in
  let '(v, len) :=
    match s1 with
    | String "0" (String x t) =>
        if Ascii.eqb x "x" || Ascii.eqb x "X" then spanHex 0 0 t
        else let '(v, len, _) := spanDigits 0 0 s1 in (v, len)
    | _ => let '(v, len, _) := spanDigits 0 0 s1 in (v, len)
    end in
  match len with
  | O => None
  | S _ => Some (if negative then (- v)%Z else v)
  end.

Definition decimalOfZ (n : Z) : string :=
  NilEmpty.string_of_uint (N.to_uint (Z.to_N n)).

Fixpoint zeros (n : nat) : string :=
  match n with
  | O => EmptyString
  | S n' => String "0" (zeros n')
  end.

(** [x.toFixed(f)] below the threshold of the exponent notation: the
    integer [n] nearest to [|x| * 10^f] (the larger one of two), written
    with [f] digits after the point. *)
Definition toFixed (v : option Q) (f : nat) : string :=
  match v with
  | None => "NaN"
  | Some x =>
      let negative := ltb x 0 in
      let ax := Qabs x in
      let n := Qfloor (ax * inject_Z (10 ^ Z.of_nat f) + (1 # 2))%Q in
      let ds := decimalOfZ n in
      let padded := (zeros (S f - String.length ds) ++ ds)%string in
      let k := String.length padded - f in
      let body :=
        match f with
        | O => padded
        | S _ => (take k padded ++ "." ++ drop k padded)%string
        end in
      if negative then String "-" body else body
  end.

End JsNumber.

(** ** Data model *)

(** [{ description, amount, rateAdj }] *)
Module Adjustment.
Record t : Type := make {
  description : string;
  amount : Q;
  rateAdj : Q
}.

(** [{ ...adj, description: d }] *)
Definition withDescription (a : t) (d : string) : t :=
  make d (amount a) (rateAdj a).
End Adjustment.

(** The rate option objects built by [parseSOAPResponse]. *)
Module RateOption.
Record t : Type := make {
  rate : Q;
  points : Q;
  apr : Q;
  payment : Q;
  description : string;
  investor : string;
  status : string;
  bestPrice : bool;
  totalClosingCost : Q;
  cashToClose : Q;
  adjustments : option (list Adjustment.t)
}.

(** [ro.adjustments = v] *)
Definition setAdjustments (o : t) (v : option (list Adjustment.t)) : t :=
  make (rate o) (points o) (apr o) (payment o) (description o) (investor o)
       (status o) (bestPrice o) (totalClosingCost o) (cashToClose o) v.
End RateOption.

(** The program objects built by [parseSOAPResponse]. *)
Module Program.
Record t : Type := make {
  name : string;
  programName : string;
  status : string;
  term : Z;
  finMethod : string;
  loanType : string;
  parRate : Q;
  parPoints : Q;
  investor : string;
  lockDays : Z;
  rate : Q;
  apr : Q;
  points : Q;
  payment : Q;
  description : string;
  investorName : string;
  totalClosingCost : Q;
  cashToClose : Q;
  rateOptions : list RateOption.t;
  adjustments : option (list Adjustment.t)
}.

(** [p.rateOptions = v] *)
Definition setRateOptions (p : t) (v : list RateOption.t) : t :=
  make (name p) (programName p) (status p) (term p) (finMethod p)
       (loanType p) (parRate p) (parPoints p) (investor p) (lockDays p)
       (rate p) (apr p) (points p) (payment p) (description p)
       (investorName p) (totalClosingCost p) (cashToClose p) v
       (adjustments p).
End Program.

(** ** Entity escaping *)

Module Xml.
Import JsString.

Definition quot : string := String dquote EmptyString.

(** [escapeXml]; the guard [if (!unsafe) return ''] is the empty case of
    the replacements. *)
Definition escapeXml (unsafe : string) : string :=
  if negb (truthy unsafe) then EmptyString
  else
    replaceAll "'" "&apos;"
      (replaceAll quot "&quot;"
        (replaceAll ">" "&gt;"
          (replaceAll "<" "&lt;"
            (replaceAll "&" "&amp;" unsafe)))).

Definition unescapeXml (escaped : string) : string :=
  if negb (truthy escaped) then EmptyString
  else
    replaceAll "&amp;" "&"
      (replaceAll "&apos;" "'"
        (replaceAll "&quot;" quot
          (replaceAll "&gt;" ">"
            (replaceAll "&lt;" "<" escaped)))).

Definition unescapeHtmlEntities (text : string) : string :=
  if negb (truthy text) then EmptyString
  else
    replaceAll "&amp;" "&"
      (replaceAll "&apos;" "'"
        (replaceAll "&quot;" quot
          (replaceAll "&lt;" "<"
            (replaceAll "&gt;" ">" text)))).

End Xml.

(** ** The SOAP response parser ([parseSOAPResponse]) *)

Module Parser.
Import Regex JsNumber Xml JsString.

(** The expression of [getAttr], with the flag [i]: the attribute name,
    an equals sign, and between two quotation marks a group of any
    number of characters other than the quotation mark. *)
Definition attrRegExp (attr : string) : RegExp :=
  mkRegExp (RSeqs [RLit attr; RChar "="; RChar dquote;
                   RGroup 1 (RStar true (RNot dquote)); RChar dquote])
           true.

Definition getAttr (tag attr : string) : string :=
  match exec (attrRegExp attr) tag with
  | Some m => groupOr 1 m
  | None => EmptyString
  end.

(** [/<Adjustment\s+([^>]+)\/?>|<PricingAdjustment\s+([^>]+)\/?>/gi] *)
Definition adjItemRegex : RegExp :=
  mkRegExp
    (RAlt (RSeqs [RLit "<Adjustment"; RPlus RSpaceCls;
                  RGroup 1 (RPlus (RNot ">")); ROpt (RChar "/"); RChar ">"])
          (RSeqs [RLit "<PricingAdjustment"; RPlus RSpaceCls;
                  RGroup 2 (RPlus (RNot ">")); ROpt (RChar "/"); RChar ">"]))
    true.

(** [/<AdjustmentsTable>([\s\S]*?)<\/AdjustmentsTable>/i] *)
Definition adjustmentsTableRegex : RegExp :=
  mkRegExp (RSeqs [RLit "<AdjustmentsTable>"; RGroup 1 (RStar false RAny);
                   RLit "</AdjustmentsTable>"])
           true.

(** [/<Adjustment\s+lLpTemplateId=Q([^Q]+)Q[^>]*>([\s\S]*?)<\/Adjustment>/gi],
    where Q stands for the quotation mark. *)
Definition adjBlockRegex : RegExp :=
  mkRegExp (RSeqs [RLit "<Adjustment"; RPlus RSpaceCls;
                   RLit "lLpTemplateId="; RChar dquote;
                   RGroup 1 (RPlus (RNot dquote)); RChar dquote;
                   RStar true (RNot ">"); RChar ">";
                   RGroup 2 (RStar false RAny); RLit "</Adjustment>"])
           true.

(** [/<AdjustmentItem\s+([^>]+)\/?>/gi] *)
Definition adjustmentItemRegex : RegExp :=
  mkRegExp (RSeqs [RLit "<AdjustmentItem"; RPlus RSpaceCls;
                   RGroup 1 (RPlus (RNot ">")); ROpt (RChar "/"); RChar ">"])
           true.

(** [/<Program\s([^>]+)>([\s\S]*?)<\/Program>/gi] *)
Definition programRegex : RegExp :=
  mkRegExp (RSeqs [RLit "<Program"; RSpaceCls; RGroup 1 (RPlus (RNot ">"));
                   RChar ">"; RGroup 2 (RStar false RAny);
                   RLit "</Program>"])
           true.

(** [progAdjRegex] and [adjRegex], flags [gi]: [<Adjustment], one white
    space, a group of any number of characters other than [>], an optional
    slash and [>].  It reads the adjustments written in a program body
    and, as the legacy form, in a rate option body. *)
Definition adjRegex : RegExp :=
  mkRegExp (RSeqs [RLit "<Adjustment"; RSpaceCls;
                   RGroup 1 (RStar true (RNot ">")); ROpt (RChar "/");
                   RChar ">"])
           true.

(** [rateRegex], flags [gi]: [<RateOption], one white space, a group of
    any number of characters other than [>], and then either [/>] or [>],
    a lazy group of arbitrary characters and [</RateOption>]. *)
Definition rateRegex : RegExp :=
  mkRegExp (RSeqs [RLit "<RateOption"; RSpaceCls;
                   RGroup 1 (RStar true (RNot ">"));
                   RAlt (RLit "/>")
                        (RSeqs [RChar ">"; RGroup 2 (RStar false RAny);
                                RLit "</RateOption>"])])
           true.

Definition floatAttr (tag attr : string) : option Q :=
  parseFloat (getAttr tag attr).

(** The first loop: every [<Adjustment ...>] or [<PricingAdjustment ...>]
    tag of the document, but for bare template references. *)
Definition parseGlobalAdjustment (m : MatchResult) : list Adjustment.t :=
  let adjAttrs := orElse (orElse (groupOr 1 m) (groupOr 2 m)) EmptyString in
  if includes adjAttrs "lLpTemplateId"
     && negb (includes adjAttrs "Description")
     && negb (includes adjAttrs "sAdjDescription")
  then []
  else
    [Adjustment.make
       (orElse (orElse (getAttr adjAttrs "sAdjDescription")
                       (getAttr adjAttrs "Description"))
               (getAttr adjAttrs "Name"))
       (orDefault (JsNumber.orElse
                     (JsNumber.orElse (floatAttr adjAttrs "dAdjPriceAdj")
                                      (floatAttr adjAttrs "Amount"))
                     (floatAttr adjAttrs "Price")) 0)
       (orDefault (JsNumber.orElse (floatAttr adjAttrs "dAdjRateAdj")
                                   (floatAttr adjAttrs "RateAdj")) 0)].

(** One [<AdjustmentItem ...>] of the adjustments table.  The point is a
    percentage string; its negation is the price impact. *)
Definition parseAdjustmentItem (adjAttrs : string) : option Adjustment.t :=
  let desc := getAttr adjAttrs "Description" in
  let isHidden := String.eqb (getAttr adjAttrs "IsHidden") "True" in
  if isHidden then None
  else
    let pointStr := orElse (getAttr adjAttrs "Point") "0" in
    let pointVal :=
      orDefault (parseFloat (replaceFirst "%" EmptyString pointStr)) 0 in
    let priceAdj := neg pointVal in
    let rateStr := orElse (getAttr adjAttrs "Rate") "0" in
    let rateAdj :=
      orDefault (parseFloat (replaceFirst "%" EmptyString rateStr)) 0 in
    if truthy desc
    then Some (Adjustment.make (unescapeHtmlEntities desc) priceAdj rateAdj)
    else None.

Definition optionToList {A : Type} (o : option A) : list A :=
  match o with
  | Some a => [a]
  | None => []
  end.

(** The items of one [<Adjustment lLpTemplateId=...>] block. *)
Definition parseTemplateAdjustments (adjBlockContent : string)
  : list Adjustment.t :=
  flat_map (fun m => optionToList (parseAdjustmentItem (groupOr 1 m)))
           (execAll adjustmentItemRegex adjBlockContent).

(** [adjustmentsByTemplateId]: an object used as a map; a later
    assignment to a key hides the earlier one. *)
Definition TemplateMap : Type := list (string * list Adjustment.t).

Definition assign (k : string) (v : list Adjustment.t) (m : TemplateMap)
  : TemplateMap := (k, v) :: m.

Fixpoint lookup (k : string) (m : TemplateMap) : option (list Adjustment.t) :=
  match m with
  | [] => None
  | (k', v) :: m' => if String.eqb k k' then Some v else lookup k m'
  end.

(** The blocks of the table: the map by template id, and the adjustments
    that are appended to the global list. *)
Definition parseAdjustmentsTable (tableContent : string)
  : TemplateMap * list Adjustment.t :=
  fold_left
    (fun acc m =>
       let templateAdjustments := parseTemplateAdjustments (groupOr 2 m) in
       (assign (groupOr 1 m) templateAdjustments (fst acc),
        snd acc ++ templateAdjustments))
    (execAll adjBlockRegex tableContent)
    ([], []).

(** An adjustment written directly in a program body. *)
Definition parseProgramAdjustment (adjAttrs : string) : Adjustment.t :=
  Adjustment.make
    (orElse (orElse (getAttr adjAttrs "Description")
                    (getAttr adjAttrs "Name"))
            (getAttr adjAttrs "Desc"))
    (orDefault (JsNumber.orElse
                  (JsNumber.orElse (floatAttr adjAttrs "Amount")
                                   (floatAttr adjAttrs "Price"))
                  (floatAttr adjAttrs "PriceAdj")) 0)
    (orDefault (JsNumber.orElse (floatAttr adjAttrs "RateAdj")
                                (floatAttr adjAttrs "Rate")) 0).

(** An adjustment written in a rate option body (legacy form). *)
Definition parseLegacyAdjustment (adjAttrs : string) : Adjustment.t :=
  Adjustment.make
    (unescapeHtmlEntities
       (orElse (getAttr adjAttrs "Description") (getAttr adjAttrs "Name")))
    (orDefault (JsNumber.orElse (floatAttr adjAttrs "Amount")
                                (floatAttr adjAttrs "Price")) 0)
    (orDefault (JsNumber.orElse (floatAttr adjAttrs "RateAdj")
                                (floatAttr adjAttrs "Rate")) 0).

Definition nonEmpty {A : Type} (l : list A) : option (list A) :=
  match l with
  | [] => None
  | _ :: _ => Some l
  end.

(** The adjustments of a rate option: those of its template when there
    are any, else the ones of its own body. *)
Definition resolveAdjustments (byTemplate : TemplateMap)
           (templateId rateBody : string) : list Adjustment.t :=
  let fromTable :=
    if truthy templateId then lookup templateId byTemplate else None in
  match fromTable with
  | Some (a :: l) => a :: l
  | _ =>
      map (fun m => parseLegacyAdjustment (groupOr 1 m))
          (execAll adjRegex rateBody)
  end.

Definition parseRateOption (byTemplate : TemplateMap) (m : MatchResult)
  : RateOption.t :=
  let rAttrs := groupOr 1 m in
  let rateBody := groupOr 2 m in
  let templateId := getAttr rAttrs "lLpTemplateId" in
  let adjustments := resolveAdjustments byTemplate templateId rateBody in
  RateOption.make
    (orDefault (floatAttr rAttrs "Rate") 0)
    (orDefault (floatAttr rAttrs "Point") 0)
    (orDefault (floatAttr rAttrs "APR") 0)
    (orDefault (parseFloat (replaceAll "," EmptyString
                                       (getAttr rAttrs "Payment"))) 0)
    (getAttr rAttrs "Description")
    (getAttr rAttrs "lLpInvestorNm")
    (getAttr rAttrs "Status")
    (String.eqb (getAttr rAttrs "BestPrice") "True")
    (orDefault (floatAttr rAttrs "TotalClosingCost") 0)
    (orDefault (floatAttr rAttrs "CashToClose") 0)
    (nonEmpty adjustments).

(** The representative option: the one flagged best price, else the
    first available one, else the first. *)
Definition bestOption (rateOptions : list RateOption.t)
  : option RateOption.t :=
  match find RateOption.bestPrice rateOptions with
  | Some r => Some r
  | None =>
      match find (fun r => String.eqb (RateOption.status r) "Available")
                 rateOptions with
      | Some r => Some r
      | None => hd_error rateOptions
      end
  end.

(** One [<Program ...>...</Program>] element; [None] when it is not
    pushed. *)
Definition parseProgram (byTemplate : TemplateMap) (m : MatchResult)
  : option Program.t :=
  let progAttrs := groupOr 1 m in
  let progBody := groupOr 2 m in
  let programName := getAttr progAttrs "Name" in
  let status := getAttr progAttrs "Status" in
  let term := getAttr progAttrs "Term" in
  let finMethod := getAttr progAttrs "FinMethT" in
  let loanType := getAttr progAttrs "LoanType" in
  let parRate := getAttr progAttrs "ParRate" in
  let parPoints := getAttr progAttrs "ParPoints" in
  let investor := getAttr progAttrs "ProductType" in
  let lockDays := getAttr progAttrs "sProdRLckdDays" in
  let programAdjustments :=
    map (fun a => parseProgramAdjustment (groupOr 1 a))
        (execAll adjRegex progBody) in
  let rateOptions :=
    map (parseRateOption byTemplate) (execAll rateRegex progBody) in
  match bestOption rateOptions with
  | Some best =>
      if truthy programName then
        Some (Program.make
                programName programName status
                (orDefaultZ (parseInt term) 360)
                finMethod loanType
                (orDefault (parseFloat parRate) 0)
                (orDefault (parseFloat parPoints) 0)
                investor
                (orDefaultZ (parseInt lockDays) 30)
                (RateOption.rate best) (RateOption.apr best)
                (RateOption.points best) (RateOption.payment best)
                (RateOption.description best) (RateOption.investor best)
                (RateOption.totalClosingCost best)
                (RateOption.cashToClose best)
                rateOptions
                (nonEmpty programAdjustments))
      else None
  | None => None
  end.

(** The comparator of [programs.sort]. *)
Definition eligibleRank (p : Program.t) : Q :=
  if String.eqb (Program.status p) "Eligible" then 0%Q else 1%Q.

Definition compare (a b : Program.t) : Q :=
  let aEligible := eligibleRank a in
  let bEligible := eligibleRank b in
  if negb (Qeq_bool aEligible bEligible) then sub aEligible bEligible
  else sub (Program.rate a) (Program.rate b).

(** [Array.prototype.sort] is stable, and with a consistent comparator
    its result is the one stable ordering of the array; that ordering is
    computed here by insertion from the right. *)
Section Sort.
Context {A : Type} (cmp : A -> A -> Q).

Fixpoint insert (x : A) (l : list A) : list A :=
  match l with
  | [] => [x]
  | y :: l' => if ltb 0 (cmp x y) then y :: insert x l' else x :: l
  end.

Fixpoint sort (l : list A) : list A :=
  match l with
  | [] => []
  | x :: l' => insert x (sort l')
  end.
End Sort.

Record ParsedResponse : Type := mkParsed {
  programs : list Program.t;
  totalPrograms : nat;
  globalAdjustments : option (list Adjustment.t);
  debugXmlSample : string;
  debugAdjustmentsSection : string
}.

(** The first non-empty program body, cut at 2000 characters. *)
Fixpoint firstBody (ms : list MatchResult) : string :=
  match ms with
  | [] => EmptyString
  | m :: ms' =>
      if truthy (groupOr 2 m) then take 2000 (groupOr 2 m)
      else firstBody ms'
  end.

(** The adjustments table of the document: the map by template id, the
    adjustments it adds to the global list, and the debug section. *)
Definition adjustmentsTable (level2 : string)
  : TemplateMap * list Adjustment.t * string :=
  match exec adjustmentsTableRegex level2 with
  | Some adjustmentsTableMatch =>
      (parseAdjustmentsTable (groupOr 1 adjustmentsTableMatch),
       take 3000 (matched adjustmentsTableMatch))
  | None => ([], [], "No AdjustmentsTable found")
  end.

Definition parseSOAPResponse (xmlString : string) : ParsedResponse :=
  let level1 := unescapeXml xmlString in
  let level2 := unescapeXml level1 in
  let tagAdjustments :=
    flat_map parseGlobalAdjustment (execAll adjItemRegex level2) in
  let table := adjustmentsTable level2 in
  let adjustmentsByTemplateId := fst (fst table) in
  let debugAdjustmentsSection := snd table in
  let globalAdjustments := tagAdjustments ++ snd (fst table) in
  let programMatches := execAll programRegex level2 in
  let programs :=
    flat_map (fun m => optionToList (parseProgram adjustmentsByTemplateId m))
             programMatches in
  let sorted := sort compare programs in
  mkParsed sorted (List.length sorted) (nonEmpty globalAdjustments)
           (firstBody programMatches) debugAdjustmentsSection.

End Parser.

(** ** Loosely typed values

    The request body and the values handed to [safeNumber] are not known
    to be numbers; the three shapes that matter are kept apart. *)

Module JsValue.
Inductive t : Type :=
| VUndefined
| VNum (n : option Q)
| VStr (s : string).

Definition truthy (v : t) : bool :=
  match v with
  | VUndefined => false
  | VNum n => JsNumber.truthy n
  | VStr s => JsString.truthy s
  end.

(** [parseFloat(v)]: a number is written out and read back, which gives
    the number itself. *)
Definition parseFloat (v : t) : option Q :=
  match v with
  | VUndefined => None
  | VNum n => n
  | VStr s => JsNumber.parseFloat s
  end.
End JsValue.

(** ** The request handler, from the upstream response onwards *)

Module Handler.
Import Regex JsNumber Xml Parser JsString.

(** The fields of the normalised request body that the handler reads
    after the upstream call. *)
Record FormData : Type := mkForm {
  occupancyType : option string;
  loanPurpose : option string;
  documentationType : option string;
  loanType : option string;
  dscrRatio : option string;
  dscrValue : JsValue.t
}.

(** [v === s] for an optional string. *)
Definition strictEq (v : option string) (s : string) : bool :=
  match v with
  | Some x => String.eqb x s
  | None => false
  end.

(** [v || d] for an optional string. *)
Definition orString (v : option string) (d : string) : string :=
  match v with
  | Some x => orElse x d
  | None => d
  end.

Definition isDSCRRequest (formData : FormData) : bool :=
  let docType := orString (documentationType formData) "fullDoc" in
  let loanType := orString (loanType formData) "nonqm" in
  String.eqb docType "dscr" || String.eqb loanType "dscr".

(** [/\d\s*YR\s*PPP/i] *)
Definition pppRegExp : RegExp :=
  mkRegExp (RSeqs [RDigitCls; RStar true RSpaceCls; RLit "YR";
                   RStar true RSpaceCls; RLit "PPP"])
           true.

(** The local helper [hasPPP] of the handler. *)
Definition hasPPP (text : string) : bool :=
  if negb (truthy text) then false
  else
    let upper := toUpperCase text in
    if includes upper "0MO PPP" || includes upper "0 YR PPP"
       || includes upper "0YR PPP"
    then false
    else includes upper " PPP" || includes upper "YR PPP"
         || test pppRegExp upper.

(** *** The store of program objects *)

Definition Store : Type := list Program.t.
Definition M (A : Type) : Type := Store -> A * Store.

Definition ret {A : Type} (a : A) : M A := fun st => (a, st).

Definition bind {A B : Type} (m : M A) (f : A -> M B) : M B :=
  fun st => let '(a, st') := m st in f a st'.

Notation "x <- m ;; k" := (bind m (fun x => k))
  (at level 61, m at next level, right associativity).
Notation "m ;;; k" := (bind m (fun _ => k))
  (at level 61, right associativity).

Fixpoint update (i : nat) (p : Program.t) (st : Store) : Store :=
  match st, i with
  | [], _ => []
  | _ :: st', O => p :: st'
  | q :: st', S i' => q :: update i' p st'
  end.

Definition read (ref : nat) : M (option Program.t) :=
  fun st => (nth_error st ref, st).

Definition write (ref : nat) (p : Program.t) : M unit :=
  fun st => (tt, update ref p st).

(** [refs.filter(f)] with a callback that may write to the store. *)
Fixpoint filterM (f : nat -> M bool) (refs : list nat) : M (list nat) :=
  match refs with
  | [] => ret []
  | r :: refs' =>
      keep <- f r ;;
      kept <- filterM f refs' ;;
      ret (if keep then r :: kept else kept)
  end.

Fixpoint forEachM (f : nat -> M unit) (refs : list nat) : M unit :=
  match refs with
  | [] => ret tt
  | r :: refs' => f r ;;; forEachM f refs'
  end.

(** [result.programs.filter(p => p.status === 'Eligible')] *)
Definition eligibleRefs (st : Store) : list nat :=
  filter (fun i => match nth_error st i with
                   | Some p => String.eqb (Program.status p) "Eligible"
                   | None => false
                   end)
         (seq 0 (List.length st)).

(** The callback of the second filter: it drops the program on a penalty
    in its name or description, and otherwise replaces the rate options
    of the program object by those without a penalty. *)
Definition keepProgram (ref : nat) : M bool :=
  o <- read ref ;;
  match o with
  | None => ret false
  | Some p =>
      if hasPPP (Program.programName p) || hasPPP (Program.name p)
      then ret false
      else if hasPPP (Program.description p) then ret false
      else
        let p' :=
          Program.setRateOptions p
            (filter (fun ro => negb (hasPPP (RateOption.description ro)))
                    (Program.rateOptions p)) in
        write ref p' ;;;
        ret (0 <? List.length (Program.rateOptions p'))
  end.

(** *** Adjustments *)

(** [/DSCR:\s*DSCR\s*>=?\s*[\d.]+/i] *)
Definition dscrRegExp : RegExp :=
  mkRegExp (RSeqs [RLit "DSCR:"; RStar true RSpaceCls; RLit "DSCR";
                   RStar true RSpaceCls; RChar ">"; ROpt (RChar "=");
                   RStar true RSpaceCls;
                   RPlus (RSet false [CDigit; CChar "."])])
           true.

Definition actualDSCRValue (formData : FormData) : option string :=
  if isDSCRRequest formData && JsValue.truthy (dscrValue formData)
  then Some (toFixed (JsValue.parseFloat (dscrValue formData)) 3)
  else None.

Definition actualDSCRTier (formData : FormData) : option string :=
  if isDSCRRequest formData then
    match dscrRatio formData with
    | Some r => if truthy r then Some r else None
    | None => None
    end
  else None.

(** The callback of [filter]. *)
Definition keepAdjustment (formData : FormData) (adj : Adjustment.t) : bool :=
  let desc := toUpperCase (orElse (Adjustment.description adj) EmptyString) in
  if negb (isDSCRRequest formData) && includes desc "DSCR" then false
  else if strictEq (loanPurpose formData) "refinance"
          && includes desc "CASHOUT" then false
  else true.

(** The callback of [map]. *)
Definition rewriteAdjustment (formData : FormData) (adj : Adjustment.t)
  : Adjustment.t :=
  match actualDSCRValue formData with
  | Some value =>
      if isDSCRRequest formData
         && includes
              (toUpperCase (orElse (Adjustment.description adj) EmptyString))
              "DSCR"
      then
        let newDesc :=
          replace dscrRegExp
                  ("DSCR: " ++ value ++ " ("
                     ++ orString (actualDSCRTier formData) "N/A" ++ ")")%string
                  (Adjustment.description adj) in
        Adjustment.withDescription adj newDesc
      else adj
  | None => adj
  end.

(** [adjustments.filter(...).map(...)], written twice in the source: for
    the adjustments of a rate option and for the global list. *)
Definition sanitizeAdjustments (formData : FormData)
           (adjustments : list Adjustment.t) : list Adjustment.t :=
  map (rewriteAdjustment formData)
      (filter (keepAdjustment formData) adjustments).

Definition sanitizeRateOption (formData : FormData) (ro : RateOption.t)
  : RateOption.t :=
  match RateOption.adjustments ro with
  | None => ro
  | Some adjustments =>
      RateOption.setAdjustments
        ro (Some (sanitizeAdjustments formData adjustments))
  end.

(** The body of [eligiblePrograms.forEach]: the rate option objects are
    owned by their program, so updating them is updating the program. *)
Definition sanitizeProgram (formData : FormData) (ref : nat) : M unit :=
  o <- read ref ;;
  match o with
  | None => ret tt
  | Some p =>
      write ref (Program.setRateOptions
                   p (map (sanitizeRateOption formData)
                          (Program.rateOptions p)))
  end.

(** *** Responses *)

Module Summary.
Record t : Type := make {
  programName : string;
  status : string;
  rateOptionsCount : nat;
  sampleRateDesc : string
}.
End Summary.

Module Debug.
Record t : Type := make {
  isInvestment : bool;
  occupancyType : option string;
  eligibleCount : nat
}.
End Debug.

(** The fields of [data] that do not come out of floating-point
    formulas ([monthlyPayment] and [ltvRatio] are left out, as is the
    echo of the request in [debugSentValues]). *)
Module Data.
Record t : Type := make {
  rate : Q;
  apr : Q;
  points : Q;
  closingCosts : JsValue.t;
  programName : string;
  investorName : string;
  programs : list Program.t;
  totalPrograms : nat;
  source : string;
  globalAdjustments : option (list Adjustment.t);
  debugXmlSample : string;
  debugAdjustmentsSection : string
}.
End Data.

(** What is sent: the HTTP status and the JSON body. *)
Record Response : Type := mkResponse {
  statusCode : nat;
  success : bool;
  error : option string;
  allPrograms : option (list Summary.t);
  debug : option Debug.t;
  data : option Data.t
}.

Definition failure (code : nat) (message : string) : Response :=
  mkResponse code false (Some message) None None None.

Definition summary (p : Program.t) : Summary.t :=
  Summary.make
    (Program.programName p)
    (Program.status p)
    (List.length (Program.rateOptions p))
    (match Program.rateOptions p with
     | ro :: _ => orElse (RateOption.description ro) "N/A"
     | [] => "N/A"
     end).

Definition deref (st : Store) (refs : list nat) : list Program.t :=
  flat_map (fun r => optionToList (nth_error st r)) refs.

Definition getEligible : M (list nat) :=
  fun st => (eligibleRefs st, st).

(** The eligibility and penalty filter: the array [eligiblePrograms]
    before the adjustments are touched. *)
Definition filterPrograms (formData : FormData) : M (list nat) :=
  let isInvestment := strictEq (occupancyType formData) "investment" in
  eligible <- getEligible ;;
  if negb isInvestment then filterM keepProgram eligible
  else ret eligible.

(** [eligiblePrograms.forEach(...)]: the adjustments of every rate
    option of the remaining programs are filtered and rewritten. *)
Definition sanitizePrograms (formData : FormData) (eligible : list nat)
  : M unit :=
  forEachM (sanitizeProgram formData) eligible.

Definition selectPrograms (formData : FormData) : M (list nat) :=
  eligible <- filterPrograms formData ;;
  sanitizePrograms formData eligible ;;;
  ret eligible.

(** [/Error[>Q']>([^<]+)</], where Q stands for the quotation mark. *)
Definition errorRegExp : RegExp :=
  mkRegExp (RSeqs [RLit "Error";
                   RSet false [CChar ">"; CChar dquote; CChar "'"];
                   RChar ">"; RGroup 1 (RPlus (RNot "<")); RChar "<"])
           false.

(** [/<RunQuickPricerV2Result>([\s\S]*?)<\/RunQuickPricerV2Result>/] *)
Definition resultRegExp : RegExp :=
  mkRegExp (RSeqs [RLit "<RunQuickPricerV2Result>";
                   RGroup 1 (RStar false RAny);
                   RLit "</RunQuickPricerV2Result>"])
           false.

(** What the calls to the token and pricing services came to: an
    exception (caught by the handler), or a response. *)
Inductive Upstream : Type :=
| Threw (message : option string)
| Returned (ok : bool) (status : nat) (responseText : string).

(** The engine reports an error in a response of status 200. *)
Definition engineError (responseText : string) : bool :=
  includes responseText "status=&quot;Error&quot;"
  || includes responseText ("status=" ++ quot ++ "Error" ++ quot)%string.

Definition mlError (responseText : string) : string :=
  match exec errorRegExp responseText with
  | Some m => orElse (groupOr 1 m) "Unknown pricing error"
  | None => "Unknown pricing error"
  end.

Definition resultXml (responseText : string) : string :=
  match exec resultRegExp responseText with
  | Some m => groupOr 1 m
  | None => responseText
  end.

(** The handler from the parsed result on.  The references in
    [eligiblePrograms] are references into the store, so that the array is
    empty exactly when the programs it refers to are none. *)
Definition assemble (formData : FormData) (result : ParsedResponse)
  : Response :=
  let isInvestment := strictEq (occupancyType formData) "investment" in
  let '(eligiblePrograms, st) :=
    selectPrograms formData (Parser.programs result) in
  match deref st eligiblePrograms with
  | [] =>
      mkResponse 200 false
        (Some "No programs found. Please adjust your scenario.")
        (Some (map summary st))
        (Some (Debug.make
                 isInvestment (occupancyType formData)
                 (List.length
                    (filter (fun p => String.eqb (Program.status p)
                                                 "Eligible") st))))
        None
  | (topProgram :: _) as programs =>
      mkResponse 200 true None None None
        (Some (Data.make
                 (Program.rate topProgram)
                 (Program.apr topProgram)
                 (Program.points topProgram)
                 (if isZero (Program.totalClosingCost topProgram)
                  then JsValue.VStr EmptyString
                  else JsValue.VNum
                         (Some (Program.totalClosingCost topProgram)))
                 (Program.programName topProgram)
                 (orElse (Program.investorName topProgram) EmptyString)
                 programs
                 (List.length programs)
                 "meridianlink"
                 (match Parser.globalAdjustments result with
                  | Some g => Some (sanitizeAdjustments formData g)
                  | None => None
                  end)
                 (Parser.debugXmlSample result)
                 (Parser.debugAdjustmentsSection result)))
  end.

(** The part of the handler after a response text is at hand. *)
Definition respond (formData : FormData) (responseText : string) : Response :=
  if engineError responseText then failure 200 (mlError responseText)
  else assemble formData (parseSOAPResponse (resultXml responseText)).

(** The handler of a POST request. *)
Definition handler (formData : FormData) (up : Upstream) : Response :=
  match up with
  | Threw message =>
      failure 500 (match message with
                   | Some m => m
                   | None => "Failed to get pricing"
                   end)
  | Returned ok status responseText =>
      if negb ok
      then failure 200 ("MeridianLink returned HTTP "
                          ++ decimalOfZ (Z.of_nat status))%string
      else respond formData responseText
  end.

End Handler.

(** ** PricingLogic: penalty rules and the target-pricing selector *)

Module PricingLogic.
Import Regex JsNumber JsString.

(** [safeNumber(value, fallback)] *)
Definition safeNumber (value : JsValue.t) (fallback : Q) : Q :=
  match value with
  | JsValue.VNum (Some n) => n
  | JsValue.VStr s =>
      match parseFloat s with
      | Some parsed => parsed
      | None => fallback
      end
  | _ => fallback
  end.

Definition num (q : Q) : JsValue.t := JsValue.VNum (Some q).

Definition getPPPPattern (prepayPeriod : string) : string :=
  if String.eqb prepayPeriod "5year" then "5 YR PPP"
  else if String.eqb prepayPeriod "4year" then "4 YR PPP"
  else if String.eqb prepayPeriod "3year" then "3 YR PPP"
  else if String.eqb prepayPeriod "2year" then "2 YR PPP"
  else if String.eqb prepayPeriod "1year" then "1 YR PPP"
  else if String.eqb prepayPeriod "0year" then "0 YR PPP"
  else "3 YR PPP".

(** [/\d\s*YR\s*PPP/i] *)
Definition pppRegExp : RegExp :=
  mkRegExp (RSeqs [RDigitCls; RStar true RSpaceCls; RLit "YR";
                   RStar true RSpaceCls; RLit "PPP"])
           true.

Definition hasPPPInName (text : string) : bool :=
  let upper := toUpperCase text in
  if includes upper "0MO PPP" || includes upper "0 YR PPP"
     || includes upper "0YR PPP"
  then false
  else includes upper " PPP" || includes upper "YR PPP"
       || test pppRegExp upper.

Definition isPPPAllowed (occupancyType : string) : bool :=
  String.eqb occupancyType "investment".

(** [filterProgramsByOccupancy]; the assignment to [program.rateOptions]
    shows in the programs that are returned. *)
Definition filterProgramsByOccupancy (programs : list Program.t)
           (occupancyType : string) : list Program.t :=
  if String.eqb occupancyType "investment" then programs
  else
    flat_map
      (fun program =>
         let name := orElse (Program.name program) EmptyString in
         if hasPPPInName name then []
         else
           let program' :=
             Program.setRateOptions program
               (filter (fun opt =>
                          negb (hasPPPInName
                                  (orElse (RateOption.description opt)
                                          EmptyString)))
                       (Program.rateOptions program)) in
           match Program.rateOptions program' with
           | [] => []
           | _ :: _ => [program']
           end)
      programs.

Module Target.
Record t : Type := make {
  rate : Q;
  points : Q;
  apr : Q;
  price : Q;
  payment : Q;
  programName : string;
  adjustments : list Adjustment.t
}.
End Target.

(** The two variables the loops assign: [targetOption] and
    [closestDistance], whose initial [Infinity] is [None]. *)
Definition Selection : Type := (option Target.t * option Q)%type.

Definition closer (distance : Q) (closestDistance : option Q) : bool :=
  match closestDistance with
  | None => true
  | Some c => ltb distance c
  end.

Definition orEmpty (adjustments : option (list Adjustment.t))
  : list Adjustment.t :=
  match adjustments with
  | Some l => l
  | None => []
  end.

(** The part the two passes share, from [const points] on. *)
Definition consider (programName : string) (sel : Selection)
           (opt : RateOption.t) : Selection :=
  let points := safeNumber (num (RateOption.points opt)) 0 in
  let price := sub 100 points in
  if geb price 99 && leb price 101 then
    let distance := abs (sub price 100) in
    if closer distance (snd sel) then
      (Some (Target.make
               (safeNumber (num (RateOption.rate opt)) 0)
               points
               (safeNumber (num (RateOption.apr opt)) 0)
               price
               (safeNumber (num (RateOption.payment opt)) 0)
               (orElse (RateOption.description opt) programName)
               (orEmpty (RateOption.adjustments opt))),
       Some distance)
    else sel
  else sel.

(** The body of the inner [forEach] of the first pass. *)
Definition firstPass (pppAllowed : bool) (selectedPPP programName : string)
           (sel : Selection) (opt : RateOption.t) : Selection :=
  let desc := toUpperCase (orElse (RateOption.description opt) programName) in
  let hasPPP := hasPPPInName desc in
  if negb pppAllowed && hasPPP then sel
  else if pppAllowed
          && negb (includes desc (toUpperCase selectedPPP)
                   || includes desc
                        (toUpperCase (replaceFirst " YR " "YR " selectedPPP)))
  then sel
  else consider programName sel opt.

(** The body of the inner [forEach] of the fallback pass. *)
Definition fallbackPass (pppAllowed : bool) (programName : string)
           (sel : Selection) (opt : RateOption.t) : Selection :=
  let desc := toUpperCase (orElse (RateOption.description opt) programName) in
  let hasPPP := hasPPPInName desc in
  if negb pppAllowed && hasPPP then sel
  else consider programName sel opt.

(** [programs.forEach(program => program.rateOptions.forEach(body))] *)
Definition scan (body : string -> Selection -> RateOption.t -> Selection)
           (programs : list Program.t) (sel : Selection) : Selection :=
  fold_left
    (fun sel program =>
       let programName := orElse (Program.name program) "Unknown" in
       fold_left (body programName) (Program.rateOptions program) sel)
    programs sel.

Definition getTargetPricing (programs : option (list Program.t))
           (occupancyType prepayPeriod : string) : option Target.t :=
  match programs with
  | None => None
  | Some programs =>
      let pppAllowed := isPPPAllowed occupancyType in
      let selectedPPP :=
        if pppAllowed then getPPPPattern prepayPeriod else EmptyString in
      let sel := scan (firstPass pppAllowed selectedPPP) programs (None, None) in
      let sel :=
        match fst sel with
        | None => scan (fallbackPass pppAllowed) programs sel
        | Some _ => sel
        end in
      fst sel
  end.

End PricingLogic.

(** ** The copy of the selector in the client ([App.tsx]) *)

Module App.
Import Regex JsNumber JsString.
Import PricingLogic (Selection, Target.t, consider, scan, pppRegExp).

(** The local helper of the client's [getTargetPricing]. *)
Definition hasPPPInName (text : string) : bool :=
  let upper := toUpperCase text in
  if includes upper "0MO PPP" || includes upper "0 YR PPP"
     || includes upper "0YR PPP"
  then false
  else includes upper " PPP" || includes upper "YR PPP"
       || test pppRegExp upper.

(** The first pass of the client always looks for the five-year
    penalty on an investment property. *)
Definition firstPass (isPPPAllowed : bool) (programName : string)
           (sel : Selection) (opt : RateOption.t) : Selection :=
  let desc := toUpperCase (orElse (RateOption.description opt) programName) in
  let hasPPP := hasPPPInName desc in
  if negb isPPPAllowed && hasPPP then sel
  else if isPPPAllowed
          && negb (includes desc "5 YR PPP" || includes desc "5YR PPP"
                   || includes desc "60MO PPP")
  then sel
  else consider programName sel opt.

Definition fallbackPass (isPPPAllowed : bool) (programName : string)
           (sel : Selection) (opt : RateOption.t) : Selection :=
  let desc := toUpperCase (orElse (RateOption.description opt) programName) in
  let hasPPP := hasPPPInName desc in
  if negb isPPPAllowed && hasPPP then sel
  else consider programName sel opt.

(** [getTargetPricing] of the component, with the two pieces of state it
    closes over: [result.programs] and [formData.occupancyType]. *)
Definition getTargetPricing (programs : option (list Program.t))
           (occupancyType : string) : option PricingLogic.Target.t :=
  match programs with
  | None => None
  | Some programs =>
      let isPPPAllowed := String.eqb occupancyType "investment" in
      let sel := scan (firstPass isPPPAllowed) programs (None, None) in
      let sel :=
        match fst sel with
        | None => scan (fallbackPass isPPPAllowed) programs sel
        | Some _ => sel
        end in
      fst sel
  end.

(** What [handleSubmit] does with the body of the response: an
    unsuccessful body is thrown as an error with its message; the data of
    a successful one are shown (after the sanitizing of the client, which
    is not modelled). *)
Inductive Outcome : Type :=
| ShowError (message : string)
| ShowResult (data : Handler.Data.t).

Definition handleResponse (r : Handler.Response) : Outcome :=
  if negb (Handler.success r)
  then ShowError (match Handler.error r with
                  | Some e => orElse e "Pricing request failed"
                  | None => "Pricing request failed"
                  end)
  else
    match Handler.data r with
    | Some d => ShowResult d
    | None => ShowError "Invalid pricing response from server"
    end.

End App.

(** ** The vocabulary of the specification *)

Module Spec.
Import JsString.

(** [s] contains [p]. *)
Definition Contains (s p : string) : Prop :=
  exists a b, s = (a ++ p ++ b)%string.

(** [text] contains [pat] when the case of letters is ignored; [pat] is
    written in upper case. *)
Definition ContainsCI (text pat : string) : Prop :=
  exists a m b, text = (a ++ m ++ b)%string /\ toUpperCase m = pat.

(** The entity sequences of the escaper. *)
Definition entities : list string :=
  ["&amp;"; "&lt;"; "&gt;"; "&quot;"; "&apos;"].

(** [s] contains none of them. *)
Definition noEntities (s : string) : bool :=
  forallb (fun e => negb (includes s e)) entities.

(** The text in which the characters chosen by the five flags are written
    as entities: what the passes of the escaper and of the unescaper have
    in hand between two replacements. *)
Definition escapeChar (amp lt gt quo apo : bool) (c : ascii) : string :=
  if amp && Ascii.eqb c "&" then "&amp;"
  else if lt && Ascii.eqb c "<" then "&lt;"
  else if gt && Ascii.eqb c ">" then "&gt;"
  else if quo && Ascii.eqb c dquote then "&quot;"
  else if apo && Ascii.eqb c "'" then "&apos;"
  else String c EmptyString.

Fixpoint escaped (amp lt gt quo apo : bool) (s : string) : string :=
  match s with
  | EmptyString => EmptyString
  | String c t =>
      (escapeChar amp lt gt quo apo c ++ escaped amp lt gt quo apo t)%string
  end.

(** The implied price of a rate option and its distance to par. *)
Definition price (o : RateOption.t) : Q := (100 - RateOption.points o)%Q.
Definition inBand (o : RateOption.t) : Prop :=
  (99 <= price o)%Q /\ (price o <= 101)%Q.
Definition distance (o : RateOption.t) : Q := Qabs (price o - 100)%Q.

(** The rate options in scan order, each with the name of its program
    as the selector sees it. *)
Definition candidates (programs : list Program.t)
  : list (string * RateOption.t) :=
  flat_map (fun p => map (pair (orElse (Program.name p) "Unknown"))
                         (Program.rateOptions p))
           programs.

(** The target built from a rate option. *)
Definition targetOf (programName : string) (o : RateOption.t)
  : PricingLogic.Target.t :=
  PricingLogic.Target.make
    (RateOption.rate o) (RateOption.points o) (RateOption.apr o)
    (JsNumber.sub 100 (RateOption.points o)) (RateOption.payment o)
    (orElse (RateOption.description o) programName)
    (PricingLogic.orEmpty (RateOption.adjustments o)).

(** What the two variables of the selector hold once the candidates [cs]
    have been scanned: nothing when no candidate is in the band, else the
    target of a candidate in the band that is strictly closer to par than
    every candidate in the band before it and at least as close as every
    one after it. *)
Definition Selected (cs : list (string * RateOption.t))
           (sel : PricingLogic.Selection) : Prop :=
  match sel with
  | (None, None) => forall pn o, In (pn, o) cs -> ~ inBand o
  | (Some t, Some d) =>
      exists l1 pn o l2,
        cs = l1 ++ (pn, o) :: l2
        /\ t = targetOf pn o
        /\ (d == distance o)%Q
        /\ inBand o
        /\ (forall pn' o', In (pn', o') l1 -> inBand o' ->
                           (distance o < distance o')%Q)
        /\ (forall pn' o', In (pn', o') l2 -> inBand o' ->
                           (distance o <= distance o')%Q)
  | _ => False
  end.

(** No candidate is a penalty for the selector, which classifies the
    description of the rate option, or the name of the program when the
    description is empty. *)
Definition noPenalty (programs : list Program.t) : Prop :=
  Forall (fun c =>
            PricingLogic.hasPPPInName
              (toUpperCase (orElse (RateOption.description (snd c)) (fst c)))
            = false)
         (candidates programs).

(** A list of programs as the filter leaves it for a property that is not
    an investment: no penalty in a name or in a description of a rate
    option. *)
Definition penaltyFree (programs : list Program.t) : Prop :=
  Forall (fun p =>
            PricingLogic.hasPPPInName (Program.name p) = false
            /\ Forall (fun o => PricingLogic.hasPPPInName
                                  (RateOption.description o) = false)
                      (Program.rateOptions p))
         programs.

(** The ordering of the assembled programs: eligible programs first,
    then by rate. *)
Definition eligible (p : Program.t) : bool :=
  String.eqb (Program.status p) "Eligible".

Definition before (a b : Program.t) : Prop :=
  (eligible b = true -> eligible a = true)
  /\ (eligible a = eligible b -> (Program.rate a <= Program.rate b)%Q).

(** Two programs that the ordering does not tell apart. *)
Definition sameKey (a b : Program.t) : bool :=
  Bool.eqb (eligible a) (eligible b)
  && Qeq_bool (Program.rate a) (Program.rate b).

End Spec.

(** ** The handler, program by program

    What the passes over the store come to for a single program object;
    the section on the store below proves that they do. *)

Module HandlerSpec.
Import Handler.

Definition isInvestment (formData : FormData) : bool :=
  strictEq (occupancyType formData) "investment".

(** The program is dropped for a penalty in its name or description. *)
Definition flagged (p : Program.t) : bool :=
  hasPPP (Program.programName p) || hasPPP (Program.name p)
  || hasPPP (Program.description p).

Definition withoutPenalties (p : Program.t) : Program.t :=
  Program.setRateOptions p
    (filter (fun ro => negb (hasPPP (RateOption.description ro)))
            (Program.rateOptions p)).

Definition stripPenalties (p : Program.t) : Program.t :=
  if flagged p then p else withoutPenalties p.

Definition survives (p : Program.t) : bool :=
  negb (flagged p)
  && (0 <? List.length (Program.rateOptions (withoutPenalties p))).

Definition sanitized (formData : FormData) (p : Program.t) : Program.t :=
  Program.setRateOptions p
    (map (sanitizeRateOption formData) (Program.rateOptions p)).

(** The program is in [eligiblePrograms] at the end. *)
Definition kept (formData : FormData) (p : Program.t) : bool :=
  Spec.eligible p && (isInvestment formData || survives p).

(** The program object after the filter. *)
Definition afterFilter (formData : FormData) (p : Program.t) : Program.t :=
  if negb (isInvestment formData) && Spec.eligible p
  then stripPenalties p else p.

(** The program object at the end. *)
Definition afterAll (formData : FormData) (p : Program.t) : Program.t :=
  if kept formData p then sanitized formData (afterFilter formData p)
  else afterFilter formData p.

(** The array [eligiblePrograms], dereferenced, after the filter and at
    the end. *)
Definition filterOutput (formData : FormData) (st : Store)
  : list Program.t :=
  let '(refs, st') := filterPrograms formData st in deref st' refs.

Definition selectOutput (formData : FormData) (st : Store)
  : list Program.t :=
  let '(refs, st') := selectPrograms formData st in deref st' refs.

(** The description of the program is the description of one of its
    rate options, as it is for every program the parser builds. *)
Definition describedByOption (p : Program.t) : Prop :=
  exists o, In o (Program.rateOptions p)
            /\ Program.description p = RateOption.description o.

(** The references to the programs of [st] that satisfy [f]. *)
Definition refsOf (f : Program.t -> bool) (st : Store) : list nat :=
  filter (fun i => match nth_error st i with
                   | Some p => f p
                   | None => false
                   end)
         (seq 0 (List.length st)).

(** Applying [g] to the objects whose index satisfies [phi], the first
    index being [k]. *)
Fixpoint mapFrom (k : nat) (phi : nat -> bool)
         (g : Program.t -> Program.t) (st : Store) : Store :=
  match st with
  | [] => []
  | p :: st' => (if phi k then g p else p) :: mapFrom (S k) phi g st'
  end.

(** A callback that reads the object at its reference, writes [g] of it
    back and returns [b] of it. *)
Definition Local {A : Type} (f : nat -> M A) (b : Program.t -> A)
           (g : Program.t -> Program.t) : Prop :=
  forall r p st,
    nth_error st r = Some p -> f r st = (b p, update r (g p) st).

End HandlerSpec.

(** A payload is written with apostrophes where the XML has quotation
    marks. *)
Definition xml (s : string) : string :=
  JsString.replaceAll "'" Xml.quot s.

(** ** Sample inputs *)

Module Examples.
Import Handler.


(** A result with a table of a visible and a hidden item, attached to a
    rate option by its template. *)
Definition tableDocument : string :=
  xml ("<Result><AdjustmentsTable><Adjustment lLpTemplateId='T1'>"
       ++ "<AdjustmentItem Description='LTV 75-80' Point='0.500%' Rate='0.000%'/>"
       ++ "<AdjustmentItem Description='FICO 740+' Point='-0.250%' Rate='0.125%'/>"
       ++ "<AdjustmentItem Description='Price Group' IsHidden='True' Point='1.000%'/>"
       ++ "</Adjustment></AdjustmentsTable>"
       ++ "<Program Name='NonQM 30yr' Status='Eligible' Term='360'>"
       ++ "<RateOption Rate='6.500' Point='0.250' APR='6.6' Payment='2,528.27'"
       ++ " Description='30yr Fixed' lLpTemplateId='T1'/>"
       ++ "</Program></Result>")%string.

(** A DSCR request on an investment property. *)
Definition dscrForm : FormData :=
  mkForm (Some "investment") (Some "purchase") (Some "dscr") (Some "nonqm")
         (Some ">=1.250") (JsValue.VStr "1.312").

(** The body of an upstream response around a result document. *)
Definition envelope (document : string) : string :=
  ("<soap:Envelope><soap:Body><RunQuickPricerV2Response>"
   ++ "<RunQuickPricerV2Result>"
   ++ Xml.escapeXml (Xml.escapeXml document)
   ++ "</RunQuickPricerV2Result>"
   ++ "</RunQuickPricerV2Response></soap:Body></soap:Envelope>")%string.

(** Three programs with statuses Ineligible, Eligible, Eligible and
    rates 3.0, 5.0, 4.0. *)
Definition orderingDocument : string :=
  xml ("<Result>"
       ++ "<Program Name='P1' Status='Ineligible'>"
       ++ "<RateOption Rate='3.0' Point='0.000' Description='first'/>"
       ++ "</Program>"
       ++ "<Program Name='P2' Status='Eligible'>"
       ++ "<RateOption Rate='5.0' Point='0.000' Description='second'/>"
       ++ "</Program>"
       ++ "<Program Name='P3' Status='Eligible'>"
       ++ "<RateOption Rate='4.0' Point='0.000' Description='third'/>"
       ++ "</Program>"
       ++ "</Result>")%string.

(** A full-documentation purchase of a primary residence. *)
Definition primaryForm : FormData :=
  mkForm (Some "primary") (Some "purchase") (Some "fullDoc") (Some "nonqm")
         None JsValue.VUndefined.

(** A result with penalties in names and descriptions, an ineligible
    program, and DSCR and cash-out lines in the adjustments table. *)
Definition sampleDocument : string :=
  xml ("<Result><AdjustmentsTable><Adjustment lLpTemplateId='T1'>"
       ++ "<AdjustmentItem Description='LTV 75-80' Point='0.500%' Rate='0.000%'/>"
       ++ "<AdjustmentItem Description='DSCR: DSCR &gt;= 1.25' Point='-0.250%' Rate='0.000%'/>"
       ++ "<AdjustmentItem Description='Cashout Refi' Point='0.375%' Rate='0.000%'/>"
       ++ "</Adjustment></AdjustmentsTable>"
       ++ "<Program Name='NonQM 30yr Fixed' Status='Eligible' Term='360'>"
       ++ "<RateOption Rate='6.500' Point='0.250' Description='30yr Fixed 0MO PPP'"
       ++ " lLpTemplateId='T1' Status='Available'/>"
       ++ "<RateOption Rate='6.250' Point='-0.100' Description='30yr Fixed 5 YR PPP'"
       ++ " lLpTemplateId='T1'/>"
       ++ "<RateOption Rate='6.375' Point='0.100' Description='30yr Fixed 10 YR PPP'"
       ++ " lLpTemplateId='T1'/>"
       ++ "</Program>"
       ++ "<Program Name='Investor 3 YR PPP' Status='Eligible'>"
       ++ "<RateOption Rate='6.000' Point='0.000' Description='Investor 30yr'/>"
       ++ "</Program>"
       ++ "<Program Name='Jumbo 30yr' Status='Ineligible'>"
       ++ "<RateOption Rate='5.875' Point='1.500' Description='Jumbo'/>"
       ++ "</Program></Result>")%string.

Definition sampleResponse : string := envelope sampleDocument.

(** The programs of the sample, as parsed. *)
Definition samplePrograms : list Program.t :=
  Eval vm_compute in
    Parser.programs (Parser.parseSOAPResponse (resultXml sampleResponse)).

(** A result in which nothing qualifies for a primary residence: an
    ineligible program and a program with a penalty in its name. *)
Definition unqualifiedDocument : string :=
  xml ("<Result>"
       ++ "<Program Name='Jumbo 30yr' Status='Ineligible'>"
       ++ "<RateOption Rate='5.875' Point='1.500' Description='Jumbo'/>"
       ++ "</Program>"
       ++ "<Program Name='Investor 3 YR PPP' Status='Eligible'>"
       ++ "<RateOption Rate='6.000' Point='0.000' Description='Investor 30yr'/>"
       ++ "</Program></Result>")%string.

Definition unqualifiedResponse : string := envelope unqualifiedDocument.

(** Two programs whose rate options are priced 98.8, 99.5, 100.2 and
    101.3. *)
Definition rateOptionAt (rate points : Q) (description : string)
  : RateOption.t :=
  RateOption.make rate points rate 0 description EmptyString "Available"
                  false 0 0 None.

Definition programNamed (name : string) (rateOptions : list RateOption.t)
  : Program.t :=
  Program.make name name "Eligible" 360 EmptyString EmptyString 0 0
               EmptyString 30 0 0 0 0 EmptyString EmptyString 0 0
               rateOptions None.


End Examples.

(** ** Further vocabulary and samples *)

Module SanitizerSpec.

(** A rate option and a program without their adjustment lists. *)
Definition withoutAdjustments (o : RateOption.t) : RateOption.t :=
  RateOption.setAdjustments o None.

Definition optionsOnly (p : Program.t) : Program.t :=
  Program.setRateOptions p (map withoutAdjustments (Program.rateOptions p)).

End SanitizerSpec.

Module Samples.
Import Handler.

(** A full-documentation refinance of a primary residence. *)
Definition refinanceForm : FormData :=
  mkForm (Some "primary") (Some "refinance") (Some "fullDoc") (Some "nonqm")
         None JsValue.VUndefined.

End Samples.

(** ** The two passes of the selector, as a choice among candidates *)

Module JsObject.

(** The property names that an object literal inherits from
    [Object.prototype]: looked up in an object used as a map, they yield
    a function or an object, not a value of the map. *)
Definition inheritedKeys : list string :=
  ["constructor"; "__defineGetter__"; "__defineSetter__"; "hasOwnProperty";
   "__lookupGetter__"; "__lookupSetter__"; "isPrototypeOf";
   "propertyIsEnumerable"; "toString"; "valueOf"; "__proto__";
   "toLocaleString"].

End JsObject.

Module SelectorSpec.
Import JsNumber JsString PricingLogic.

(** A rate option with the name of its program. *)
Definition Candidate : Type := (string * RateOption.t)%type.

(** The text the selector classifies: the description of the rate
    option, or the name of the program when the description is empty, in
    upper case. *)
Definition label (c : Candidate) : string :=
  toUpperCase (orElse (RateOption.description (snd c)) (fst c)).

Definition penalty (c : Candidate) : bool := hasPPPInName (label c).


(** The label test of the client: the five-year penalty. *)
Definition matchesFiveYear (c : Candidate) : bool :=
  includes (label c) "5 YR PPP" || includes (label c) "5YR PPP"
  || includes (label c) "60MO PPP".


Definition fallbackEligible (pppAllowed : bool) (c : Candidate) : bool :=
  pppAllowed || negb (penalty c).

(** The price of the rate option is in the band. *)
Definition inBandb (o : RateOption.t) : bool :=
  geb (sub 100 (RateOption.points o)) 99
  && leb (sub 100 (RateOption.points o)) 101.

(** The candidates the result is chosen from: those of the first pass
    when one of them is in the band, else those of the fallback pass. *)
Definition pool (first fallback : Candidate -> bool) (cs : list Candidate)
  : list Candidate :=
  if existsb (fun c => inBandb (snd c)) (filter first cs)
  then filter first cs
  else filter fallback cs.

(** [t] is the choice among [cs]: nothing when no candidate is in the
    band, else the target of a candidate in the band that is strictly
    closer to par than every candidate in the band before it and at least
    as close as every one after it. *)
Definition Picked (cs : list Candidate) (t : option Target.t) : Prop :=
  match t with
  | None => forall pn o, In (pn, o) cs -> ~ Spec.inBand o
  | Some t =>
      exists l1 pn o l2,
        cs = l1 ++ (pn, o) :: l2
        /\ t = Spec.targetOf pn o
        /\ Spec.inBand o
        /\ (forall pn' o', In (pn', o') l1 -> Spec.inBand o' ->
                           (Spec.distance o < Spec.distance o')%Q)
        /\ (forall pn' o', In (pn', o') l2 -> Spec.inBand o' ->
                           (Spec.distance o <= Spec.distance o')%Q)
  end.

End SelectorSpec.

(** ** PricingLogic: utilities, filters and searches *)

Module PricingTools.
Import Regex JsNumber JsString PricingLogic.

Definition add (a b : Q) : Q := Qred (a + b).
Definition mul (a b : Q) : Q := Qred (a * b).

(** [a / b], used where the source has made sure that [b] is not zero. *)
Definition div (a b : Q) : Q := Qred (a / b).

(** [Math.round]: the nearest integer, the larger one of two. *)
Definition round (x : Q) : Q := inject_Z (Qfloor (x + (1 # 2))).


Module DSCR.
Record t : Type := make {
  value : Q;
  range : string;
  display : string
}.
End DSCR.

(** The chain of comparisons that names the range of a ratio. *)
Definition rangeOf (ratio : Q) : string :=
  if geb ratio (5 # 4) then ">=1.250"
  else if geb ratio (23 # 20) then "1.150-1.249"
  else if geb ratio 1 then "1.00-1.149"
  else if geb ratio (3 # 4) then "0.750-0.999"
  else if geb ratio (1 # 2) then "0.500-0.749"
  else "noRatio".

(** [calculateDSCR] *)
Definition calculateDSCR (grossRent presentHousingExpense : Q) : DSCR.t :=
  if leb presentHousingExpense 0 then DSCR.make 0 "noRatio" "N/A"
  else
    let ratio := div grossRent presentHousingExpense in
    DSCR.make (div (round (mul ratio 1000)) 1000)
              (rangeOf ratio)
              (toFixed (Some ratio) 3).

(** [formatPercent] and [formatPrice] *)
Definition formatPercent (value : Q) (decimals : nat) : string :=
  (toFixed (Some value) decimals ++ "%")%string.

Definition formatPrice (points : Q) : string :=
  toFixed (Some (sub 100 points)) 3.

(** [filterRateOptionsByPrice]; the defaults of [minPrice] and
    [maxPrice] are 99 and 101. *)
Definition filterRateOptionsByPrice (rateOptions : list RateOption.t)
           (minPrice maxPrice : Q) : list RateOption.t :=
  filter (fun opt =>
            let price := sub 100 (safeNumber (num (RateOption.points opt)) 0) in
            geb price minPrice && leb price maxPrice)
         rateOptions.


Module Totals.
Record t : Type := make {
  priceAdjustment : Q;
  rateAdjustment : Q
}.
End Totals.




End PricingTools.

(** ** The client: the programs it lists *)

Module Client.
Import JsNumber JsString PricingLogic.

(** [filterRateOptionsByPrice] of the component. *)
Definition filterRateOptionsByPrice (rateOptions : list RateOption.t)
  : list RateOption.t :=
  filter (fun opt =>
            let price := sub 100 (safeNumber (num (RateOption.points opt)) 0) in
            geb price 99 && leb price 101)
         rateOptions.

(** The programs counted under Available Programs, and listed: those
    with a rate option in the price range. *)
Definition availablePrograms (programs : list Program.t) : list Program.t :=
  filter (fun p =>
            0 <? List.length (filterRateOptionsByPrice (Program.rateOptions p)))
         programs.

End Client.

(** ** Sorting keys *)

Module SortSpec.
Import JsNumber.


End SortSpec.

(** ** The codes of the pricing engine *)

Module Mapping.
Import JsString.

(** What [map[key] || d] and [map[key] ?? d] evaluate to for an object
    literal [map] of numbers: a number, or for a key that names an
    inherited property the function or object that is inherited. *)
Inductive Looked : Type :=
| Code (n : Z)
| Inherited.

Definition own (map : list (string * Z)) (key : string) : option Z :=
  option_map snd (find (fun kv => String.eqb (fst kv) key) map).

Definition inherited (key : string) : bool :=
  existsb (String.eqb key) JsObject.inheritedKeys.

(** [map[key] || d] *)
Definition lookupOr (map : list (string * Z)) (key : string) (d : Z)
  : Looked :=
  match own map key with
  | Some n => Code (if Z.eqb n 0 then d else n)
  | None => if inherited key then Inherited else Code d
  end.

(** [map[key] ?? d] *)
Definition lookupNullish (map : list (string * Z)) (key : string) (d : Z)
  : Looked :=
  match own map key with
  | Some n => Code n
  | None => if inherited key then Inherited else Code d
  end.

Definition loanPurposeMap : list (string * Z) :=
  [("purchase", 1); ("refinance", 2); ("cashout", 2)]%Z.

Definition mapLoanPurpose (purpose : string) : Looked :=
  lookupOr loanPurposeMap purpose 1.

Definition occupancyMap : list (string * Z) :=
  [("primary", 0); ("secondary", 1); ("investment", 2)]%Z.

Definition mapOccupancy (occupancy : string) : Looked :=
  lookupNullish occupancyMap occupancy 0.

Definition propertyTypeMap : list (string * Z) :=
  [("sfr", 1); ("condo", 2); ("townhouse", 3); ("2unit", 4); ("3unit", 5);
   ("4unit", 6); ("5-9unit", 7)]%Z.

Definition mapPropertyType (type : string) : Looked :=
  lookupOr propertyTypeMap type 1.

Definition incomeDocTypeMap : list (string * Z) :=
  [("fullDoc", 1); ("altDoc", 2); ("bankStatement", 3);
   ("bankStatement12", 3); ("bankStatement24", 3);
   ("bankStatementOther", 3); ("taxReturns1Yr", 2); ("assetDepletion", 4);
   ("assetUtilization", 4); ("dscr", 5); ("voe", 6); ("noRatio", 7)]%Z.

Definition mapIncomeDocType (documentationType : string) : Looked :=
  lookupOr incomeDocTypeMap documentationType 1.

Definition citizenshipMap : list (string * Z) :=
  [("usCitizen", 0); ("permanentResident", 1); ("nonPermanentResident", 2);
   ("foreignNational", 3); ("itin", 4)]%Z.

Definition mapCitizenship (citizenship : string) : Looked :=
  lookupNullish citizenshipMap citizenship 0.

Definition dscrRatioMap : list (string * Z) :=
  [(">=1.250", 1); ("1.150-1.249", 2); ("1.00-1.149", 3);
   ("0.750-0.999", 4); ("0.500-0.749", 5); ("noRatio", 6)]%Z.

(** [mapDSCRRatio]; the handler calls it with a field of the request
    that may be missing. *)
Definition mapDSCRRatio (dscrRatio : option string) : Looked :=
  lookupOr dscrRatioMap
           (orElse (match dscrRatio with
                    | Some s => s
                    | None => EmptyString
                    end)
                   "1.00-1.149")
           3.

End Mapping.

(** ** The client: the ratio it computes *)

Module ClientRatio.
Import JsNumber JsString PricingTools.

Record t : Type := make {
  ratio : Q;
  range : string;
  display : string
}.


End ClientRatio.

(** ** PricingLogic: the memory of past pricings *)

Module LoanScenario.
Record t : Type := make {
  loanAmount : Q;
  propertyValue : Q;
  ltv : Q;
  creditScore : Q;
  dti : Q;
  occupancyType : string;
  propertyType : string;
  loanPurpose : string;
  loanTerm : Q;
  prepayPeriod : option string
}.
End LoanScenario.

Module PricingMemory.
Import JsNumber JsString PricingLogic PricingTools.

(** The store keeps pricing results without looking into them, but for
    their field [apiError]; it is written for any type of results. *)
Section Store.
Context {PricingResult : Type} (apiError : PricingResult -> option string).

Record Entry : Type := mkEntry {
  id : string;
  timestamp : Z;
  scenario : LoanScenario.t;
  result : option PricingResult;
  targetPricing : option Target.t;
  duration : Q
}.

(** The private field [entries], newest first. *)
Definition Store : Type := list Entry.

Definition maxEntries : nat := 100.

Definition empty : Store := [].

(** [add]: [now] is the clock read for the id, [suffix] the nine random
    characters of the id and [date] the clock read for the timestamp. *)
Definition add (now : Z) (suffix : string) (date : Z)
           (scenario : LoanScenario.t) (result : option PricingResult)
           (targetPricing : option Target.t) (duration : Q)
           (entries : Store) : string * Store :=
  let id := ("pricing_" ++ decimalOfZ now ++ "_" ++ suffix)%string in
  let entry := mkEntry id date scenario result targetPricing duration in
  let entries := entry :: entries in
  let entries :=
    if maxEntries <? List.length entries then firstn maxEntries entries
    else entries in
  (id, entries).

Definition getAll (entries : Store) : list Entry := entries.

Definition getById (id' : string) (entries : Store) : option Entry :=
  find (fun e => String.eqb (id e) id') entries.

(** [entries.slice(0, count)] for an integer [count]: a negative count
    is counted from the end. *)
Definition getRecent (count : Z) (entries : Store) : list Entry :=
  let len := Z.of_nat (List.length entries) in
  let stop := if (count <? 0)%Z then Z.max (len + count) 0
              else Z.min count len in
  firstn (Z.to_nat stop) entries.

(** [Math.abs(a - b) / b <= tolerance]: the quotient by zero is [NaN] or
    [Infinity], which is not below any tolerance. *)
Definition within (a b tolerance : Q) : bool :=
  if isZero b then false
  else leb (div (abs (sub a b)) b) tolerance.

Definition findSimilar (scenario' : LoanScenario.t) (tolerance : Q)
           (entries : Store) : list Entry :=
  filter (fun entry =>
            let s := scenario entry in
            within (LoanScenario.ltv s) (LoanScenario.ltv scenario') tolerance
            && within (LoanScenario.creditScore s)
                      (LoanScenario.creditScore scenario') tolerance
            && within (LoanScenario.loanAmount s)
                      (LoanScenario.loanAmount scenario') tolerance
            && String.eqb (LoanScenario.occupancyType s)
                          (LoanScenario.occupancyType scenario')
            && String.eqb (LoanScenario.loanPurpose s)
                          (LoanScenario.loanPurpose scenario'))
         entries.

Record Stats : Type := mkStats {
  totalQueries : nat;
  avgDuration : Q;
  avgRate : Q;
  successRate : Q
}.

(** [e.result && !e.result.apiError] *)
Definition succeeded (e : Entry) : bool :=
  match result e with
  | Some r =>
      negb (match apiError r with
            | Some message => truthy message
            | None => false
            end)
  | None => false
  end.

Definition count (l : list Entry) : Q := inject_Z (Z.of_nat (List.length l)).

Definition getStats (entries : Store) : Stats :=
  let successful := filter succeeded entries in
  let avgDuration :=
    if 0 <? List.length entries
    then div (fold_left (fun sum e => PricingTools.add sum (duration e))
                        entries 0%Q)
             (count entries)
    else 0%Q in
  let avgRate :=
    if 0 <? List.length successful
    then div (fold_left
                (fun sum e =>
                   PricingTools.add
                     sum
                     (orDefault (option_map Target.rate (targetPricing e))
                                0))
                successful 0%Q)
             (count successful)
    else 0%Q in
  mkStats (List.length entries)
          (round avgDuration)
          (div (round (mul avgRate 1000)) 1000)
          (if 0 <? List.length entries
           then round (mul (div (count successful) (count entries)) 100)
           else 0%Q).

Definition clear (entries : Store) : Store := [].

(** The states of the store: what [add] and [clear] make of the empty
    store. *)
Inductive Reachable : Store -> Prop :=
| reach_empty : Reachable empty
| reach_add now suffix date scenario result targetPricing duration entries :
    Reachable entries ->
    Reachable (snd (add now suffix date scenario result targetPricing
                        duration entries))
| reach_clear entries : Reachable entries -> Reachable (clear entries).

End Store.

Arguments Entry : clear implicits.
Arguments Store : clear implicits.

End PricingMemory.

Module MemorySamples.
Import PricingMemory.

(** A purchase of a primary residence with the given LTV, and an entry
    of the store for it, with the message of a failed pricing or
    without. *)
Definition scenarioAt (ltv : Q) : LoanScenario.t :=
  LoanScenario.make 400000 500000 ltv 740 35 "primary" "sfr" "purchase" 360
                    None.

Definition entryAt (ltv : Q) (apiError : option string)
  : Entry (option string) :=
  mkEntry "pricing_0_abc" 0 (scenarioAt ltv) (Some apiError) None 1200.

End MemorySamples.

(** ** PricingLogic: validation of a scenario *)

Module Validation.
Import JsNumber.

Record ValidationResult : Type := mkValidation {
  isValid : bool;
  errors : list string;
  warnings : list string
}.

(** [if (test) list.push(message)] *)
Definition pushIf (test : bool) (message : string) (l : list string)
  : list string :=
  if test then l ++ [message] else l.

Definition gtb (a b : Q) : bool := ltb b a.

(** [validateScenario] *)
Definition validateScenario (scenario : LoanScenario.t) : ValidationResult :=
  let loanAmount := LoanScenario.loanAmount scenario in
  let propertyValue := LoanScenario.propertyValue scenario in
  let creditScore := LoanScenario.creditScore scenario in
  let dti := LoanScenario.dti scenario in
  let ltv := LoanScenario.ltv scenario in
  let errors := [] in
  let warnings := [] in
  let errors :=
    pushIf (ltb loanAmount 50000)
           "Loan amount must be at least $50,000" errors in
  let errors :=
    pushIf (gtb loanAmount 5000000)
           "Loan amount exceeds maximum ($5M)" errors in
  let errors :=
    pushIf (ltb propertyValue 125000)
           "Property value must be at least $125,000" errors in
  let errors :=
    pushIf (gtb propertyValue 100000000)
           "Property value exceeds maximum ($100M)" errors in
  let errors :=
    pushIf (ltb creditScore 620 || gtb creditScore 999)
           "Credit score must be 620-999" errors in
  let errors :=
    pushIf (ltb dti 1 || gtb dti 55) "DTI must be 1-55%" errors in
  let errors := pushIf (gtb ltv 90) "LTV cannot exceed 90%" errors in
  let warnings :=
    pushIf (gtb ltv 80) "High LTV may limit program availability"
           warnings in
  let warnings :=
    pushIf (ltb creditScore 680)
           "Better rates available with 680+ credit score" warnings in
  let warnings :=
    pushIf (gtb dti 43) "DTI above 43% may require manual underwriting"
           warnings in
  let warnings :=
    pushIf (gtb dti 50) "High DTI may significantly limit options"
           warnings in
  mkValidation (match errors with [] => true | _ :: _ => false end)
               errors warnings.

End Validation.

(** ** The programs of the parser *)

Module ParserSpec.
Import Parser.

(** What [parseProgram] pushes. *)
Definition wellFormed (p : Program.t) : Prop :=
  Program.name p <> EmptyString
  /\ Program.programName p = Program.name p
  /\ Program.rateOptions p <> []
  /\ Program.adjustments p <> Some []
  /\ Forall (fun o => RateOption.adjustments o <> Some [])
            (Program.rateOptions p)
  /\ exists best,
       bestOption (Program.rateOptions p) = Some best
       /\ Program.rate p = RateOption.rate best
       /\ Program.apr p = RateOption.apr best
       /\ Program.points p = RateOption.points best
       /\ Program.payment p = RateOption.payment best
       /\ Program.description p = RateOption.description best
       /\ Program.investorName p = RateOption.investor best
       /\ Program.totalClosingCost p = RateOption.totalClosingCost best
       /\ Program.cashToClose p = RateOption.cashToClose best.

End ParserSpec.

(** ** Texts without a given character *)

Module RegexSpec.

(** The character [c] does not occur in [s]. *)
Fixpoint lacks (c : ascii) (s : string) : bool :=
  match s with
  | EmptyString => true
  | String d t => negb (Ascii.eqb d c) && lacks c t
  end.

(** The characters of a name: letters, digits and the underscore, none
    of which has a meaning of its own in a regular expression. *)
Definition isWordChar (c : ascii) : bool :=
  let n := nat_of_ascii c in
  ((48 <=? n) && (n <=? 57)) || ((65 <=? n) && (n <=? 90))
  || ((97 <=? n) && (n <=? 122)) || (n =? 95).

Fixpoint isWord (s : string) : bool :=
  match s with
  | EmptyString => true
  | String c t => isWordChar c && isWord t
  end.

End RegexSpec.

(** ** The request: synonyms of its fields *)

Module Request.
Import JsString.

Definition isUpper (c : ascii) : bool :=
  (65 <=? nat_of_ascii c) && (nat_of_ascii c <=? 90).

Definition lowerChar (c : ascii) : ascii :=
  if isUpper c then ascii_of_nat (nat_of_ascii c + 32) else c.

(** [String.prototype.toLowerCase]. *)
Fixpoint toLowerCase (s : string) : string :=
  match s with
  | EmptyString => EmptyString
  | String c t => String (lowerChar c) (toLowerCase t)
  end.

(** The fields of the request body that [normalizeFormData] reads or
    writes; each is missing, a number or a string. *)
Record Body : Type := mkBody {
  fico : JsValue.t;
  creditScore : JsValue.t;
  zipCode : JsValue.t;
  propertyZip : JsValue.t;
  state : JsValue.t;
  propertyState : JsValue.t;
  purchasePrice : JsValue.t;
  propertyValue : JsValue.t;
  occupancy : JsValue.t;
  occupancyType : JsValue.t;
  propertyType : JsValue.t;
  loanPurpose : JsValue.t;
  incomeDocType : JsValue.t;
  documentationType : JsValue.t
}.

(** [if (a && !b) norm.b = a] *)
Definition fill (a b : JsValue.t) : JsValue.t :=
  if JsValue.truthy a && negb (JsValue.truthy b) then a else b.

(** [v.toLowerCase()] of a truthy value: a number has no such method,
    and the call throws. *)
Definition lower (v : JsValue.t) : option string :=
  match v with
  | JsValue.VStr s => Some (toLowerCase s)
  | _ => None
  end.

(** A chain [if (x.includes(k1)) f = v1; else if (x.includes(k2) ||
    x.includes(k3)) f = v2; ...]: the value of the first rule one of
    whose keys the text includes. *)
Fixpoint firstMatch (text : string) (rules : list (list string * string))
  : option string :=
  match rules with
  | [] => None
  | (keys, v) :: rules' =>
      if existsb (includes text) keys then Some v else firstMatch text rules'
  end.

(** [if (source) { const x = source.toLowerCase(); chain }]: the field
    assigned by the chain, which stands at [current]; [None] when the call
    of [toLowerCase] throws. *)
Definition assignBy (source current : JsValue.t)
           (rules : list (list string * string)) : option JsValue.t :=
  if JsValue.truthy source then
    match lower source with
    | Some text =>
        Some (match firstMatch text rules with
              | Some v => JsValue.VStr v
              | None => current
              end)
    | None => None
    end
  else Some current.

Definition occupancyRules : list (list string * string) :=
  [(["primary"], "primary"); (["second"], "secondary");
   (["invest"], "investment")].

Definition propertyTypeRules : list (list string * string) :=
  [(["single"], "sfr"); (["condo"], "condo"); (["town"], "townhouse");
   (["2-4"], "2unit"); (["5-9"; "5+"], "5-9unit")].

Definition loanPurposeRules : list (list string * string) :=
  [(["purchase"], "purchase"); (["refi"], "refinance");
   (["cash"], "cashout")].

Definition documentationRules : list (list string * string) :=
  [(["full"], "fullDoc"); (["dscr"; "investor"], "dscr");
   (["bank"], "bankStatement"); (["asset"], "assetUtilization");
   (["voe"], "voe"); (["1099"], "altDoc");
   (["no ratio"; "noratio"], "noRatio")].

(** [normalizeFormData]; [None] when it throws. *)
Definition normalizeFormData (data : Body) : option Body :=
  match assignBy (occupancy data) (occupancyType data) occupancyRules with
  | None => None
  | Some occupancyType' =>
      match assignBy (propertyType data) (propertyType data)
                     propertyTypeRules with
      | None => None
      | Some propertyType' =>
          match assignBy (loanPurpose data) (loanPurpose data)
                         loanPurposeRules with
          | None => None
          | Some loanPurpose' =>
              match assignBy (incomeDocType data) (documentationType data)
                             documentationRules with
              | None => None
              | Some documentationType' =>
                  Some (mkBody
                          (fico data)
                          (fill (fico data) (creditScore data))
                          (zipCode data)
                          (fill (zipCode data) (propertyZip data))
                          (state data)
                          (fill (state data) (propertyState data))
                          (purchasePrice data)
                          (fill (purchasePrice data) (propertyValue data))
                          (occupancy data)
                          occupancyType'
                          propertyType'
                          loanPurpose'
                          (incomeDocType data)
                          documentationType')
              end
          end
      end
  end.

End Request.

Module RequestSamples.
Import Request.

(** A body written with the synonyms. *)
Definition synonymBody : Body :=
  mkBody (JsValue.VNum (Some 740%Q)) JsValue.VUndefined
         (JsValue.VStr "92101") JsValue.VUndefined
         (JsValue.VStr "CA") JsValue.VUndefined
         (JsValue.VNum (Some 500000%Q)) JsValue.VUndefined
         (JsValue.VStr "Investment Property") (JsValue.VStr "primary")
         (JsValue.VStr "Single Family")
         (JsValue.VStr "Cash-Out Refinance")
         (JsValue.VStr "DSCR / Investor") JsValue.VUndefined.

End RequestSamples.

(** * Properties *)

(** ** Strings *)

Section StringFacts.
Import JsString.

Lemma stripPrefix_app (p r : string) :
  stripPrefix p (p ++ r) = Some r.
Proof.
  induction p as [|a p IH]; simpl; [reflexivity|].
  now rewrite Ascii.eqb_refl.
Qed.

Lemma stripPrefix_Some (p s r : string) :
  stripPrefix p s = Some r -> s = (p ++ r)%string.
Proof.
  revert s; induction p as [|a p IH]; intros s H; simpl in *.
  - now inversion H.
  - destruct s as [|b s]; [discriminate|].
    destruct (Ascii.eqb a b) eqn:E; [|discriminate].
    apply Ascii.eqb_eq in E; subst b.
    now rewrite (IH _ H).
Qed.

Lemma includes_cons (c : ascii) (s p : string) :
  includes s p = true -> includes (String c s) p = true.
Proof.
  intros H. cbn [includes].
  now destruct (stripPrefix p (String c s)).
Qed.

Lemma includes_here (p s r : string) :
  stripPrefix p s = Some r -> includes s p = true.
Proof. intros H. destruct s; cbn [includes]; now rewrite H. Qed.

Lemma includes_intro (a p b : string) :
  includes (a ++ p ++ b) p = true.
Proof.
  induction a as [|c a IH].
  - change (includes (p ++ b) p = true).
    apply (includes_here p _ b), stripPrefix_app.
  - simpl append. now apply includes_cons.
Qed.

Lemma includes_elim (s p : string) :
  includes s p = true -> Spec.Contains s p.
Proof.
  induction s as [|c s IH]; simpl.
  - destruct (stripPrefix p EmptyString) eqn:E; [|discriminate].
    intros _. exists EmptyString, s. now apply stripPrefix_Some in E.
  - destruct (stripPrefix p (String c s)) eqn:E.
    + intros _. exists EmptyString, s0. now apply stripPrefix_Some in E.
    + intros H. destruct (IH H) as (a & b & ->).
      now exists (String c a), b.
Qed.

Lemma includes_spec (s p : string) :
  includes s p = true <-> Spec.Contains s p.
Proof.
  split; [apply includes_elim|].
  intros (a & b & ->). apply includes_intro.
Qed.

Lemma append_assoc (a b c : string) :
  ((a ++ b) ++ c = a ++ (b ++ c))%string.
Proof. induction a; simpl; congruence. Qed.

Lemma Contains_trans (s p q : string) :
  Spec.Contains s p -> Spec.Contains p q -> Spec.Contains s q.
Proof.
  intros (a & b & ->) (c & d & ->).
  exists (a ++ c)%string, (d ++ b)%string.
  now rewrite !append_assoc.
Qed.

Lemma upperChar_idem (c : ascii) : upperChar (upperChar c) = upperChar c.
Proof. destruct c as [[] [] [] [] [] [] [] []]; reflexivity. Qed.

Lemma toUpperCase_idem (s : string) :
  toUpperCase (toUpperCase s) = toUpperCase s.
Proof.
  induction s as [|c s IH]; simpl; [reflexivity|].
  now rewrite upperChar_idem, IH.
Qed.

Lemma toUpperCase_app (a b : string) :
  toUpperCase (a ++ b) = (toUpperCase a ++ toUpperCase b)%string.
Proof. induction a; simpl; congruence. Qed.

Lemma ContainsCI_includes (text pat : string) :
  Spec.ContainsCI text pat <-> includes (toUpperCase text) pat = true.
Proof.
  split.
  - intros (a & m & b & -> & <-).
    rewrite !toUpperCase_app. apply includes_intro.
  - intros H. apply includes_elim in H. destruct H as (a & b & H).
    revert a b H. induction text as [|c t IH]; intros a b H.
    + exists EmptyString, EmptyString, EmptyString.
      destruct a; [|discriminate]. destruct pat; [|discriminate].
      now split.
    + destruct a as [|x a].
      * (* the pattern starts here *)
        clear IH. exists EmptyString. simpl append in *.
        revert pat b H. generalize (String c t) as u. clear c t.
        intros u pat; revert u.
        induction pat as [|y pat IHp]; intros u b H.
        -- exists EmptyString, u. now split.
        -- destruct u as [|c u]; [discriminate|].
           simpl in H. injection H as Hc Hu.
           destruct (IHp u b Hu) as (m & b' & -> & Hm).
           exists (String c m), b'. split; [reflexivity|].
           simpl. now rewrite Hm, Hc.
      * simpl in H. injection H as _ Ht.
        destruct (IH a b Ht) as (a' & m & b' & -> & Hm).
        now exists (String c a'), m, b'.
Qed.

End StringFacts.

(** ** The store of program objects *)

Section StoreFacts.
Import Handler HandlerSpec.

Lemma nth_error_here (pre : Store) (p : Program.t) (st : Store) :
  nth_error (pre ++ p :: st) (List.length pre) = Some p.
Proof. induction pre; simpl; auto. Qed.

Lemma update_here (pre : Store) (p q : Program.t) (st : Store) :
  update (List.length pre) q (pre ++ p :: st) = pre ++ q :: st.
Proof. induction pre; simpl; congruence. Qed.

Lemma update_same (st : Store) (r : nat) (p : Program.t) :
  nth_error st r = Some p -> update r p st = st.
Proof.
  revert r; induction st as [|q st IH]; intros [|r] H; simpl in *;
    try discriminate; try congruence.
  now rewrite IH.
Qed.

Lemma snoc_app (pre : Store) (p : Program.t) (st : Store) :
  pre ++ p :: st = (pre ++ [p]) ++ st.
Proof. now rewrite <- app_assoc. Qed.

Lemma length_snoc (pre : Store) (p : Program.t) :
  List.length (pre ++ [p]) = S (List.length pre).
Proof. rewrite length_app; simpl; lia. Qed.

Lemma nth_error_after (pre : Store) (p q : Program.t) (st : Store) (i : nat) :
  S (List.length pre) <= i ->
  nth_error (pre ++ p :: st) i = nth_error (pre ++ q :: st) i.
Proof.
  intros H. rewrite !nth_error_app2 by lia.
  destruct (i - List.length pre) eqn:E; [lia|reflexivity].
Qed.

(** A filter with a local callback, run over the references that
    satisfy [phi], on a store whose first objects [pre] are out of
    reach. *)
Lemma filterM_local (f : nat -> M bool) (b : Program.t -> bool)
      (g : Program.t -> Program.t) (phi : nat -> bool) :
  Local f b g ->
  forall st pre : Store,
    filterM f (filter phi (seq (List.length pre) (List.length st)))
            (pre ++ st)
    = (filter (fun i => match nth_error (pre ++ st) i with
                        | Some p => b p
                        | None => false
                        end)
              (filter phi (seq (List.length pre) (List.length st))),
       pre ++ mapFrom (List.length pre) phi g st).
Proof.
  intros Hf st.
  induction st as [|p st IH]; intros pre; [reflexivity|].
  cbn [List.length seq filter mapFrom].
  assert (Hrest :
    forall q,
      filter (fun i => match nth_error (pre ++ p :: st) i with
                       | Some x => b x | None => false end)
             (filter phi (seq (S (List.length pre)) (List.length st)))
      = filter (fun i => match nth_error (pre ++ q :: st) i with
                         | Some x => b x | None => false end)
               (filter phi (seq (S (List.length pre)) (List.length st)))).
  { intros q. apply filter_ext_in. intros i Hi.
    apply filter_In in Hi. destruct Hi as [Hi _]. apply in_seq in Hi.
    now rewrite (nth_error_after pre p q st i) by lia. }
  destruct (phi (List.length pre)) eqn:E.
  - cbn [filterM filter]. unfold bind at 1.
    rewrite (Hf _ _ _ (nth_error_here pre p st)), update_here.
    unfold bind at 1.
    rewrite (snoc_app pre (g p) st).
    rewrite <- (length_snoc pre (g p)).
    rewrite IH. unfold ret.
    rewrite (length_snoc pre (g p)), <- !app_assoc. cbn [app].
    rewrite (nth_error_here pre p st), (Hrest (g p)).
    now destruct (b p).
  - rewrite (snoc_app pre p st) at 1.
    rewrite <- (length_snoc pre p).
    rewrite IH.
    rewrite (length_snoc pre p), <- !app_assoc. cbn [app].
    reflexivity.
Qed.

Lemma forEachM_local (f : nat -> M unit) (g : Program.t -> Program.t)
      (phi : nat -> bool) :
  Local f (fun _ => tt) g ->
  forall st pre : Store,
    forEachM f (filter phi (seq (List.length pre) (List.length st)))
             (pre ++ st)
    = (tt, pre ++ mapFrom (List.length pre) phi g st).
Proof.
  intros Hf st.
  induction st as [|p st IH]; intros pre; [reflexivity|].
  cbn [List.length seq filter mapFrom].
  destruct (phi (List.length pre)) eqn:E.
  - cbn [forEachM]. unfold bind at 1.
    rewrite (Hf _ _ _ (nth_error_here pre p st)), update_here.
    rewrite (snoc_app pre (g p) st).
    rewrite <- (length_snoc pre (g p)).
    rewrite IH.
    now rewrite (length_snoc pre (g p)), <- !app_assoc.
  - rewrite (snoc_app pre p st) at 1.
    rewrite <- (length_snoc pre p).
    rewrite IH.
    now rewrite (length_snoc pre p), <- !app_assoc.
Qed.

(** The callbacks of the handler are local. *)
Lemma keepProgram_local : Local keepProgram survives stripPenalties.
Proof.
  intros r p st H.
  unfold keepProgram, bind, read, write, ret, survives, stripPenalties,
    flagged, withoutPenalties.
  rewrite H.
  destruct (hasPPP (Program.programName p) || hasPPP (Program.name p)).
  - simpl. now rewrite (update_same _ _ _ H).
  - destruct (hasPPP (Program.description p)); simpl.
    + now rewrite (update_same _ _ _ H).
    + reflexivity.
Qed.

Lemma sanitizeProgram_local (formData : FormData) :
  Local (sanitizeProgram formData) (fun _ => tt) (sanitized formData).
Proof.
  intros r p st H. unfold sanitizeProgram, bind, read, write.
  now rewrite H.
Qed.

(** From predicates on indices to predicates on objects. *)
Lemma mapFrom_map (phi : nat -> bool) (psi : Program.t -> bool)
      (g h : Program.t -> Program.t) (st : Store) (k : nat) :
  (forall i p, nth_error st i = Some p -> phi (k + i) = psi p) ->
  mapFrom k phi g (map h st)
  = map (fun p => if psi p then g (h p) else h p) st.
Proof.
  revert k; induction st as [|p st IH]; intros k H; [reflexivity|].
  cbn [mapFrom map].
  rewrite <- (H 0 p eq_refl), Nat.add_0_r. f_equal.
  apply IH. intros i q Hq.
  rewrite <- (H (S i) q Hq). f_equal. lia.
Qed.

Lemma filter_filter_and {A : Type} (f g : A -> bool) (l : list A) :
  filter f (filter g l) = filter (fun x => g x && f x) l.
Proof.
  induction l as [|x l IH]; [reflexivity|]. simpl.
  destruct (g x); simpl; [destruct (f x)|]; now rewrite IH.
Qed.

Lemma deref_map (h : Program.t -> Program.t) (st : Store) (refs : list nat) :
  deref (map h st) refs = map h (deref st refs).
Proof.
  induction refs as [|r refs IH]; [reflexivity|].
  unfold deref in *. cbn [flat_map].
  rewrite map_app, IH, nth_error_map.
  now destruct (nth_error st r).
Qed.

Lemma deref_refsOf_from (f : Program.t -> bool) (st pre : Store) :
  deref (pre ++ st)
        (filter (fun i => match nth_error (pre ++ st) i with
                          | Some p => f p
                          | None => false
                          end)
                (seq (List.length pre) (List.length st)))
  = filter f st.
Proof.
  revert pre; induction st as [|p st IH]; intros pre; [reflexivity|].
  assert (Hrest :
    deref (pre ++ p :: st)
          (filter (fun i => match nth_error (pre ++ p :: st) i with
                            | Some x => f x | None => false end)
                  (seq (S (List.length pre)) (List.length st)))
    = filter f st).
  { rewrite (snoc_app pre p st), <- (length_snoc pre p). apply IH. }
  cbn [List.length seq filter].
  rewrite (nth_error_here pre p st).
  destruct (f p); [|exact Hrest].
  unfold deref in *. cbn [flat_map].
  rewrite (nth_error_here pre p st). cbn [Parser.optionToList app].
  now rewrite Hrest.
Qed.

Lemma deref_refsOf (f : Program.t -> bool) (st : Store) :
  deref st (refsOf f st) = filter f st.
Proof. apply (deref_refsOf_from f st []). Qed.

Lemma eligibleRefs_refsOf (st : Store) :
  eligibleRefs st = refsOf Spec.eligible st.
Proof. reflexivity. Qed.

Lemma refsOf_ext (f g : Program.t -> bool) (st : Store) :
  (forall p, In p st -> f p = g p) -> refsOf f st = refsOf g st.
Proof.
  intros H. apply filter_ext_in. intros i _.
  destruct (nth_error st i) eqn:E; [|reflexivity].
  apply H. eapply nth_error_In; eassumption.
Qed.

(** The filter, program by program. *)
Lemma filterPrograms_spec (formData : FormData) (st : Store) :
  filterPrograms formData st
  = (refsOf (kept formData) st, map (afterFilter formData) st).
Proof.
  unfold filterPrograms, bind, getEligible, kept, afterFilter.
  change (strictEq (occupancyType formData) "investment")
    with (isInvestment formData).
  destruct (isInvestment formData); cbn [negb andb orb].
  - unfold ret. f_equal.
    + rewrite eligibleRefs_refsOf. apply refsOf_ext.
      intros p _. now rewrite andb_true_r.
    + now rewrite map_id.
  - rewrite eligibleRefs_refsOf. unfold refsOf at 1.
    rewrite (filterM_local keepProgram survives stripPenalties _
               keepProgram_local st []).
    cbn [app List.length]. f_equal.
    + rewrite filter_filter_and. apply filter_ext. intros i.
      now destruct (nth_error st i).
    + rewrite <- (map_id st) at 1.
      apply (mapFrom_map _ Spec.eligible stripPenalties (fun p => p) st 0).
      intros i p H. simpl. now rewrite H.
Qed.

(** The filter and the sanitizer, program by program. *)
Lemma selectPrograms_spec (formData : FormData) (st : Store) :
  selectPrograms formData st
  = (refsOf (kept formData) st, map (afterAll formData) st).
Proof.
  unfold selectPrograms, bind. rewrite filterPrograms_spec.
  unfold sanitizePrograms, refsOf.
  rewrite <- (length_map (afterFilter formData) st) at 1.
  rewrite (forEachM_local (sanitizeProgram formData) (sanitized formData) _
             (sanitizeProgram_local formData)
             (map (afterFilter formData) st) []).
  unfold ret. cbn [app List.length]. f_equal.
  unfold afterAll.
  apply (mapFrom_map _ (kept formData) (sanitized formData)
           (afterFilter formData) st 0).
  intros i p H. simpl. now rewrite H.
Qed.

(** The array [eligiblePrograms] that the handler sends. *)
Lemma selected_programs (formData : FormData) (st : Store) :
  deref (map (afterAll formData) st) (refsOf (kept formData) st)
  = map (afterAll formData) (filter (kept formData) st).
Proof. now rewrite deref_map, deref_refsOf. Qed.

Lemma filtered_programs (formData : FormData) (st : Store) :
  deref (map (afterFilter formData) st) (refsOf (kept formData) st)
  = map (afterFilter formData) (filter (kept formData) st).
Proof. now rewrite deref_map, deref_refsOf. Qed.

End StoreFacts.

(** ** The penalty classifier on the examples of the specification *)

(** C3.  The classifier, in each of its three copies (PricingLogic, the
    client, the handler), finds a penalty in the description
    "2 YR PPP 30yr Fixed" and none in "0 YR PPP 30yr Fixed" and in
    "0MO PPP"; the selector, which classifies the upper-cased
    description, does the same whatever the name of the program. *)
Theorem C3_penalty_classifier_examples :
  (PricingLogic.hasPPPInName "2 YR PPP 30yr Fixed" = true
   /\ PricingLogic.hasPPPInName "0 YR PPP 30yr Fixed" = false
   /\ PricingLogic.hasPPPInName "0MO PPP" = false)
  /\ (App.hasPPPInName "2 YR PPP 30yr Fixed" = true
      /\ App.hasPPPInName "0 YR PPP 30yr Fixed" = false
      /\ App.hasPPPInName "0MO PPP" = false)
  /\ (Handler.hasPPP "2 YR PPP 30yr Fixed" = true
      /\ Handler.hasPPP "0 YR PPP 30yr Fixed" = false
      /\ Handler.hasPPP "0MO PPP" = false)
  /\ (forall programName : string,
         PricingLogic.hasPPPInName
           (JsString.toUpperCase
              (JsString.orElse "2 YR PPP 30yr Fixed" programName)) = true
         /\ PricingLogic.hasPPPInName
              (JsString.toUpperCase
                 (JsString.orElse "0 YR PPP 30yr Fixed" programName)) = false
         /\ PricingLogic.hasPPPInName
              (JsString.toUpperCase (JsString.orElse "0MO PPP" programName))
            = false).
Proof.
  repeat split; vm_compute; reflexivity.
Qed.

(** ** The adjustment table parser *)

Section AdjustmentItems.
Import Parser JsNumber JsString Examples.




(** The same through the whole parser. *)
Example tableDocument_adjustments :
  map (fun p => map RateOption.adjustments (Program.rateOptions p))
      (programs (parseSOAPResponse (Xml.escapeXml (Xml.escapeXml tableDocument))))
  = [[Some [Adjustment.make "LTV 75-80" (-1 # 2) 0;
            Adjustment.make "FICO 740+" (1 # 4) (1 # 8)]]].
Proof. vm_compute. reflexivity. Qed.

End AdjustmentItems.

(** ** The adjustment rewriter *)

Section Rewriter.
Import Handler JsString Examples.

Lemma sanitizeAdjustments_app (formData : FormData)
      (l1 l2 : list Adjustment.t) :
  sanitizeAdjustments formData (l1 ++ l2)
  = sanitizeAdjustments formData l1 ++ sanitizeAdjustments formData l2.
Proof. unfold sanitizeAdjustments. now rewrite filter_app, map_app. Qed.

(** C5.  In a DSCR request with computed ratio 1.312 and tier ">=1.250",
    an adjustment described as "DSCR: DSCR >= 1.25" stays where it is
    in its list, its description becomes "DSCR: 1.312 (>=1.250)", and
    its amount and rate adjustment are what they were. *)
Theorem C5_dscr_rewrite (formData : FormData) (amount rateAdj : Q)
        (l1 l2 : list Adjustment.t)
        (Hdscr : isDSCRRequest formData = true)
        (Hvalue : dscrValue formData = JsValue.VStr "1.312"
                  \/ dscrValue formData = JsValue.VNum (Some (164 # 125)%Q))
        (Htier : dscrRatio formData = Some ">=1.250") :
  sanitizeAdjustments
    formData
    (l1 ++ Adjustment.make "DSCR: DSCR >= 1.25" amount rateAdj :: l2)
  = sanitizeAdjustments formData l1
      ++ Adjustment.make "DSCR: 1.312 (>=1.250)" amount rateAdj
      :: sanitizeAdjustments formData l2.
Proof.
  rewrite sanitizeAdjustments_app. f_equal.
  change (Adjustment.make "DSCR: DSCR >= 1.25" amount rateAdj :: l2)
    with ([Adjustment.make "DSCR: DSCR >= 1.25" amount rateAdj] ++ l2).
  rewrite sanitizeAdjustments_app.
  change (Adjustment.make "DSCR: 1.312 (>=1.250)" amount rateAdj
            :: sanitizeAdjustments formData l2)
    with ([Adjustment.make "DSCR: 1.312 (>=1.250)" amount rateAdj]
            ++ sanitizeAdjustments formData l2).
  f_equal.
  assert (Hv : actualDSCRValue formData = Some "1.312").
  { unfold actualDSCRValue. rewrite Hdscr.
    destruct Hvalue as [-> | ->]; reflexivity. }
  assert (Ht : actualDSCRTier formData = Some ">=1.250").
  { unfold actualDSCRTier. now rewrite Hdscr, Htier. }
  unfold sanitizeAdjustments, keepAdjustment, rewriteAdjustment.
  cbn [filter Adjustment.description].
  rewrite Hdscr, Hv, Ht. cbn [negb andb].
  replace (includes (toUpperCase (orElse "DSCR: DSCR >= 1.25" EmptyString))
                    "CASHOUT") with false by reflexivity.
  rewrite andb_false_r. cbn [map Adjustment.description].
  replace (includes (toUpperCase (orElse "DSCR: DSCR >= 1.25" EmptyString))
                    "DSCR") with true by reflexivity.
  reflexivity.
Qed.

Lemma C5_dscr_rewrite_witness :
  sanitizeAdjustments
    dscrForm
    ([Adjustment.make "LTV 75-80" (-1 # 2) 0]
       ++ Adjustment.make "DSCR: DSCR >= 1.25" (1 # 4) (1 # 8) :: [])
  = sanitizeAdjustments dscrForm [Adjustment.make "LTV 75-80" (-1 # 2) 0]
      ++ Adjustment.make "DSCR: 1.312 (>=1.250)" (1 # 4) (1 # 8)
      :: sanitizeAdjustments dscrForm [].
Proof.
  apply (C5_dscr_rewrite dscrForm (1 # 4) (1 # 8)
           [Adjustment.make "LTV 75-80" (-1 # 2) 0] []).
  - reflexivity.
  - left. reflexivity.
  - reflexivity.
Defined.

(** The same through the handler: on the sample, a DSCR request gets the
    rewritten line, with its amount, in every adjustment list and in the
    global list. *)
Example sample_dscr_rewrite :
  match data (handler dscrForm (Returned true 200 sampleResponse)) with
  | Some d =>
      (map (fun p =>
              map (fun o =>
                     map (fun a => (Adjustment.description a,
                                    Adjustment.amount a))
                         (PricingLogic.orEmpty (RateOption.adjustments o)))
                  (Program.rateOptions p))
           (Data.programs d),
       map (fun a => (Adjustment.description a, Adjustment.amount a))
           (PricingLogic.orEmpty (Data.globalAdjustments d)))
      = ([[[]];
          [[("LTV 75-80", (-1 # 2)%Q); ("DSCR: 1.312 (>=1.250)", (1 # 4)%Q);
            ("Cashout Refi", (-3 # 8)%Q)];
           [("LTV 75-80", (-1 # 2)%Q); ("DSCR: 1.312 (>=1.250)", (1 # 4)%Q);
            ("Cashout Refi", (-3 # 8)%Q)];
           [("LTV 75-80", (-1 # 2)%Q); ("DSCR: 1.312 (>=1.250)", (1 # 4)%Q);
            ("Cashout Refi", (-3 # 8)%Q)]]],
         [("LTV 75-80", (-1 # 2)%Q); ("DSCR: 1.312 (>=1.250)", (1 # 4)%Q);
          ("Cashout Refi", (-3 # 8)%Q)])
  | None => False
  end.
Proof. vm_compute. reflexivity. Qed.

End Rewriter.

(** ** Numbers *)

Section NumberFacts.
Import JsNumber.

Lemma ltb_lt (a b : Q) : ltb a b = true <-> (a < b)%Q.
Proof.
  unfold ltb. rewrite negb_true_iff, <- not_true_iff_false, Qle_bool_iff.
  split; [apply Qnot_le_lt | apply Qlt_not_le].
Qed.

Lemma ltb_ge (a b : Q) : ltb a b = false <-> (b <= a)%Q.
Proof.
  unfold ltb. now rewrite negb_false_iff, Qle_bool_iff.
Qed.

Lemma leb_le (a b : Q) : leb a b = true <-> (a <= b)%Q.
Proof. apply Qle_bool_iff. Qed.

Lemma geb_ge (a b : Q) : geb a b = true <-> (b <= a)%Q.
Proof. apply Qle_bool_iff. Qed.

Lemma sub_correct (a b : Q) : (sub a b == a - b)%Q.
Proof. apply Qred_correct. Qed.

Lemma abs_correct (a : Q) : (abs a == Qabs a)%Q.
Proof. apply Qred_correct. Qed.

End NumberFacts.

(** ** The ordering of the assembled programs *)

Section SortFacts.
Import Parser JsNumber.

Section AnyComparator.
Context {A : Type} (cmp : A -> A -> Q).

Lemma insert_perm (x : A) (l : list A) :
  Permutation (insert cmp x l) (x :: l).
Proof.
  induction l as [|y l IH]; simpl; [reflexivity|].
  destruct (ltb 0 (cmp x y)); [|reflexivity].
  rewrite IH. apply perm_swap.
Qed.

Lemma sort_perm (l : list A) : Permutation (sort cmp l) l.
Proof.
  induction l as [|x l IH]; simpl; [reflexivity|].
  now rewrite insert_perm, IH.
Qed.

Lemma sort_In (l : list A) (x : A) : In x (sort cmp l) -> In x l.
Proof. apply Permutation_in, sort_perm. Qed.
End AnyComparator.

Lemma before_compare (a b : Program.t) :
  ltb 0 (compare a b) = false <-> Spec.before a b.
Proof.
  rewrite ltb_ge. unfold compare, eligibleRank, Spec.before, Spec.eligible.
  destruct (String.eqb (Program.status a) "Eligible"),
           (String.eqb (Program.status b) "Eligible"); cbn [Qeq_bool negb];
    try (change (Qeq_bool 0 0) with true);
    try (change (Qeq_bool 1 1) with true);
    try (change (Qeq_bool 0 1) with false);
    try (change (Qeq_bool 1 0) with false);
    cbn [negb]; try rewrite sub_correct.
  - split; [intros H; split; [auto|intros _; lra]|intros [_ H]].
    specialize (H eq_refl). lra.
  - split; [intros _; split; [discriminate|discriminate]|intros _].
    vm_compute. discriminate.
  - split; [intros H; vm_compute in H; now elim H|intros [H _]].
    specialize (H eq_refl). discriminate.
  - split; [intros H; split; [auto|intros _; lra]|intros [_ H]].
    specialize (H eq_refl). lra.
Qed.

Lemma after_compare (a b : Program.t) :
  ltb 0 (compare a b) = true -> Spec.before b a.
Proof.
  rewrite ltb_lt. unfold compare, eligibleRank, Spec.before, Spec.eligible.
  destruct (String.eqb (Program.status a) "Eligible"),
           (String.eqb (Program.status b) "Eligible"); cbn [Qeq_bool negb];
    try (change (Qeq_bool 0 0) with true);
    try (change (Qeq_bool 1 1) with true);
    try (change (Qeq_bool 0 1) with false);
    try (change (Qeq_bool 1 0) with false);
    cbn [negb]; try rewrite sub_correct; intros H.
  - split; [auto|intros _; lra].
  - vm_compute in H. discriminate.
  - split; [auto|discriminate].
  - split; [auto|intros _; lra].
Qed.

Lemma before_trans (a b c : Program.t) :
  Spec.before a b -> Spec.before b c -> Spec.before a c.
Proof.
  unfold Spec.before. intros [H1 H2] [H3 H4].
  destruct (Spec.eligible a), (Spec.eligible b), (Spec.eligible c);
    split; intros; try discriminate; auto;
    try (specialize (H1 eq_refl)); try (specialize (H3 eq_refl));
    try discriminate.
  - specialize (H2 eq_refl). specialize (H4 eq_refl). lra.
  - specialize (H2 eq_refl). specialize (H4 eq_refl). lra.
Qed.

Lemma insert_sorted (x : Program.t) (l : list Program.t) :
  StronglySorted Spec.before l ->
  StronglySorted Spec.before (insert compare x l).
Proof.
  induction 1 as [|y l Hl IH Hy]; simpl.
  - constructor; constructor.
  - destruct (ltb 0 (compare x y)) eqn:E.
    + constructor; [exact IH|].
      apply (Permutation_Forall (Permutation_sym (insert_perm compare x l))).
      constructor; [now apply after_compare|exact Hy].
    + apply before_compare in E.
      constructor; [now constructor|].
      constructor; [exact E|].
      eapply Forall_impl; [|exact Hy].
      intros z Hz. eapply before_trans; eassumption.
Qed.

Lemma sort_sorted (l : list Program.t) :
  StronglySorted Spec.before (sort compare l).
Proof.
  induction l as [|x l IH]; simpl; [constructor|].
  now apply insert_sorted.
Qed.

Lemma sameKey_compare (a x y : Program.t) :
  Spec.sameKey a x = true -> Spec.sameKey a y = true ->
  ltb 0 (compare x y) = false.
Proof.
  unfold Spec.sameKey. rewrite !andb_true_iff, !Qeq_bool_iff.
  intros [Ex Rx] [Ey Ry]. apply Bool.eqb_prop in Ex, Ey.
  apply before_compare. unfold Spec.before.
  split; [congruence|intros _; lra].
Qed.

Lemma insert_stable (a x : Program.t) (l : list Program.t) :
  filter (Spec.sameKey a) (insert compare x l)
  = filter (Spec.sameKey a) (x :: l).
Proof.
  induction l as [|y l IH]; [reflexivity|].
  cbn [insert]. destruct (ltb 0 (compare x y)) eqn:E; [|reflexivity].
  cbn [filter] in *. rewrite IH.
  destruct (Spec.sameKey a x) eqn:Ex, (Spec.sameKey a y) eqn:Ey;
    try reflexivity.
  now rewrite (sameKey_compare a x y Ex Ey) in E.
Qed.

Lemma sort_stable (a : Program.t) (l : list Program.t) :
  filter (Spec.sameKey a) (sort compare l) = filter (Spec.sameKey a) l.
Proof.
  induction l as [|x l IH]; [reflexivity|].
  cbn [sort]. rewrite insert_stable. cbn [filter]. now rewrite IH.
Qed.

End SortFacts.

(** ** The response assembler *)

Section Assembler.
Import Parser Examples.

(** Three programs with statuses Ineligible, Eligible, Eligible and rates
    3, 5, 4, whatever else they hold. *)
Lemma sort_three (p1 p2 p3 : Program.t) :
  Program.status p1 = "Ineligible" ->
  Program.status p2 = "Eligible" ->
  Program.status p3 = "Eligible" ->
  Program.rate p1 = 3%Q -> Program.rate p2 = 5%Q -> Program.rate p3 = 4%Q ->
  sort compare [p1; p2; p3] = [p3; p2; p1].
Proof.
  intros S1 S2 S3 R1 R2 R3.
  assert (C23 : JsNumber.ltb 0 (compare p2 p3) = true).
  { unfold compare, eligibleRank. now rewrite S2, S3, R2, R3. }
  assert (C13 : JsNumber.ltb 0 (compare p1 p3) = true).
  { unfold compare, eligibleRank. now rewrite S1, S3. }
  assert (C12 : JsNumber.ltb 0 (compare p1 p2) = true).
  { unfold compare, eligibleRank. now rewrite S1, S2. }
  cbn [sort insert]. rewrite C23. cbn [insert]. rewrite C13.
  cbn [insert]. now rewrite C12.
Qed.

(** C9.  The sort of the assembler returns a permutation of the parsed
    programs in which every eligible program precedes every other one
    and, among programs of one eligibility class, the rates ascend;
    programs with equal keys keep their order.  For statuses
    Ineligible, Eligible, Eligible and rates 3.0, 5.0, 4.0 the order is
    the eligible program of rate 4.0, the eligible one of rate 5.0, the
    ineligible one. *)
Theorem C9_program_ordering :
  (forall l : list Program.t,
      Permutation (sort compare l) l
      /\ StronglySorted Spec.before (sort compare l)
      /\ (forall a, filter (Spec.sameKey a) (sort compare l)
                    = filter (Spec.sameKey a) l))
  /\ (forall xmlString,
         StronglySorted Spec.before (programs (parseSOAPResponse xmlString)))
  /\ map (fun p => (Program.name p, Program.status p, Program.rate p))
         (programs (parseSOAPResponse
                      (Handler.resultXml (envelope orderingDocument))))
     = [("P3", "Eligible", 4%Q); ("P2", "Eligible", 5%Q);
        ("P1", "Ineligible", 3%Q)].
Proof.
  split; [|split].
  - intros l. split; [apply sort_perm|].
    split; [apply sort_sorted|]. intros a. apply sort_stable.
  - intros xmlString. apply sort_sorted.
  - vm_compute. reflexivity.
Qed.

End Assembler.

(** ** The eligibility and penalty filter *)

Section FilterFacts.
Import Handler HandlerSpec JsString Examples.

Lemma Permutation_filter {A : Type} (f : A -> bool) (l l' : list A) :
  Permutation l l' -> Permutation (filter f l) (filter f l').
Proof.
  induction 1 as [|x l l' _ IH|x y l|l l' l'' _ IH1 _ IH2]; simpl.
  - constructor.
  - destruct (f x); [now constructor|exact IH].
  - destruct (f x), (f y); try reflexivity. apply perm_swap.
  - now transitivity (filter f l').
Qed.

Lemma filterOutput_spec (formData : FormData) (st : Store) :
  filterOutput formData st
  = map (afterFilter formData) (filter (kept formData) st).
Proof.
  unfold filterOutput. rewrite filterPrograms_spec.
  apply filtered_programs.
Qed.

Lemma selectOutput_spec (formData : FormData) (st : Store) :
  selectOutput formData st
  = map (afterAll formData) (filter (kept formData) st).
Proof.
  unfold selectOutput. rewrite selectPrograms_spec.
  apply selected_programs.
Qed.

Lemma orElse_empty (s : string) : orElse s EmptyString = s.
Proof. now destruct s. Qed.

Lemma hasPPP_eq (text : string) :
  hasPPP text = PricingLogic.hasPPPInName text.
Proof. destruct text; reflexivity. Qed.

Lemma hasPPPInName_eq (text : string) :
  App.hasPPPInName text = PricingLogic.hasPPPInName text.
Proof. reflexivity. Qed.

(** What is known of a program that the filter keeps for a property that
    is not an investment. *)
Lemma kept_not_investment (formData : FormData) (p : Program.t) :
  isInvestment formData = false ->
  kept formData p = true ->
  Spec.eligible p = true
  /\ flagged p = false
  /\ afterFilter formData p = withoutPenalties p
  /\ Program.rateOptions (withoutPenalties p) <> [].
Proof.
  intros Hinv Hk. unfold kept, survives in Hk. rewrite Hinv in Hk.
  cbn [orb] in Hk. apply andb_true_iff in Hk as [He Hs].
  apply andb_true_iff in Hs as [Hf Hn]. apply negb_true_iff in Hf.
  repeat split; try assumption.
  - unfold afterFilter, stripPenalties. now rewrite Hinv, He, Hf.
  - intros E. rewrite E in Hn. discriminate.
Qed.

(** C2.  When the occupancy type is not investment, every program in the
    output of the filter has status Eligible, no penalty in its name or
    description, at least one rate option, and no rate option with a
    penalty in its description; this holds for every list of programs,
    and permuting the input permutes the output.  The PricingLogic
    helper [filterProgramsByOccupancy] gives the same guarantee on names
    and rate options. *)
Theorem C2_filter_output (formData : FormData) (st : Store)
        (Hocc : strictEq (occupancyType formData) "investment" = false) :
  Forall (fun p =>
            Program.status p = "Eligible"
            /\ hasPPP (Program.name p) = false
            /\ hasPPP (Program.programName p) = false
            /\ hasPPP (Program.description p) = false
            /\ Program.rateOptions p <> []
            /\ Forall (fun o => hasPPP (RateOption.description o) = false)
                      (Program.rateOptions p))
         (filterOutput formData st)
  /\ (forall st', Permutation st st' ->
                  Permutation (filterOutput formData st)
                              (filterOutput formData st'))
  /\ (forall occupancy programs,
         String.eqb occupancy "investment" = false ->
         Forall (fun p =>
                   PricingLogic.hasPPPInName (Program.name p) = false
                   /\ Program.rateOptions p <> []
                   /\ Forall (fun o => PricingLogic.hasPPPInName
                                         (RateOption.description o) = false)
                             (Program.rateOptions p))
                (PricingLogic.filterProgramsByOccupancy programs occupancy)).
Proof.
  split; [|split].
  - rewrite filterOutput_spec. apply Forall_map, Forall_forall.
    intros p Hp. apply filter_In in Hp as [_ Hk].
    destruct (kept_not_investment formData p Hocc Hk)
      as (He & Hf & -> & Hne).
    unfold flagged in Hf.
    apply orb_false_elim in Hf as [Hf Hd].
    apply orb_false_elim in Hf as [Hpn Hn].
    repeat split; try assumption.
    + now apply String.eqb_eq.
    + apply Forall_forall. intros o Ho.
      apply filter_In in Ho as [_ Ho]. now apply negb_true_iff in Ho.
  - intros st' Hperm. rewrite !filterOutput_spec.
    now apply Permutation_map, Permutation_filter.
  - intros occupancy programs Ho.
    unfold PricingLogic.filterProgramsByOccupancy. rewrite Ho.
    apply Forall_flat_map, Forall_forall. intros p _.
    rewrite orElse_empty.
    destruct (PricingLogic.hasPPPInName (Program.name p)) eqn:Hn;
      [constructor|].
    cbn [Program.rateOptions Program.setRateOptions].
    destruct (filter _ (Program.rateOptions p)) as [|o l] eqn:E;
      constructor; [|constructor].
    cbn [Program.name Program.rateOptions Program.setRateOptions].
    split; [exact Hn|]. split; [discriminate|].
    rewrite <- E. apply Forall_forall. intros o' Ho'.
    apply filter_In in Ho' as [_ Ho']. apply negb_true_iff in Ho'.
    now rewrite orElse_empty in Ho'.
Qed.

Lemma C2_filter_output_witness :
  Forall (fun p =>
            Program.status p = "Eligible"
            /\ hasPPP (Program.name p) = false
            /\ hasPPP (Program.programName p) = false
            /\ hasPPP (Program.description p) = false
            /\ Program.rateOptions p <> []
            /\ Forall (fun o => hasPPP (RateOption.description o) = false)
                      (Program.rateOptions p))
         (filterOutput primaryForm samplePrograms).
Proof.
  apply (C2_filter_output primaryForm samplePrograms). reflexivity.
Defined.

(** On the sample, the filter leaves one program with two of its three
    rate options. *)
Example sample_filterOutput :
  map (fun p => (Program.name p,
                 map RateOption.description (Program.rateOptions p)))
      (filterOutput primaryForm samplePrograms)
  = [("NonQM 30yr Fixed",
      ["30yr Fixed 0MO PPP"; "30yr Fixed 10 YR PPP"])].
Proof. vm_compute. reflexivity. Qed.

End FilterFacts.

(** ** The adjustment sanitizer in the handler *)

Section SanitizerFacts.
Import Handler HandlerSpec JsString Examples.

(** A request is a DSCR request by its documentation type or by its loan
    type, each with its default. *)
Lemma isDSCRRequest_false (formData : FormData) :
  isDSCRRequest formData = false
  <-> orString (documentationType formData) "fullDoc" <> "dscr"
      /\ orString (loanType formData) "nonqm" <> "dscr".
Proof.
  unfold isDSCRRequest.
  rewrite orb_false_iff, !String.eqb_neq. reflexivity.
Qed.


Lemma rewriteAdjustment_not_dscr (formData : FormData) (adj : Adjustment.t) :
  isDSCRRequest formData = false -> rewriteAdjustment formData adj = adj.
Proof.
  intros Hd. unfold rewriteAdjustment, actualDSCRValue. now rewrite Hd.
Qed.



(** The response assembled from a parsed result, with the store passes
    replaced by what they come to. *)
Lemma assemble_spec (formData : FormData) (result : Parser.ParsedResponse) :
  assemble formData result
  = let st := map (afterAll formData) (Parser.programs result) in
    match selectOutput formData (Parser.programs result) with
    | [] =>
        mkResponse 200 false
          (Some "No programs found. Please adjust your scenario.")
          (Some (map summary st))
          (Some (Debug.make
                   (isInvestment formData) (occupancyType formData)
                   (List.length
                      (filter (fun p => String.eqb (Program.status p)
                                                   "Eligible") st))))
          None
    | (topProgram :: _) as programs =>
        mkResponse 200 true None None None
          (Some (Data.make
                   (Program.rate topProgram)
                   (Program.apr topProgram)
                   (Program.points topProgram)
                   (if JsNumber.isZero (Program.totalClosingCost topProgram)
                    then JsValue.VStr EmptyString
                    else JsValue.VNum
                           (Some (Program.totalClosingCost topProgram)))
                   (Program.programName topProgram)
                   (orElse (Program.investorName topProgram) EmptyString)
                   programs
                   (List.length programs)
                   "meridianlink"
                   (match Parser.globalAdjustments result with
                    | Some g => Some (sanitizeAdjustments formData g)
                    | None => None
                    end)
                   (Parser.debugXmlSample result)
                   (Parser.debugAdjustmentsSection result)))
    end.
Proof.
  unfold assemble, selectOutput. rewrite selectPrograms_spec. reflexivity.
Qed.



(** On the sample, the DSCR line leaves the rate options and the global
    list of a full-documentation request. *)
Example sample_sanitized :
  match data (handler primaryForm (Returned true 200 sampleResponse)) with
  | Some d =>
      (map (fun p =>
              map (fun o =>
                     map Adjustment.description
                         (PricingLogic.orEmpty (RateOption.adjustments o)))
                  (Program.rateOptions p))
           (Data.programs d),
       map Adjustment.description
           (PricingLogic.orEmpty (Data.globalAdjustments d)))
      = ([[["LTV 75-80"; "Cashout Refi"]; ["LTV 75-80"; "Cashout Refi"]]],
         ["LTV 75-80"; "Cashout Refi"])
  | None => False
  end.
Proof. vm_compute. reflexivity. Qed.

End SanitizerFacts.

(** ** The outcome without qualifying programs *)

Section NoPrograms.
Import Handler HandlerSpec JsString Examples.

Lemma bestOption_In (l : list RateOption.t) (o : RateOption.t) :
  Parser.bestOption l = Some o -> In o l.
Proof.
  unfold Parser.bestOption.
  destruct (find RateOption.bestPrice l) eqn:E1.
  - intros H; injection H as <-. now apply find_some in E1.
  - match goal with
    | |- context [match find ?f l with _ => _ end] =>
        destruct (find f l) eqn:E2
    end.
    + intros H; injection H as <-. now apply find_some in E2.
    + destruct l; [discriminate|].
      intros H; cbn [hd_error] in H; injection H as <-. now left.
Qed.

Lemma parseProgram_described (byTemplate : Parser.TemplateMap)
      (m : Regex.MatchResult) (p : Program.t) :
  Parser.parseProgram byTemplate m = Some p -> describedByOption p.
Proof.
  unfold Parser.parseProgram. cbv zeta.
  destruct (Parser.bestOption _) as [best|] eqn:E; [|discriminate].
  destruct (truthy _); [|discriminate].
  intros H; injection H as <-.
  exists best. split; [|reflexivity].
  cbn [Program.rateOptions]. now apply bestOption_In.
Qed.

Lemma parsed_described (xmlString : string) :
  Forall describedByOption
         (Parser.programs (Parser.parseSOAPResponse xmlString)).
Proof.
  apply Forall_forall. intros p Hp.
  unfold Parser.parseSOAPResponse in Hp. cbv zeta in Hp.
  cbn [Parser.programs] in Hp.
  apply sort_In, in_flat_map in Hp. destruct Hp as (m & _ & Hm).
  destruct (Parser.parseProgram _ m) as [q|] eqn:E; [|contradiction].
  destruct Hm as [<-|[]]. eapply parseProgram_described; eassumption.
Qed.

Lemma filter_nil_false {A : Type} (f : A -> bool) (l : list A) (x : A) :
  filter f l = [] -> In x l -> f x = false.
Proof.
  intros H Hx. destruct (f x) eqn:E; [|reflexivity].
  assert (Hin : In x (filter f l)) by now apply filter_In.
  rewrite H in Hin. contradiction.
Qed.

Lemma refsOf_nil (f : Program.t -> bool) (st : Store) :
  refsOf f st = [] <-> filter f st = [].
Proof.
  split; intros H.
  - now rewrite <- deref_refsOf, H.
  - destruct (refsOf f st) as [|i l] eqn:E; [reflexivity|].
    assert (Hi : In i (refsOf f st)) by (rewrite E; now left).
    apply filter_In in Hi as [_ Hi].
    destruct (nth_error st i) as [p|] eqn:Ep; [|discriminate].
    apply nth_error_In in Ep.
    now rewrite (filter_nil_false f st p H Ep) in Hi.
Qed.

(** The test [eligiblePrograms.length === 0] of the handler. *)
Lemma eligiblePrograms_empty (formData : FormData) (st : Store) :
  fst (selectPrograms formData st) = []
  <-> selectOutput formData st = [].
Proof.
  rewrite selectOutput_spec, selectPrograms_spec. cbn [fst].
  rewrite refsOf_nil. split; intros H.
  - now rewrite H.
  - now apply map_eq_nil in H.
Qed.

(** When the filter keeps nothing, it has not touched the rate options
    of any program whose description is that of one of its options. *)
Lemma nothing_kept_unchanged (formData : FormData) (st : Store) :
  Forall describedByOption st ->
  filter (kept formData) st = [] ->
  map (afterAll formData) st = st.
Proof.
  intros Hd Hnil. rewrite <- (map_id st) at 2.
  apply map_ext_in. intros p Hp.
  pose proof (filter_nil_false _ _ p Hnil Hp) as Hk.
  unfold afterAll. rewrite Hk. unfold afterFilter, stripPenalties.
  destruct (negb (isInvestment formData) && Spec.eligible p) eqn:E;
    [|reflexivity].
  destruct (flagged p) eqn:Hf; [reflexivity|exfalso].
  apply andb_true_iff in E as [Hi He]. apply negb_true_iff in Hi.
  unfold kept, survives in Hk. rewrite He, Hi, Hf in Hk.
  cbn [andb orb negb] in Hk.
  rewrite Forall_forall in Hd. destruct (Hd p Hp) as (o & Ho & Hdesc).
  unfold flagged in Hf. apply orb_false_elim in Hf as [_ Hf].
  assert (Hin : In o (Program.rateOptions (withoutPenalties p))).
  { cbn [withoutPenalties Program.rateOptions Program.setRateOptions].
    apply filter_In. split; [exact Ho|].
    now rewrite <- Hdesc, Hf. }
  destruct (Program.rateOptions (withoutPenalties p)); [contradiction|].
  discriminate.
Qed.

(** C10, as the code has it.  When the filter removes every parsed
    program, the handler answers with status 200 and a body marked as
    unsuccessful that carries the message "No programs found. Please
    adjust your scenario." in its error field, and the client shows that
    message as an error.  The body carries the summaries of all parsed
    programs as they were before the filter, and a body with such a list
    is sent in this case only: a failure of the upstream call (status
    500), a transport or engine error and a success carry none. *)
Theorem C10_no_programs_outcome (formData : FormData) (status : nat)
        (responseText : string)
        (Hengine : engineError responseText = false)
        (Hempty :
           fst (filterPrograms
                  formData
                  (Parser.programs
                     (Parser.parseSOAPResponse (resultXml responseText))))
           = []) :
  let r := handler formData (Returned true status responseText) in
  (statusCode r = 200 /\ success r = false /\ data r = None
   /\ error r = Some "No programs found. Please adjust your scenario.")
  /\ App.handleResponse r
     = App.ShowError "No programs found. Please adjust your scenario."
  /\ allPrograms r
     = Some (map summary
                 (Parser.programs
                    (Parser.parseSOAPResponse (resultXml responseText))))
  /\ (forall formData' up',
         allPrograms (handler formData' up') <> None ->
         exists status' text',
           up' = Returned true status' text'
           /\ engineError text' = false
           /\ fst (filterPrograms
                     formData'
                     (Parser.programs
                        (Parser.parseSOAPResponse (resultXml text'))))
              = [])
  /\ (forall formData' message,
         statusCode (handler formData' (Threw message)) = 500).
Proof.
  rewrite filterPrograms_spec in Hempty. cbn [fst] in Hempty.
  apply refsOf_nil in Hempty.
  assert (Hr : handler formData (Returned true status responseText)
               = mkResponse 200 false
                   (Some "No programs found. Please adjust your scenario.")
                   (Some (map summary
                              (Parser.programs
                                 (Parser.parseSOAPResponse
                                    (resultXml responseText)))))
                   (Some (Debug.make
                            (isInvestment formData) (occupancyType formData)
                            (List.length
                               (filter
                                  (fun p => String.eqb (Program.status p)
                                                       "Eligible")
                                  (Parser.programs
                                     (Parser.parseSOAPResponse
                                        (resultXml responseText)))))))
                   None).
  { cbn [handler negb]. unfold respond. rewrite Hengine, assemble_spec.
    cbv zeta. rewrite selectOutput_spec, Hempty. cbn [map].
    now rewrite (nothing_kept_unchanged _ _ (parsed_described _) Hempty). }
  cbv zeta. rewrite Hr. clear Hr.
  split; [now repeat split|]. split; [reflexivity|]. split; [reflexivity|].
  split.
  - intros formData' up' H.
    destruct up' as [message|ok status' text']; [now elim H|].
    cbn [handler] in H. destruct ok; cbn [negb] in H; [|now elim H].
    unfold respond in H.
    destruct (engineError text') eqn:Ee; [now elim H|].
    exists status', text'. split; [reflexivity|]. split; [exact Ee|].
    rewrite filterPrograms_spec. cbn [fst]. apply refsOf_nil.
    rewrite assemble_spec in H. cbv zeta in H.
    rewrite selectOutput_spec in H.
    destruct (filter (kept formData') _); [reflexivity|].
    cbn [map] in H. now elim H.
  - reflexivity.
Qed.

Lemma C10_no_programs_outcome_witness :
  let r := handler primaryForm (Returned true 200 unqualifiedResponse) in
  App.handleResponse r
  = App.ShowError "No programs found. Please adjust your scenario."
  /\ allPrograms r
     = Some (map summary
                 (Parser.programs
                    (Parser.parseSOAPResponse
                       (resultXml unqualifiedResponse)))).
Proof.
  pose proof (C10_no_programs_outcome primaryForm 200 unqualifiedResponse
                eq_refl eq_refl) as H.
  cbv zeta in H. cbv zeta.
  split; [exact (proj1 (proj2 H))|exact (proj1 (proj2 (proj2 H)))].
Defined.

(** C10, as the specification words it, fails on the flag of the body:
    for a primary residence and a result with an ineligible program and a
    program with a penalty in its name, the filter keeps nothing, and the
    answer is marked unsuccessful, has an error field, and is shown by
    the client as an error. *)
Lemma C10_counterexample :
  let r := handler primaryForm (Returned true 200 unqualifiedResponse) in
  fst (filterPrograms
         primaryForm
         (Parser.programs
            (Parser.parseSOAPResponse (resultXml unqualifiedResponse))))
  = []
  /\ ~ (success r = true \/ error r = None)
  /\ App.handleResponse r
     = App.ShowError "No programs found. Please adjust your scenario.".
Proof.
  cbv zeta. split; [vm_compute; reflexivity|].
  split; [|vm_compute; reflexivity].
  intros [H|H]; vm_compute in H; discriminate.
Qed.

End NoPrograms.

(** ** The zero-period exemption of the penalty classifier *)

Section Exemption.
Import Handler HandlerSpec JsString Examples.

Lemma hasPPPInName_upper (text : string) :
  PricingLogic.hasPPPInName (toUpperCase text)
  = PricingLogic.hasPPPInName text.
Proof. unfold PricingLogic.hasPPPInName. now rewrite toUpperCase_idem. Qed.

Lemma exempt_not_penalty (text pat : string) :
  In pat ["0MO PPP"; "0 YR PPP"; "0YR PPP"] ->
  Spec.ContainsCI text pat ->
  PricingLogic.hasPPPInName text = false.
Proof.
  intros Hpat H. apply ContainsCI_includes in H.
  unfold PricingLogic.hasPPPInName.
  destruct Hpat as [<-|[<-|[<-|[]]]]; rewrite H, ?orb_true_r; reflexivity.
Qed.

Lemma ten_year_contains_zero_year (text : string) :
  Spec.ContainsCI text "10 YR PPP" -> Spec.ContainsCI text "0 YR PPP".
Proof.
  intros (a & m & b & -> & Hm).
  destruct m as [|c m]; [discriminate|].
  cbn [toUpperCase] in Hm. injection Hm as _ Hm.
  exists (a ++ String c EmptyString)%string, m, b.
  split; [|exact Hm]. now rewrite append_assoc.
Qed.

Lemma ContainsCI_truthy (text pat : string) :
  truthy pat = true -> Spec.ContainsCI text pat -> truthy text = true.
Proof.
  intros Hp (a & m & b & -> & <-).
  destruct a; [|reflexivity]. destruct m; [discriminate|reflexivity].
Qed.

(** C4.  A text that contains "0MO PPP", "0 YR PPP" or "0YR PPP" in any
    case of letters, and so every text that contains "10 YR PPP", is not
    a penalty for any copy of the classifier, whatever else it contains.
    A rate option with such a description therefore stays in its program
    through the filter for a property that is not an investment (when
    the program itself is eligible and not dropped), and both passes of
    the selector treat it like any option without a penalty. *)
Theorem C4_zero_period_exemption (text : string)
        (Hexempt : Spec.ContainsCI text "0MO PPP"
                   \/ Spec.ContainsCI text "0 YR PPP"
                   \/ Spec.ContainsCI text "0YR PPP"
                   \/ Spec.ContainsCI text "10 YR PPP") :
  (PricingLogic.hasPPPInName text = false
   /\ App.hasPPPInName text = false
   /\ hasPPP text = false)
  /\ (forall formData st p o,
         isInvestment formData = false ->
         In p st ->
         Spec.eligible p = true ->
         flagged p = false ->
         In o (Program.rateOptions p) ->
         RateOption.description o = text ->
         exists p',
           In p' (filterOutput formData st)
           /\ Program.name p' = Program.name p
           /\ In o (Program.rateOptions p'))
  /\ (forall selectedPPP programName sel o,
         RateOption.description o = text ->
         PricingLogic.firstPass false selectedPPP programName sel o
         = PricingLogic.consider programName sel o
         /\ PricingLogic.fallbackPass false programName sel o
            = PricingLogic.consider programName sel o
         /\ App.firstPass false programName sel o
            = PricingLogic.consider programName sel o
         /\ App.fallbackPass false programName sel o
            = PricingLogic.consider programName sel o).
Proof.
  assert (Hpat : exists pat,
             In pat ["0MO PPP"; "0 YR PPP"; "0YR PPP"]
             /\ Spec.ContainsCI text pat).
  { destruct Hexempt as [H|[H|[H|H]]].
    - exists "0MO PPP". split; [now left|exact H].
    - exists "0 YR PPP". split; [right; now left|exact H].
    - exists "0YR PPP". split; [right; right; now left|exact H].
    - exists "0 YR PPP". split; [right; now left|].
      now apply ten_year_contains_zero_year. }
  destruct Hpat as (pat & Hin & Hc).
  pose proof (exempt_not_penalty text pat Hin Hc) as Hfree.
  assert (Htruthy : truthy text = true).
  { apply (ContainsCI_truthy text pat); [|exact Hc].
    destruct Hin as [<-|[<-|[<-|[]]]]; reflexivity. }
  split; [|split].
  - split; [exact Hfree|]. split; [exact Hfree|].
    now rewrite hasPPP_eq.
  - intros formData st p o Hinv Hp He Hf Ho Hd.
    assert (Hkeep : In o (Program.rateOptions (withoutPenalties p))).
    { cbn [withoutPenalties Program.rateOptions Program.setRateOptions].
      apply filter_In. split; [exact Ho|].
      now rewrite Hd, hasPPP_eq, Hfree. }
    exists (afterFilter formData p). rewrite filterOutput_spec.
    assert (Hk : kept formData p = true).
    { unfold kept, survives. rewrite He, Hinv, Hf. cbn [andb orb negb].
      destruct (Program.rateOptions (withoutPenalties p));
        [contradiction|reflexivity]. }
    split; [apply in_map; apply filter_In; now split|].
    unfold afterFilter, stripPenalties. rewrite Hinv, He, Hf.
    cbn [negb andb]. split; [reflexivity|exact Hkeep].
  - intros selectedPPP programName sel o Hd.
    assert (Hdesc : PricingLogic.hasPPPInName
                      (toUpperCase
                         (orElse (RateOption.description o) programName))
                    = false).
    { rewrite Hd. unfold orElse. now rewrite Htruthy, hasPPPInName_upper. }
    unfold PricingLogic.firstPass, PricingLogic.fallbackPass,
      App.firstPass, App.fallbackPass.
    change App.hasPPPInName with PricingLogic.hasPPPInName.
    rewrite Hdesc. cbn [negb andb].
    now repeat split.
Qed.

Lemma C4_zero_period_exemption_witness :
  PricingLogic.hasPPPInName "5 YR PPP step-down, was 10 yr ppp" = false
  /\ App.hasPPPInName "5 YR PPP step-down, was 10 yr ppp" = false
  /\ hasPPP "5 YR PPP step-down, was 10 yr ppp" = false.
Proof.
  apply (C4_zero_period_exemption "5 YR PPP step-down, was 10 yr ppp").
  right. right. right.
  exists "5 YR PPP step-down, was ", "10 yr ppp", EmptyString.
  split; reflexivity.
Defined.

(** On the sample, the option with the ten-year penalty is the one that
    the selector picks for a primary residence. *)
Example sample_target :
  option_map PricingLogic.Target.programName
             (PricingLogic.getTargetPricing
                (Some (selectOutput primaryForm samplePrograms))
                "primary" "3year")
  = Some "30yr Fixed 10 YR PPP".
Proof. vm_compute. reflexivity. Qed.

End Exemption.

(** ** The target-pricing selector *)

Section Selector.
Import PricingLogic JsNumber JsString Examples.

Lemma fold_left_map {A B C : Type} (f : A -> C -> A) (g : B -> C)
      (l : list B) (a : A) :
  fold_left f (map g l) a = fold_left (fun a x => f a (g x)) l a.
Proof. revert a; induction l; simpl; auto. Qed.

Lemma fold_left_ext_in {A B : Type} (f g : A -> B -> A) (l : list B) (a : A) :
  (forall a x, In x l -> f a x = g a x) ->
  fold_left f l a = fold_left g l a.
Proof.
  revert a; induction l as [|x l IH]; intros a H; simpl; [reflexivity|].
  rewrite (H a x) by now left. apply IH. intros; apply H; now right.
Qed.

(** The nested loops scan the candidates. *)
Lemma scan_candidates
      (body : string -> Selection -> RateOption.t -> Selection)
      (programs : list Program.t) (sel : Selection) :
  scan body programs sel
  = fold_left (fun sel c => body (fst c) sel (snd c))
              (Spec.candidates programs) sel.
Proof.
  unfold scan. revert sel.
  induction programs as [|p ps IH]; intros sel; [reflexivity|].
  cbn [fold_left Spec.candidates flat_map].
  rewrite fold_left_app, fold_left_map. apply IH.
Qed.

Lemma price_correct (o : RateOption.t) :
  (sub 100 (RateOption.points o) == Spec.price o)%Q.
Proof. apply sub_correct. Qed.

Lemma distance_correct (o : RateOption.t) :
  (abs (sub (sub 100 (RateOption.points o)) 100) == Spec.distance o)%Q.
Proof.
  unfold Spec.distance. now rewrite abs_correct, sub_correct, price_correct.
Qed.

Lemma inBand_correct (o : RateOption.t) :
  geb (sub 100 (RateOption.points o)) 99
  && leb (sub 100 (RateOption.points o)) 101 = true
  <-> Spec.inBand o.
Proof.
  rewrite andb_true_iff, geb_ge, leb_le. unfold Spec.inBand.
  now rewrite !price_correct.
Qed.

(** One step of the scan keeps the description of the selection. *)
Lemma consider_Selected (cs : list (string * RateOption.t))
      (sel : Selection) (pn : string) (o : RateOption.t) :
  Spec.Selected cs sel ->
  Spec.Selected (cs ++ [(pn, o)]) (consider pn sel o).
Proof.
  intros H. unfold consider. cbn [safeNumber num].
  destruct (geb (sub 100 (RateOption.points o)) 99
            && leb (sub 100 (RateOption.points o)) 101) eqn:Eband.
  - apply inBand_correct in Eband.
    destruct sel as [[t|] [d|]]; cbn [snd closer]; try contradiction.
    + destruct H as (l1 & pn0 & o0 & l2 & -> & -> & Hd & Hb & Hl1 & Hl2).
      destruct (ltb _ d) eqn:Elt.
      * apply ltb_lt in Elt. rewrite distance_correct, Hd in Elt.
        exists (l1 ++ (pn0, o0) :: l2), pn, o, [].
        split; [reflexivity|]. split; [reflexivity|].
        split; [apply distance_correct|]. split; [exact Eband|].
        split; [|intros ? ? []].
        intros pn' o' Hin Hb'.
        apply in_app_or in Hin as [Hin|[Hin|Hin]].
        -- specialize (Hl1 pn' o' Hin Hb'). lra.
        -- injection Hin as _ <-. exact Elt.
        -- specialize (Hl2 pn' o' Hin Hb'). lra.
      * apply ltb_ge in Elt. rewrite distance_correct, Hd in Elt.
        exists l1, pn0, o0, (l2 ++ [(pn, o)]).
        split; [now rewrite <- app_assoc|]. split; [reflexivity|].
        split; [exact Hd|]. split; [exact Hb|]. split; [exact Hl1|].
        intros pn' o' Hin Hb'.
        apply in_app_or in Hin as [Hin|[Hin|[]]].
        -- now apply (Hl2 pn' o').
        -- now injection Hin as _ <-.
    + exists cs, pn, o, [].
      split; [reflexivity|]. split; [reflexivity|].
      split; [apply distance_correct|]. split; [exact Eband|].
      split; [|intros ? ? []].
      intros pn' o' Hin Hb'. now elim (H pn' o' Hin).
  - assert (Hout : ~ Spec.inBand o).
    { intros Hb. apply inBand_correct in Hb. congruence. }
    destruct sel as [[t|] [d|]]; cbn [Spec.Selected] in *; try contradiction.
    + destruct H as (l1 & pn0 & o0 & l2 & -> & -> & Hd & Hb & Hl1 & Hl2).
      exists l1, pn0, o0, (l2 ++ [(pn, o)]).
      split; [now rewrite <- app_assoc|]. split; [reflexivity|].
      split; [exact Hd|]. split; [exact Hb|]. split; [exact Hl1|].
      intros pn' o' Hin Hb'.
      apply in_app_or in Hin as [Hin|[Hin|[]]].
      * now apply (Hl2 pn' o').
      * injection Hin as _ <-. contradiction.
    + intros pn' o' Hin.
      apply in_app_or in Hin as [Hin|[Hin|[]]].
      * now apply (H pn' o').
      * now injection Hin as _ <-.
Qed.

Lemma fold_consider_Selected (cs0 cs : list (string * RateOption.t))
      (sel : Selection) :
  Spec.Selected cs0 sel ->
  Spec.Selected (cs0 ++ cs)
                (fold_left (fun sel c => consider (fst c) sel (snd c)) cs sel).
Proof.
  revert cs0 sel. induction cs as [|[pn o] cs IH]; intros cs0 sel H.
  - now rewrite app_nil_r.
  - cbn [fold_left fst snd].
    replace (cs0 ++ (pn, o) :: cs) with ((cs0 ++ [(pn, o)]) ++ cs)
      by now rewrite <- app_assoc.
    apply IH. now apply consider_Selected.
Qed.


(** A list without penalties in names and descriptions has no penalty
    among its candidates. *)
Lemma penaltyFree_noPenalty (programs : list Program.t) :
  Spec.penaltyFree programs -> Spec.noPenalty programs.
Proof.
  intros Hfree. apply Forall_forall. intros [pn o] Hin. cbn [fst snd].
  apply in_flat_map in Hin as (p & Hp & Hin).
  apply in_map_iff in Hin as (o' & E & Ho). injection E as E1 E2.
  subst pn o'. unfold Spec.penaltyFree in Hfree.
  rewrite Forall_forall in Hfree.
  destruct (Hfree p Hp) as [Hname Hopts].
  rewrite Forall_forall in Hopts. specialize (Hopts o Ho).
  rewrite hasPPPInName_upper. unfold orElse.
  destruct (truthy (RateOption.description o)); [exact Hopts|].
  destruct (truthy (Program.name p)); [exact Hname|reflexivity].
Qed.

(** The programs that the handler sends for a property that is not an
    investment are such a list. *)
Lemma selectOutput_penaltyFree (formData : Handler.FormData)
      (st : Handler.Store) :
  HandlerSpec.isInvestment formData = false ->
  Spec.penaltyFree (HandlerSpec.selectOutput formData st).
Proof.
  intros Hinv. rewrite selectOutput_spec.
  apply Forall_map, Forall_forall. intros p Hp.
  apply filter_In in Hp as [_ Hk].
  unfold HandlerSpec.afterAll. rewrite Hk.
  destruct (kept_not_investment formData p Hinv Hk) as (_ & Hf & -> & _).
  unfold HandlerSpec.flagged in Hf.
  apply orb_false_elim in Hf as [Hf _].
  apply orb_false_elim in Hf as [_ Hn].
  cbn [HandlerSpec.sanitized HandlerSpec.withoutPenalties Program.name
       Program.rateOptions Program.setRateOptions].
  split; [now rewrite <- hasPPP_eq|].
  apply Forall_map, Forall_forall. intros o Ho.
  apply filter_In in Ho as [_ Ho]. apply negb_true_iff in Ho.
  rewrite <- hasPPP_eq.
  unfold Handler.sanitizeRateOption.
  now destruct (RateOption.adjustments o).
Qed.



End Selector.

(** ** Escaping and unescaping *)

Section Escaping.
Import JsString Xml.

Lemma length_append (a b : string) :
  String.length (a ++ b) = String.length a + String.length b.
Proof. induction a; simpl; auto. Qed.

(** Enough fuel is as good as any. *)
Lemma replaceAllFrom_fuel (c : ascii) (p r : string) (n m : nat) (s : string) :
  String.length s < n -> String.length s < m ->
  replaceAllFrom n (String c p) r s = replaceAllFrom m (String c p) r s.
Proof.
  revert m s. induction n as [|n IH]; intros m s Hn Hm; [lia|].
  destruct m as [|m]; [lia|]. cbn [replaceAllFrom].
  destruct (stripPrefix (String c p) s) as [rest|] eqn:E.
  - apply stripPrefix_Some in E. subst s.
    rewrite length_append in Hn, Hm. cbn [String.length] in Hn, Hm.
    f_equal. apply IH; lia.
  - destruct s as [|x s]; [reflexivity|].
    cbn [String.length] in Hn, Hm. f_equal. apply IH; lia.
Qed.

Lemma replaceAll_unfold (c : ascii) (p r s : string) :
  replaceAll (String c p) r s
  = replaceAllFrom (S (String.length s)) (String c p) r s.
Proof. reflexivity. Qed.

Lemma replaceAllFrom_S (n : nat) (p r s : string) :
  replaceAllFrom (S n) p r s
  = match stripPrefix p s with
    | Some rest => (r ++ replaceAllFrom n p r rest)%string
    | None =>
        match s with
        | EmptyString => EmptyString
        | String c t => String c (replaceAllFrom n p r t)
        end
    end.
Proof. reflexivity. Qed.

(** The equations of a global replacement. *)
Lemma replaceAll_nil (c : ascii) (p r : string) :
  replaceAll (String c p) r EmptyString = EmptyString.
Proof. reflexivity. Qed.

Lemma replaceAll_hit (c : ascii) (p r s rest : string) :
  stripPrefix (String c p) s = Some rest ->
  replaceAll (String c p) r s = (r ++ replaceAll (String c p) r rest)%string.
Proof.
  intros E.
  rewrite (replaceAll_unfold c p r s), (replaceAll_unfold c p r rest).
  rewrite (replaceAllFrom_S (String.length s)), E. f_equal.
  apply replaceAllFrom_fuel; [|lia].
  apply stripPrefix_Some in E. subst s.
  rewrite length_append. cbn [String.length]. lia.
Qed.

Lemma replaceAll_miss (c : ascii) (p r : string) (x : ascii) (s : string) :
  stripPrefix (String c p) (String x s) = None ->
  replaceAll (String c p) r (String x s)
  = String x (replaceAll (String c p) r s).
Proof.
  intros E.
  rewrite (replaceAll_unfold c p r (String x s)), (replaceAll_unfold c p r s).
  now rewrite (replaceAllFrom_S (String.length (String x s))), E.
Qed.

Lemma replaceAll_other (c : ascii) (p r : string) (x : ascii) (s : string) :
  Ascii.eqb x c = false ->
  replaceAll (String c p) r (String x s)
  = String x (replaceAll (String c p) r s).
Proof.
  intros E. apply replaceAll_miss. cbn [stripPrefix].
  now rewrite Ascii.eqb_sym, E.
Qed.

Lemma replaceAll_absent (c : ascii) (p r s : string) :
  includes s (String c p) = false -> replaceAll (String c p) r s = s.
Proof.
  induction s as [|x s IH]; intros H; [reflexivity|].
  cbn [includes] in H.
  destruct (stripPrefix (String c p) (String x s)) eqn:E; [discriminate|].
  rewrite (replaceAll_miss _ _ _ _ _ E). now rewrite IH.
Qed.

(** A replacement that acts on each written character by itself acts on
    the whole text. *)
Lemma replaceAll_escaped (c : ascii) (p r : string)
      (a l g q o a' l' g' q' o' : bool) :
  (forall x rest,
      replaceAll (String c p) r (Spec.escapeChar a l g q o x ++ rest)
      = (Spec.escapeChar a' l' g' q' o' x
           ++ replaceAll (String c p) r rest)%string) ->
  forall s,
    replaceAll (String c p) r (Spec.escaped a l g q o s)
    = Spec.escaped a' l' g' q' o' s.
Proof.
  intros Hstep s. induction s as [|x s IH]; [reflexivity|].
  cbn [Spec.escaped]. now rewrite Hstep, IH.
Qed.

Ltac replace_step :=
  first [ rewrite replaceAll_miss by reflexivity
        | erewrite replaceAll_hit by reflexivity ].

Ltac split_character x :=
  match goal with
  | |- context [Ascii.eqb x ?k] =>
      let E := fresh "E" in
      destruct (Ascii.eqb x k) eqn:E;
      [ apply Ascii.eqb_eq in E; subst x;
        cbn -[replaceAll]; repeat replace_step; reflexivity
      | ]
  end.

Ltac replace_character :=
  let x := fresh "x" in
  let rest := fresh "rest" in
  intros x rest; unfold Spec.escapeChar; cbn [andb];
  repeat split_character x;
  cbn [append];
  first [ apply replaceAll_other; assumption
        | erewrite replaceAll_hit by (cbn [stripPrefix]; reflexivity);
          reflexivity ].

Lemma escaped_none (s : string) :
  Spec.escaped false false false false false s = s.
Proof. induction s as [|x s IH]; [reflexivity|]. cbn. now rewrite IH. Qed.

(** The escaper writes the five characters as entities. *)
Lemma escapeXml_escaped (s : string) :
  escapeXml s = Spec.escaped true true true true true s.
Proof.
  unfold escapeXml. destruct s as [|c s]; [reflexivity|].
  cbn [truthy negb]. generalize (String c s) as u. clear c s. intros s.
  rewrite <- (escaped_none s) at 1.
  rewrite (replaceAll_escaped _ _ _ false false false false false
                              true false false false false)
    by replace_character.
  rewrite (replaceAll_escaped _ _ _ true false false false false
                              true true false false false)
    by replace_character.
  rewrite (replaceAll_escaped _ _ _ true true false false false
                              true true true false false)
    by replace_character.
  unfold quot.
  rewrite (replaceAll_escaped _ _ _ true true true false false
                              true true true true false)
    by replace_character.
  now rewrite (replaceAll_escaped _ _ _ true true true true false
                                  true true true true true)
    by replace_character.
Qed.

Lemma unescapeXml_chain (t : string) :
  unescapeXml t
  = replaceAll "&amp;" "&"
      (replaceAll "&apos;" "'"
        (replaceAll "&quot;" quot
          (replaceAll "&gt;" ">"
            (replaceAll "&lt;" "<" t)))).
Proof. unfold unescapeXml. now destruct t. Qed.

(** The unescaper reads them back. *)
Lemma unescapeXml_escaped (s : string) :
  unescapeXml (Spec.escaped true true true true true s) = s.
Proof.
  rewrite unescapeXml_chain.
  rewrite (replaceAll_escaped _ _ _ true true true true true
                              true false true true true)
    by replace_character.
  rewrite (replaceAll_escaped _ _ _ true false true true true
                              true false false true true)
    by replace_character.
  unfold quot.
  rewrite (replaceAll_escaped _ _ _ true false false true true
                              true false false false true)
    by replace_character.
  rewrite (replaceAll_escaped _ _ _ true false false false true
                              true false false false false)
    by replace_character.
  rewrite (replaceAll_escaped _ _ _ true false false false false
                              false false false false false)
    by replace_character.
  apply escaped_none.
Qed.

Lemma unescapeXml_escapeXml (s : string) : unescapeXml (escapeXml s) = s.
Proof. rewrite escapeXml_escaped. apply unescapeXml_escaped. Qed.

Lemma noEntities_spec (s : string) :
  Spec.noEntities s = true
  <-> forall e, In e Spec.entities -> ~ Spec.Contains s e.
Proof.
  unfold Spec.noEntities. rewrite forallb_forall.
  split; intros H e He.
  - intros Hc. apply includes_spec in Hc.
    specialize (H e He). now rewrite Hc in H.
  - apply negb_true_iff. destruct (includes s e) eqn:E; [|reflexivity].
    apply includes_spec in E. now elim (H e He).
Qed.

Lemma unescapeXml_noEntities (s : string) :
  Spec.noEntities s = true -> unescapeXml s = s.
Proof.
  unfold Spec.noEntities, Spec.entities. cbn [forallb].
  rewrite !andb_true_iff, !negb_true_iff.
  intros (Ha & Hl & Hg & Hq & Ho & _).
  rewrite unescapeXml_chain.
  rewrite (replaceAll_absent _ _ _ _ Hl), (replaceAll_absent _ _ _ _ Hg).
  rewrite (replaceAll_absent _ _ _ _ Hq), (replaceAll_absent _ _ _ _ Ho).
  now rewrite (replaceAll_absent _ _ _ _ Ha).
Qed.

(** C8.  Unescaping an escaped text gives the text back, whatever it is;
    when the text holds none of the five entity sequences, unescaping once
    more changes nothing, so that the text escaped once and unescaped
    twice is the text itself. *)
Theorem C8_escape_unescape_twice (s : string)
        (Hfree : Spec.noEntities s = true) :
  unescapeXml (unescapeXml (escapeXml s)) = s
  /\ unescapeXml (escapeXml s) = s
  /\ (forall e, In e Spec.entities -> ~ Spec.Contains s e).
Proof.
  split; [|split].
  - rewrite unescapeXml_escapeXml. now apply unescapeXml_noEntities.
  - apply unescapeXml_escapeXml.
  - now apply noEntities_spec.
Qed.

Lemma C8_escape_unescape_twice_witness :
  unescapeXml (unescapeXml (escapeXml "R&D <30yr> 'fixed' &amp"))
  = "R&D <30yr> 'fixed' &amp".
Proof.
  exact (proj1 (C8_escape_unescape_twice "R&D <30yr> 'fixed' &amp" eq_refl)).
Defined.

(** With an entity in the text the second unescaping does change it. *)
Example unescape_twice_entity :
  unescapeXml (unescapeXml (escapeXml "a &lt; b")) = "a < b".
Proof. reflexivity. Qed.

End Escaping.

(** ** The escaper leaves no markup *)

Section MarkupSafety.
Import JsString Xml.

Lemma includes_char_app (a b : string) (c : ascii) :
  includes (a ++ b) (String c EmptyString)
  = includes a (String c EmptyString) || includes b (String c EmptyString).
Proof.
  induction a as [|x a IH].
  - destruct b; reflexivity.
  - simpl append. cbn [includes stripPrefix].
    destruct (Ascii.eqb c x); [reflexivity|]. exact IH.
Qed.

Lemma escaped_without (c : ascii) (s : string) :
  (forall x, includes (Spec.escapeChar true true true true true x)
                      (String c EmptyString) = false) ->
  includes (Spec.escaped true true true true true s) (String c EmptyString)
  = false.
Proof.
  intros H. induction s as [|x s IH]; [reflexivity|].
  cbn [Spec.escaped]. now rewrite includes_char_app, H, IH.
Qed.

Ltac entity_character :=
  let x := fresh "x" in
  intros x; unfold Spec.escapeChar; cbn [andb];
  repeat match goal with
         | |- context [Ascii.eqb x ?k] =>
             let E := fresh "E" in
             destruct (Ascii.eqb x k) eqn:E; [reflexivity|]
         end;
  cbn [includes stripPrefix];
  match goal with
  | E : Ascii.eqb x ?k = false |- context [Ascii.eqb ?k x] =>
      now rewrite Ascii.eqb_sym, E
  end.

(** X1.  Whatever the text, the escaped text holds none of the four
    markup characters: no angle bracket, no quotation mark and no
    apostrophe is left for the envelope the text is written into. *)
Theorem escapeXml_no_markup (s : string) :
  includes (escapeXml s) "<" = false
  /\ includes (escapeXml s) ">" = false
  /\ includes (escapeXml s) quot = false
  /\ includes (escapeXml s) "'" = false.
Proof.
  rewrite escapeXml_escaped. unfold quot.
  repeat split; apply escaped_without; entity_character.
Qed.

End MarkupSafety.

(** ** Levels of escaping *)

Section EscapingLevels.
Import JsString Xml.

Ltac entity_step :=
  first [ rewrite replaceAll_miss by reflexivity
        | erewrite replaceAll_hit by reflexivity ].

Ltac entity_split x :=
  match goal with
  | |- context [Ascii.eqb x ?k] =>
      let E := fresh "E" in
      destruct (Ascii.eqb x k) eqn:E;
      [ apply Ascii.eqb_eq in E; subst x;
        cbn -[replaceAll]; repeat entity_step; reflexivity
      | ]
  end.

Ltac entity_pass :=
  let x := fresh "x" in
  let rest := fresh "rest" in
  intros x rest; unfold Spec.escapeChar; cbn [andb];
  repeat entity_split x;
  cbn [append];
  first [ apply replaceAll_other; assumption
        | erewrite replaceAll_hit by (cbn [stripPrefix]; reflexivity);
          reflexivity ].

Lemma unescapeHtmlEntities_chain (t : string) :
  unescapeHtmlEntities t
  = replaceAll "&amp;" "&"
      (replaceAll "&apos;" "'"
        (replaceAll "&quot;" quot
          (replaceAll "&lt;" "<"
            (replaceAll "&gt;" ">" t)))).
Proof. unfold unescapeHtmlEntities. now destruct t. Qed.

(** X2.  The unescaper of descriptions, which replaces the entities in
    another order than [unescapeXml], also gives an escaped text back, so
    that the two unescapers agree on every escaped text. *)
Theorem unescapeHtmlEntities_escapeXml (s : string) :
  unescapeHtmlEntities (escapeXml s) = s
  /\ unescapeHtmlEntities (escapeXml s) = unescapeXml (escapeXml s).
Proof.
  assert (H : unescapeHtmlEntities (escapeXml s) = s).
  { rewrite escapeXml_escaped, unescapeHtmlEntities_chain.
    rewrite (replaceAll_escaped _ _ _ true true true true true
                                true true false true true)
      by entity_pass.
    rewrite (replaceAll_escaped _ _ _ true true false true true
                                true false false true true)
      by entity_pass.
    unfold quot.
    rewrite (replaceAll_escaped _ _ _ true false false true true
                                true false false false true)
      by entity_pass.
    rewrite (replaceAll_escaped _ _ _ true false false false true
                                true false false false false)
      by entity_pass.
    rewrite (replaceAll_escaped _ _ _ true false false false false
                                false false false false false)
      by entity_pass.
    apply escaped_none. }
  split; [exact H|]. now rewrite H, unescapeXml_escapeXml.
Qed.

(** The parser reads its argument through two unescapings only. *)
Lemma parse_by_level2 (x y : string) :
  unescapeXml (unescapeXml x) = unescapeXml (unescapeXml y) ->
  Parser.parseSOAPResponse x = Parser.parseSOAPResponse y.
Proof.
  intros H. unfold Parser.parseSOAPResponse. cbv zeta. now rewrite H.
Qed.

(** X3.  The parser reads a result document that holds no entity the
    same whether it arrives as it is, escaped once or escaped twice. *)
Theorem parse_escaping_levels (document : string)
        (Hfree : Spec.noEntities document = true) :
  Parser.parseSOAPResponse (escapeXml (escapeXml document))
  = Parser.parseSOAPResponse document
  /\ Parser.parseSOAPResponse (escapeXml document)
     = Parser.parseSOAPResponse document.
Proof.
  split; apply parse_by_level2.
  - rewrite !unescapeXml_escapeXml.
    now rewrite !(unescapeXml_noEntities document Hfree).
  - rewrite unescapeXml_escapeXml.
    now rewrite !(unescapeXml_noEntities document Hfree).
Qed.

Lemma parse_escaping_levels_witness :
  Parser.parseSOAPResponse (escapeXml (escapeXml Examples.tableDocument))
  = Parser.parseSOAPResponse Examples.tableDocument.
Proof.
  exact (proj1 (parse_escaping_levels Examples.tableDocument eq_refl)).
Defined.

End EscapingLevels.

(** ** The envelope of the handler *)

Section Envelope.
Import Handler HandlerSpec JsString Examples.


Lemma StronglySorted_filter {A : Type} (R : A -> A -> Prop)
      (f : A -> bool) (l : list A) :
  StronglySorted R l -> StronglySorted R (filter f l).
Proof.
  induction 1 as [|x l Hl IH Hx]; cbn [filter]; [constructor|].
  destruct (f x); [|exact IH].
  constructor; [exact IH|].
  apply Forall_forall. intros y Hy. apply filter_In in Hy as [Hy _].
  rewrite Forall_forall in Hx. now apply Hx.
Qed.

Lemma StronglySorted_map {A B : Type} (R : A -> A -> Prop)
      (S : B -> B -> Prop) (g : A -> B) (l : list A) :
  (forall a b, In a l -> In b l -> R a b -> S (g a) (g b)) ->
  StronglySorted R l -> StronglySorted S (map g l).
Proof.
  intros Hg Hl. induction Hl as [|x l Hl IH Hx]; cbn [map]; [constructor|].
  constructor.
  - apply IH. intros a b Ha Hb. apply Hg; now right.
  - apply Forall_forall. intros y Hy.
    apply in_map_iff in Hy as (a & <- & Ha).
    rewrite Forall_forall in Hx.
    apply Hg; [now left|now right|now apply Hx].
Qed.

(** The filter and the sanitizer leave the status and the rate of a
    program object as they are. *)
Lemma afterAll_status_rate (formData : FormData) (p : Program.t) :
  Program.status (afterAll formData p) = Program.status p
  /\ Program.rate (afterAll formData p) = Program.rate p
  /\ Program.apr (afterAll formData p) = Program.apr p
  /\ Program.points (afterAll formData p) = Program.points p
  /\ Program.name (afterAll formData p) = Program.name p
  /\ Program.programName (afterAll formData p) = Program.programName p.
Proof.
  unfold afterAll, afterFilter, sanitized, stripPenalties, withoutPenalties.
  destruct (kept formData p), (negb (isInvestment formData) && Spec.eligible p),
           (flagged p); destruct p; repeat split.
Qed.

(** X5.  When the handler answers with data, the programs sent are all
    eligible and in ascending order of rate, and the rate, APR, points
    and program name at the top level are those of the first of them:
    the headline rate is the lowest rate sent. *)
Theorem headline_is_lowest_rate (formData : FormData) (up : Upstream) :
  match data (handler formData up) with
  | Some d =>
      StronglySorted (fun a b => (Program.rate a <= Program.rate b)%Q)
                     (Data.programs d)
      /\ Forall (fun p => Program.status p = "Eligible"
                          /\ (Data.rate d <= Program.rate p)%Q)
                (Data.programs d)
      /\ exists top rest,
           Data.programs d = top :: rest
           /\ Data.rate d = Program.rate top
           /\ Data.apr d = Program.apr top
           /\ Data.points d = Program.points top
           /\ Data.programName d = Program.programName top
  | None => True
  end.
Proof.
  destruct up as [message|ok status responseText]; [exact I|].
  cbn [handler]. destruct ok; cbn [negb]; [|exact I].
  unfold respond. destruct (engineError responseText); [exact I|].
  set (result := Parser.parseSOAPResponse (resultXml responseText)).
  assert (Hsorted : StronglySorted Spec.before (Parser.programs result))
    by apply sort_sorted.
  rewrite assemble_spec. cbv zeta.
  assert (Hout : StronglySorted
                   (fun a b => (Program.rate a <= Program.rate b)%Q)
                   (selectOutput formData (Parser.programs result))
                 /\ Forall (fun p => Program.status p = "Eligible")
                           (selectOutput formData (Parser.programs result))).
  { rewrite selectOutput_spec. split.
    - apply (StronglySorted_map Spec.before).
      + intros a b Ha Hb [_ Hab].
        apply filter_In in Ha as [_ Ha]. apply filter_In in Hb as [_ Hb].
        unfold kept in Ha, Hb.
        apply andb_true_iff in Ha as [Ha _].
        apply andb_true_iff in Hb as [Hb _].
        destruct (afterAll_status_rate formData a) as (_ & -> & _).
        destruct (afterAll_status_rate formData b) as (_ & -> & _).
        apply Hab. now rewrite Ha, Hb.
      + now apply StronglySorted_filter.
    - apply Forall_map, Forall_forall. intros p Hp.
      apply filter_In in Hp as [_ Hp]. unfold kept in Hp.
      apply andb_true_iff in Hp as [Hp _].
      destruct (afterAll_status_rate formData p) as (-> & _).
      now apply String.eqb_eq. }
  destruct (selectOutput formData (Parser.programs result))
    as [|top rest]; [exact I|].
  cbn [data Data.programs Data.rate Data.apr Data.points Data.programName].
  destruct Hout as [Hs He]. split; [exact Hs|]. split.
  - apply Forall_forall. intros p Hp. rewrite Forall_forall in He.
    split; [now apply He|].
    destruct Hp as [<-|Hp]; [apply Qle_refl|].
    apply StronglySorted_inv in Hs as [_ Hs].
    rewrite Forall_forall in Hs. now apply Hs.
  - exists top, rest. repeat split.
Qed.

(** On the sample, an investment request is answered with the two
    eligible programs, the lower rate first. *)
Example sample_headline :
  match data (handler dscrForm (Returned true 200 sampleResponse)) with
  | Some d =>
      (Data.rate d, map Program.rate (Data.programs d))
      = (6%Q, [6%Q; (13 # 2)%Q])
  | None => False
  end.
Proof. vm_compute. reflexivity. Qed.

End Envelope.

(** ** What the sanitizer leaves alone *)

Section SanitizerFrame.
Import Handler HandlerSpec JsString Examples SanitizerSpec Samples.

Lemma rewriteAdjustment_amounts (formData : FormData) (adj : Adjustment.t) :
  Adjustment.amount (rewriteAdjustment formData adj) = Adjustment.amount adj
  /\ Adjustment.rateAdj (rewriteAdjustment formData adj)
     = Adjustment.rateAdj adj.
Proof.
  unfold rewriteAdjustment.
  destruct (actualDSCRValue formData); [|now split].
  destruct (_ && _); [|now split].
  destruct adj; now split.
Qed.

Lemma sanitizeRateOption_only (formData : FormData) (o : RateOption.t) :
  withoutAdjustments (sanitizeRateOption formData o) = withoutAdjustments o.
Proof.
  unfold sanitizeRateOption.
  destruct o as [? ? ? ? ? ? ? ? ? ? [l|]]; reflexivity.
Qed.

Lemma sanitized_only (formData : FormData) (p : Program.t) :
  optionsOnly (sanitized formData p) = optionsOnly p.
Proof.
  unfold optionsOnly, sanitized. destruct p.
  unfold Program.setRateOptions. cbn.
  f_equal. rewrite map_map. apply map_ext.
  intros o. apply sanitizeRateOption_only.
Qed.

(** X6.  The sanitizer changes nothing but adjustment lists: the
    programs sent are, adjustment lists apart, the programs the
    eligibility and penalty filter leaves, with the same rate options in
    the same order.  In an adjustment list it drops and redescribes lines
    but never changes an amount or a rate adjustment, and it redescribes
    nothing when the request carries no DSCR value. *)
Theorem sanitizer_frame (formData : FormData) :
  (forall st, map optionsOnly (selectOutput formData st)
              = map optionsOnly (filterOutput formData st))
  /\ (forall adjustments,
         map Adjustment.amount (sanitizeAdjustments formData adjustments)
         = map Adjustment.amount
               (filter (keepAdjustment formData) adjustments)
         /\ map Adjustment.rateAdj (sanitizeAdjustments formData adjustments)
            = map Adjustment.rateAdj
                  (filter (keepAdjustment formData) adjustments))
  /\ (actualDSCRValue formData = None ->
      forall adjustments,
        sanitizeAdjustments formData adjustments
        = filter (keepAdjustment formData) adjustments).
Proof.
  split; [|split].
  - intros st. rewrite selectOutput_spec, filterOutput_spec, !map_map.
    apply map_ext_in. intros p Hp. apply filter_In in Hp as [_ Hk].
    unfold afterAll. rewrite Hk. apply sanitized_only.
  - intros l. unfold sanitizeAdjustments. rewrite !map_map.
    split; apply map_ext; intros a; apply rewriteAdjustment_amounts.
  - intros Hnone l. unfold sanitizeAdjustments.
    rewrite <- (map_id (filter _ l)) at 2. apply map_ext.
    intros a. unfold rewriteAdjustment. now rewrite Hnone.
Qed.

Lemma sanitizer_frame_witness :
  sanitizeAdjustments primaryForm
    [Adjustment.make "LTV 75-80" (1 # 2) 0;
     Adjustment.make "DSCR: DSCR >= 1.25" (-1 # 4) 0]
  = filter (keepAdjustment primaryForm)
      [Adjustment.make "LTV 75-80" (1 # 2) 0;
       Adjustment.make "DSCR: DSCR >= 1.25" (-1 # 4) 0].
Proof.
  apply (proj2 (proj2 (sanitizer_frame primaryForm))). reflexivity.
Defined.

Lemma keepAdjustment_no_cashout (formData : FormData) (adj : Adjustment.t) :
  strictEq (loanPurpose formData) "refinance" = true ->
  keepAdjustment formData adj = true ->
  ~ Spec.ContainsCI (Adjustment.description adj) "CASHOUT".
Proof.
  intros Hp Hk Hc. apply ContainsCI_includes in Hc.
  unfold keepAdjustment in Hk. cbv zeta in Hk.
  rewrite orElse_empty, Hp, Hc in Hk.
  now destruct (_ && _).
Qed.

Lemma sanitizeAdjustments_no_cashout (formData : FormData)
      (l : list Adjustment.t) (a : Adjustment.t) :
  strictEq (loanPurpose formData) "refinance" = true ->
  isDSCRRequest formData = false ->
  In a (sanitizeAdjustments formData l) ->
  ~ Spec.ContainsCI (Adjustment.description a) "CASHOUT".
Proof.
  intros Hp Hd Ha. unfold sanitizeAdjustments in Ha.
  apply in_map_iff in Ha as (b & <- & Hb).
  apply filter_In in Hb as [_ Hk].
  rewrite rewriteAdjustment_not_dscr by exact Hd.
  now apply (keepAdjustment_no_cashout formData).
Qed.

(** X7.  When the loan purpose is refinance and the request is not a
    DSCR request, and the handler answers with data, no adjustment whose
    description contains CASHOUT, in any case of letters, is left in the
    adjustment list of a rate option of the programs sent, nor in the
    global adjustments sent. *)
Theorem no_cashout_on_refinance (formData : FormData) (up : Upstream)
        (Hpurpose : strictEq (loanPurpose formData) "refinance" = true)
        (Hdoc : isDSCRRequest formData = false) :
  match data (handler formData up) with
  | Some d =>
      (forall p o l a,
          In p (Data.programs d) ->
          In o (Program.rateOptions p) ->
          RateOption.adjustments o = Some l ->
          In a l ->
          ~ Spec.ContainsCI (Adjustment.description a) "CASHOUT")
      /\ (forall g a,
             Data.globalAdjustments d = Some g ->
             In a g ->
             ~ Spec.ContainsCI (Adjustment.description a) "CASHOUT")
  | None => True
  end.
Proof.
  destruct up as [message|ok status responseText]; [exact I|].
  cbn [handler]. destruct ok; cbn [negb]; [|exact I].
  unfold respond. destruct (engineError responseText); [exact I|].
  set (result := Parser.parseSOAPResponse (resultXml responseText)).
  rewrite assemble_spec. cbv zeta.
  destruct (selectOutput formData (Parser.programs result))
    as [|top rest] eqn:E; [exact I|].
  cbn [data Data.programs Data.globalAdjustments]. split.
  - intros p o l a Hp Ho Hl Ha. rewrite <- E, selectOutput_spec in Hp.
    apply in_map_iff in Hp as (q & <- & Hq).
    apply filter_In in Hq as [_ Hk].
    unfold afterAll in Ho. rewrite Hk in Ho.
    unfold sanitized in Ho. cbn [Program.rateOptions Program.setRateOptions]
      in Ho.
    destruct (afterFilter formData q); cbn in Ho.
    apply in_map_iff in Ho as (o0 & <- & Ho0).
    unfold sanitizeRateOption in Hl.
    destruct (RateOption.adjustments o0) as [l0|] eqn:E0.
    + destruct o0; cbn in Hl. injection Hl as <-.
      now apply (sanitizeAdjustments_no_cashout formData l0).
    + congruence.
  - intros g a Hg.
    destruct (Parser.globalAdjustments result) as [g0|]; [|discriminate].
    injection Hg as <-.
    now apply sanitizeAdjustments_no_cashout.
Qed.

Lemma no_cashout_on_refinance_witness :
  match data (handler refinanceForm (Returned true 200 sampleResponse)) with
  | Some d =>
      (forall p o l a,
          In p (Data.programs d) ->
          In o (Program.rateOptions p) ->
          RateOption.adjustments o = Some l ->
          In a l ->
          ~ Spec.ContainsCI (Adjustment.description a) "CASHOUT")
      /\ (forall g a,
             Data.globalAdjustments d = Some g ->
             In a g ->
             ~ Spec.ContainsCI (Adjustment.description a) "CASHOUT")
  | None => True
  end.
Proof.
  apply (no_cashout_on_refinance
           refinanceForm (Returned true 200 sampleResponse));
    reflexivity.
Defined.

(** On the sample, the cash-out line and the DSCR line leave the rate
    options and the global list of a full-documentation refinance. *)
Example sample_refinance :
  match data (handler refinanceForm (Returned true 200 sampleResponse)) with
  | Some d =>
      (map (fun p =>
              map (fun o =>
                     map Adjustment.description
                         (PricingLogic.orEmpty (RateOption.adjustments o)))
                  (Program.rateOptions p))
           (Data.programs d),
       map Adjustment.description
           (PricingLogic.orEmpty (Data.globalAdjustments d)))
      = ([[["LTV 75-80"]; ["LTV 75-80"]]], ["LTV 75-80"])
  | None => False
  end.
Proof. vm_compute. reflexivity. Qed.

End SanitizerFrame.

(** ** The selector on every list of programs *)

Section TwoPasses.
Import PricingLogic JsNumber JsString Examples SelectorSpec.

Lemma fold_left_filter {A B : Type} (f : B -> bool) (g : A -> B -> A)
      (l : list B) (a : A) :
  fold_left (fun a x => if f x then g a x else a) l a
  = fold_left g (filter f l) a.
Proof.
  revert a. induction l as [|x l IH]; intros a; [reflexivity|].
  cbn [fold_left filter]. destruct (f x); cbn [fold_left]; apply IH.
Qed.

Lemma Selected_Picked (cs : list Candidate) (sel : Selection) :
  Spec.Selected cs sel -> Picked cs (fst sel).
Proof.
  destruct sel as [[t|] [d|]]; cbn [Spec.Selected fst Picked];
    try contradiction.
  - intros (l1 & pn & o & l2 & Hc & Ht & _ & Hb & H1 & H2).
    now exists l1, pn, o, l2.
  - auto.
Qed.

Lemma inBandb_correct (o : RateOption.t) :
  inBandb o = true <-> Spec.inBand o.
Proof. apply inBand_correct. Qed.

(** One scan with a body that looks at the candidates chosen by [f]. *)
Lemma scan_filter (f : Candidate -> bool)
      (body : string -> Selection -> RateOption.t -> Selection)
      (programs : list Program.t) (sel : Selection) :
  (forall pn o sel,
      body pn sel o = if f (pn, o) then consider pn sel o else sel) ->
  scan body programs sel
  = fold_left (fun sel c => consider (fst c) sel (snd c))
              (filter f (Spec.candidates programs)) sel.
Proof.
  intros Hbody. rewrite scan_candidates, <- fold_left_filter.
  apply fold_left_ext_in. intros a [pn o] _. apply Hbody.
Qed.

(** Two passes whose bodies look at the candidates chosen by [first] and
    by [fallback] choose among the pool of the two. *)
Lemma two_passes_pool (first fallback : Candidate -> bool)
      (firstBody fallbackBody
         : string -> Selection -> RateOption.t -> Selection)
      (programs : list Program.t) :
  (forall pn o sel,
      firstBody pn sel o
      = if first (pn, o) then consider pn sel o else sel) ->
  (forall pn o sel,
      fallbackBody pn sel o
      = if fallback (pn, o) then consider pn sel o else sel) ->
  let sel := scan firstBody programs (None, None) in
  let sel' := match fst sel with
              | None => scan fallbackBody programs sel
              | Some _ => sel
              end in
  Picked (pool first fallback (Spec.candidates programs)) (fst sel').
Proof.
  intros H1 H2. cbv zeta.
  rewrite (scan_filter first) by exact H1.
  set (cs := Spec.candidates programs).
  assert (Hs1 : Spec.Selected
                  (filter first cs)
                  (fold_left (fun sel c => consider (fst c) sel (snd c))
                             (filter first cs) (None, None))).
  { apply (fold_consider_Selected [] (filter first cs) (None, None)).
    intros pn o []. }
  destruct (fold_left _ (filter first cs) _) as [[t|] [d|]] eqn:E;
    cbn [fst Spec.Selected] in *; try contradiction.
  - (* the first pass chose *)
    assert (Hex : existsb (fun c => inBandb (snd c)) (filter first cs) = true).
    { destruct Hs1 as (l1 & pn & o & l2 & Hc & _ & _ & Hb & _).
      apply existsb_exists. exists (pn, o). split.
      - rewrite Hc. apply in_or_app. right. now left.
      - now apply inBandb_correct. }
    unfold pool. rewrite Hex.
    apply (Selected_Picked _ (Some t, Some d)). exact Hs1.
  - (* it did not *)
    assert (Hex : existsb (fun c => inBandb (snd c)) (filter first cs) = false).
    { destruct (existsb _ _) eqn:Hex; [|reflexivity].
      apply existsb_exists in Hex as ([pn o] & Hin & Hb).
      apply inBandb_correct in Hb. now elim (Hs1 pn o). }
    unfold pool. rewrite Hex.
    rewrite (scan_filter fallback) by exact H2. fold cs.
    apply Selected_Picked.
    apply (fold_consider_Selected [] (filter fallback cs) (None, None)).
    intros pn o [].
Qed.


Lemma fallbackPass_eligible (pppAllowed : bool) (pn : string)
      (sel : Selection) (o : RateOption.t) :
  fallbackPass pppAllowed pn sel o
  = if fallbackEligible pppAllowed (pn, o)
    then consider pn sel o else sel.
Proof.
  unfold fallbackPass, fallbackEligible, penalty, label.
  cbn [fst snd]. destruct pppAllowed; cbn [negb andb orb]; [reflexivity|].
  now destruct (hasPPPInName _).
Qed.

Lemma App_firstPass_eligible (isPPPAllowed : bool) (pn : string)
      (sel : Selection) (o : RateOption.t) :
  App.firstPass isPPPAllowed pn sel o
  = if (if isPPPAllowed then matchesFiveYear (pn, o)
        else negb (penalty (pn, o)))
    then consider pn sel o else sel.
Proof.
  unfold App.firstPass, matchesFiveYear, penalty, label.
  change App.hasPPPInName with hasPPPInName.
  cbn [fst snd]. destruct isPPPAllowed; cbn [negb andb].
  - now destruct (_ || _).
  - now destruct (hasPPPInName _).
Qed.

Lemma App_fallbackPass_eligible (isPPPAllowed : bool) (pn : string)
      (sel : Selection) (o : RateOption.t) :
  App.fallbackPass isPPPAllowed pn sel o
  = if fallbackEligible isPPPAllowed (pn, o)
    then consider pn sel o else sel.
Proof. apply fallbackPass_eligible. Qed.


Lemma App_getTargetPricing_pool (programs : list Program.t)
      (occupancyType : string) :
  let pppAllowed := isPPPAllowed occupancyType in
  Picked (pool (fun c => if pppAllowed then matchesFiveYear c
                         else negb (penalty c))
               (fallbackEligible pppAllowed)
               (Spec.candidates programs))
         (App.getTargetPricing (Some programs) occupancyType).
Proof.
  cbv zeta. unfold App.getTargetPricing.
  change (String.eqb occupancyType "investment")
    with (isPPPAllowed occupancyType).
  apply (two_passes_pool _ _ _ _ programs).
  - intros; apply App_firstPass_eligible.
  - intros; apply App_fallbackPass_eligible.
Qed.



(** On the sample, the option with the selected five-year penalty, priced
    100.1, is preferred to the option priced 100 that does not carry the
    label. *)
Example sample_investment_target :
  option_map (fun t => (Target.programName t, Target.price t))
             (getTargetPricing (Some samplePrograms) "investment" "5year")
  = Some ("30yr Fixed 5 YR PPP", (1001 # 10)%Q).
Proof. vm_compute. reflexivity. Qed.




(** The selector classifies the description of a rate option before the
    name of its program: on the unfiltered sample it takes, for a primary
    residence, the option priced 100 of the program named with a
    three-year penalty. *)
Example sample_unfiltered_target :
  option_map (fun t => (Target.programName t, Target.price t))
             (getTargetPricing (Some samplePrograms) "primary" "5year")
  = Some ("Investor 30yr", 100%Q).
Proof. vm_compute. reflexivity. Qed.




(** A period without a rate option in the band falls back on every
    option: the closest to par is the one priced 100, in a program with a
    three-year penalty. *)
Example sample_investment_fallback :
  option_map (fun t => (Target.programName t, Target.price t))
             (getTargetPricing (Some samplePrograms) "investment" "2year")
  = Some ("Investor 30yr", 100%Q).
Proof. vm_compute. reflexivity. Qed.

(** X11.  The copy of the selector in the client and the selector of
    PricingLogic return the same thing on every list of programs for a
    property that is not an investment; for an investment property the
    client is the selector of PricingLogic with the five-year period, as
    long as no rate option is labelled 60MO PPP, which only the client
    takes for the five-year penalty. *)
Theorem client_selector_agrees (programs : list Program.t) :
  (forall occupancyType prepayPeriod,
      isPPPAllowed occupancyType = false ->
      App.getTargetPricing (Some programs) occupancyType
      = getTargetPricing (Some programs) occupancyType prepayPeriod)
  /\ ((forall c, In c (Spec.candidates programs) ->
                 includes (label c) "60MO PPP" = false) ->
      App.getTargetPricing (Some programs) "investment"
      = getTargetPricing (Some programs) "investment" "5year").
Proof.
  split.
  - intros occupancyType prepayPeriod Hocc.
    unfold App.getTargetPricing, getTargetPricing.
    change (String.eqb occupancyType "investment")
      with (isPPPAllowed occupancyType).
    rewrite Hocc. reflexivity.
  - intros Hno.
    unfold App.getTargetPricing, getTargetPricing.
    change (String.eqb "investment" "investment") with true.
    change (isPPPAllowed "investment") with true.
    cbv iota zeta.
    change (getPPPPattern "5year") with "5 YR PPP".
    assert (Hbody : forall sel c,
               In c (Spec.candidates programs) ->
               App.firstPass true (fst c) sel (snd c)
               = firstPass true "5 YR PPP" (fst c) sel (snd c)).
    { intros sel [pn o] Hin. specialize (Hno (pn, o) Hin).
      unfold label in Hno. cbn [fst snd] in *.
      unfold App.firstPass, firstPass.
      change (toUpperCase "5 YR PPP") with "5 YR PPP".
      change (toUpperCase (replaceFirst " YR " "YR " "5 YR PPP"))
        with "5YR PPP".
      change App.hasPPPInName with hasPPPInName.
      rewrite Hno, orb_false_r. reflexivity. }
    rewrite !scan_candidates.
    rewrite (fold_left_ext_in _ _ _ _ Hbody).
    reflexivity.
Qed.

Lemma client_selector_agrees_witness :
  App.getTargetPricing (Some samplePrograms) "investment"
  = getTargetPricing (Some samplePrograms) "investment" "5year".
Proof.
  refine (proj2 (client_selector_agrees samplePrograms) _).
  intros c Hin. vm_compute in Hin.
  repeat (destruct Hin as [<-|Hin]; [vm_compute; reflexivity|]).
  contradiction.
Defined.

(** With an option labelled 60MO PPP the two differ. *)
Example client_selector_sixty_months :
  let programs :=
    [programNamed "Investor"
                  [rateOptionAt 7 0 "30yr 60MO PPP";
                   rateOptionAt 7 (1 # 2) "30yr 5 YR PPP"]] in
  option_map Target.programName
             (App.getTargetPricing (Some programs) "investment")
  = Some "30yr 60MO PPP"
  /\ option_map Target.programName
                (getTargetPricing (Some programs) "investment" "5year")
     = Some "30yr 5 YR PPP".
Proof. split; vm_compute; reflexivity. Qed.

End TwoPasses.

(** ** The price range and the selector *)

Section PriceRange.
Import PricingLogic JsNumber JsString Examples SelectorSpec PricingTools.







(** X13.  The target the client shows is built from a rate option of one
    of the programs it lists under Available Programs, and from one of the
    options it lists for that program; when it lists no program there is
    no target, and for an investment property there is a target as soon
    as it lists one. *)
Theorem target_is_listed (programs : list Program.t)
        (occupancyType : string) :
  let t := App.getTargetPricing (Some programs) occupancyType in
  (forall target, t = Some target ->
      exists p o,
        In p (Client.availablePrograms programs)
        /\ In o (Client.filterRateOptionsByPrice (Program.rateOptions p))
        /\ target = Spec.targetOf (orElse (Program.name p) "Unknown") o)
  /\ (Client.availablePrograms programs = [] -> t = None)
  /\ (occupancyType = "investment" ->
      Client.availablePrograms programs <> [] -> t <> None).
Proof.
  cbv zeta.
  pose proof (App_getTargetPricing_pool programs occupancyType) as Hpool.
  cbv zeta in Hpool.
  assert (Hlisted : forall pn o,
             In (pn, o) (Spec.candidates programs) -> Spec.inBand o ->
             exists p,
               In p (Client.availablePrograms programs)
               /\ In o (Client.filterRateOptionsByPrice
                          (Program.rateOptions p))
               /\ pn = orElse (Program.name p) "Unknown").
  { intros pn o Hin Hb. apply in_flat_map in Hin as (p & Hp & Hin).
    apply in_map_iff in Hin as (o' & E & Ho). injection E as <- <-.
    assert (Hf : In o' (Client.filterRateOptionsByPrice
                          (Program.rateOptions p))).
    { apply filter_In. split; [exact Ho|].
      now apply (inBandb_correct o'). }
    exists p. split; [|now split].
    apply filter_In. split; [exact Hp|].
    apply Nat.ltb_lt.
    destruct (Client.filterRateOptionsByPrice (Program.rateOptions p));
      [contradiction|cbn; lia]. }
  assert (Hsome : forall target,
             App.getTargetPricing (Some programs) occupancyType = Some target ->
             exists p o,
               In p (Client.availablePrograms programs)
               /\ In o (Client.filterRateOptionsByPrice
                          (Program.rateOptions p))
               /\ target = Spec.targetOf (orElse (Program.name p) "Unknown") o).
  { intros target E. rewrite E in Hpool.
    destruct Hpool as (l1 & pn & o & l2 & Hc & Ht & Hb & _).
    assert (Hin : In (pn, o) (Spec.candidates programs)).
    { assert (Hin : In (pn, o) (l1 ++ (pn, o) :: l2))
        by (apply in_or_app; right; now left).
      rewrite <- Hc in Hin. unfold pool in Hin.
      destruct (existsb _ _); now apply filter_In in Hin. }
    destruct (Hlisted pn o Hin Hb) as (p & Hp & Ho & ->).
    now exists p, o. }
  split; [exact Hsome|]. split.
  - intros Hnone.
    destruct (App.getTargetPricing (Some programs) occupancyType)
      as [target|]; [|reflexivity].
    destruct (Hsome target eq_refl) as (p & _ & Hp & _).
    rewrite Hnone in Hp. contradiction.
  - intros -> Hlist Ht. rewrite Ht in Hpool.
    change (isPPPAllowed "investment") with true in Hpool.
    cbv iota in Hpool. unfold pool in Hpool.
    destruct (Client.availablePrograms programs) as [|p ps] eqn:E;
      [now apply Hlist|].
    assert (Hp : In p (Client.availablePrograms programs))
      by (rewrite E; now left).
    apply filter_In in Hp as [Hp Hlen]. apply Nat.ltb_lt in Hlen.
    destruct (Client.filterRateOptionsByPrice (Program.rateOptions p))
      as [|o os] eqn:Eo; [cbn in Hlen; lia|].
    assert (Ho : In o (Client.filterRateOptionsByPrice
                         (Program.rateOptions p)))
      by (rewrite Eo; now left).
    apply filter_In in Ho as [Ho Hb].
    assert (Hc : In (orElse (Program.name p) "Unknown", o)
                    (Spec.candidates programs)).
    { apply in_flat_map. exists p. split; [exact Hp|].
      now apply in_map. }
    assert (Hband : Spec.inBand o) by now apply (inBandb_correct o).
    destruct (existsb _ _) eqn:Hex.
    + apply existsb_exists in Hex as ([pn o'] & Hin & Hb').
      apply (Hpool pn o' Hin). now apply inBandb_correct.
    + apply (Hpool (orElse (Program.name p) "Unknown") o); [|exact Hband].
      apply filter_In. now split.
Qed.

Lemma target_is_listed_witness :
  App.getTargetPricing (Some samplePrograms) "investment" <> None.
Proof.
  refine (proj2 (proj2 (target_is_listed samplePrograms "investment"))
                eq_refl _).
  vm_compute. discriminate.
Defined.

End PriceRange.

(** ** Sorted copies and searches *)

Section KeySort.
Import Parser JsNumber.
Context {A : Type} (key : A -> Q).

Let cmp (a b : A) : Q := sub (key a) (key b).








End KeySort.

Section SortedCopies.
Import PricingLogic JsNumber JsString PricingTools SortSpec Examples.







End SortedCopies.

(** ** Ratios and totals *)

Section Arithmetic.
Import JsNumber PricingTools.


Lemma mul_correct (a b : Q) : (mul a b == a * b)%Q.
Proof. apply Qred_correct. Qed.

Lemma div_correct (a b : Q) : (div a b == a / b)%Q.
Proof. apply Qred_correct. Qed.


End Arithmetic.

Section Ratios.
Import JsNumber JsString PricingTools Mapping.



Ltac compare_ratio :=
  repeat match goal with
         | |- context [geb ?a ?b] =>
             let E := fresh "E" in destruct (geb a b) eqn:E
         end.

Ltac order_of_ratio :=
  repeat match goal with
         | H : geb _ _ = true |- _ => apply geb_ge in H
         | H : geb ?a ?b = false |- _ =>
             assert (a < b)%Q
               by (destruct (Qlt_le_dec a b) as [Hlt|Hge];
                   [exact Hlt|apply geb_ge in Hge; congruence]);
             clear H
         end.



Lemma div_monotone (a b c : Q) :
  (0 < c)%Q -> (a <= b)%Q -> (div a c <= div b c)%Q.
Proof.
  intros Hc Hab. rewrite !div_correct. unfold Qdiv.
  apply Qmult_le_compat_r; [exact Hab|].
  apply Qlt_le_weak, Qinv_lt_0_compat, Hc.
Qed.

(** X18.  For a given positive expense a higher rent never gets a tier
    of a higher code: the codes that [mapDSCRRatio] gives to the ranges
    of [calculateDSCR] descend from 6 to 1 as the ratio grows. *)
Theorem dscr_code_descends (rent1 rent2 expense : Q)
        (Hexpense : (0 < expense)%Q) (Hrent : (rent1 <= rent2)%Q) :
  exists m n,
    mapDSCRRatio (Some (DSCR.range (calculateDSCR rent1 expense))) = Code m
    /\ mapDSCRRatio (Some (DSCR.range (calculateDSCR rent2 expense)))
       = Code n
    /\ (1 <= n <= m)%Z /\ (m <= 6)%Z.
Proof.
  unfold calculateDSCR.
  assert (E : leb expense 0 = false).
  { destruct (leb expense 0) eqn:E; [|reflexivity].
    apply leb_le in E. lra. }
  rewrite E. cbn [DSCR.range].
  pose proof (div_monotone rent1 rent2 expense Hexpense Hrent) as Hd.
  set (a := div rent1 expense) in *. set (b := div rent2 expense) in *.
  unfold rangeOf. compare_ratio; order_of_ratio;
    try (exfalso; lra);
    eexists; eexists; (split; [reflexivity|]); (split; [reflexivity|]);
    cbn; lia.
Qed.

Lemma dscr_code_descends_witness :
  exists m n,
    mapDSCRRatio (Some (DSCR.range (calculateDSCR 2000 2400))) = Code m
    /\ mapDSCRRatio (Some (DSCR.range (calculateDSCR 3150 2400))) = Code n
    /\ (1 <= n <= m)%Z /\ (m <= 6)%Z.
Proof.
  apply (dscr_code_descends 2000 3150 2400);
    [reflexivity|unfold Qle; cbn; lia].
Defined.

End Ratios.

Section TotalAdjustments.
Import JsNumber JsString PricingTools Handler.





End TotalAdjustments.

(** ** The memory of past pricings *)

Section Memory.
Import JsNumber JsString PricingLogic PricingTools PricingMemory.
Context {PricingResult : Type} (apiError : PricingResult -> option string).

Local Abbreviation Entry := (PricingMemory.Entry PricingResult).
Local Abbreviation Store := (PricingMemory.Store PricingResult).

Lemma add_entries (now : Z) (suffix : string) (date : Z)
      (scenario : LoanScenario.t) (result : option PricingResult)
      (targetPricing : option Target.t) (duration : Q) (entries : Store) :
  add now suffix date scenario result targetPricing duration entries
  = (("pricing_" ++ decimalOfZ now ++ "_" ++ suffix)%string,
     mkEntry ("pricing_" ++ decimalOfZ now ++ "_" ++ suffix)%string
             date scenario result targetPricing duration
       :: firstn 99 entries).
Proof.
  unfold add. cbv zeta. f_equal.
  change maxEntries with (S 99).
  destruct (S 99 <? _) eqn:E.
  - reflexivity.
  - apply Nat.ltb_ge in E. cbn [List.length] in E.
    f_equal. symmetry. apply firstn_all2. lia.
Qed.

(** X20.  The store never holds more than 100 entries, whatever is added
    to it, and [add] puts the new entry first, keeps the 99 newest of the
    entries it had, in their order, and returns the id of the new entry,
    under which [getById] finds it (also when an older entry has the same
    id); the older entries that are kept are found as before. *)
Theorem memory_is_bounded (now : Z) (suffix : string) (date : Z)
        (scenario : LoanScenario.t) (result : option PricingResult)
        (targetPricing : option Target.t) (duration : Q) (entries : Store) :
  let entry :=
    mkEntry ("pricing_" ++ decimalOfZ now ++ "_" ++ suffix)%string
            date scenario result targetPricing duration in
  let after :=
    add now suffix date scenario result targetPricing duration entries in
  (forall store : Store, Reachable store -> List.length store <= 100)
  /\ getAll (snd after) = entry :: firstn 99 entries
  /\ getById (fst after) (snd after) = Some entry
  /\ (forall id', id' <> fst after ->
         getById id' (snd after) = getById id' (firstn 99 entries))
  /\ getRecent 1 (snd after) = [entry].
Proof.
  cbv zeta. rewrite add_entries. cbn [fst snd].
  split; [|split; [|split; [|split]]].
  - induction 1 as [|? ? ? ? ? ? ? st Hst IH|st Hst IH].
    + cbn. lia.
    + rewrite add_entries. cbn [snd List.length].
      pose proof (firstn_le_length 99 st). lia.
    + cbn. lia.
  - reflexivity.
  - unfold getById. cbn [find id]. now rewrite String.eqb_refl.
  - intros id' Hid. unfold getById. cbn [find id].
    destruct (String.eqb _ id') eqn:E; [|reflexivity].
    apply String.eqb_eq in E. now elim Hid.
  - unfold getRecent. cbn [List.length]. cbv zeta.
    change (1 <? 0)%Z with false. cbv iota.
    replace (Z.to_nat
               (Z.min 1 (Z.of_nat (S (List.length (firstn 99 entries))))))
      with 1 by lia.
    reflexivity.
Qed.

(** X21.  [getRecent] returns a prefix of the entries, the newest: the
    first [count] of them, all of them when there are fewer, for a count
    that is not negative; and for a negative count all but the oldest
    [-count] of them. *)
Theorem getRecent_prefix (count : Z) (entries : Store) :
  (exists older, entries = getRecent count entries ++ older)
  /\ ((0 <= count)%Z ->
      getRecent count entries = firstn (Z.to_nat count) entries
      /\ List.length (getRecent count entries)
         = Nat.min (Z.to_nat count) (List.length entries))
  /\ ((count < 0)%Z ->
      getRecent count entries
      = firstn (List.length entries - Z.to_nat (- count)) entries).
Proof.
  unfold getRecent. cbv zeta. split; [|split].
  - eexists. symmetry. apply firstn_skipn.
  - intros H. assert (E : (count <? 0)%Z = false) by now apply Z.ltb_ge.
    rewrite E.
    destruct (Z.min_spec count (Z.of_nat (List.length entries)))
      as [[Hlt ->]|[Hge ->]].
    + split; [reflexivity|]. rewrite length_firstn. lia.
    + rewrite Nat2Z.id, firstn_all. split.
      * symmetry. apply firstn_all2. lia.
      * lia.
  - intros H. assert (E : (count <? 0)%Z = true) by now apply Z.ltb_lt.
    rewrite E. f_equal. lia.
Qed.

Lemma within_self (a tolerance : Q) :
  within a a tolerance = negb (isZero a) && leb 0 tolerance.
Proof.
  unfold within. destruct (isZero a) eqn:E; [reflexivity|].
  cbn [negb andb]. unfold leb.
  assert (H : (div (abs (sub a a)) a == 0)%Q).
  { rewrite div_correct, abs_correct, sub_correct.
    setoid_replace (a - a)%Q with 0%Q by ring.
    reflexivity. }
  destruct (Qle_bool 0 tolerance) eqn:Et.
  - apply Qle_bool_iff. apply Qle_bool_iff in Et. now rewrite H.
  - destruct (Qle_bool (div _ a) tolerance) eqn:Ed; [|reflexivity].
    apply Qle_bool_iff in Ed. rewrite H in Ed.
    apply Qle_bool_iff in Ed. congruence.
Qed.

(** X22.  [findSimilar] returns entries of the store with the occupancy
    type and the loan purpose of the scenario.  For a scenario whose LTV,
    credit score or loan amount is zero it returns nothing, not even the
    entries of that very scenario; for any other scenario and a tolerance
    that is not negative it returns every entry of that scenario. *)
Theorem findSimilar_edges (scenario' : LoanScenario.t) (tolerance : Q)
        (entries : Store) :
  (forall e, In e (findSimilar scenario' tolerance entries) ->
             In e entries
             /\ LoanScenario.occupancyType (scenario e)
                = LoanScenario.occupancyType scenario'
             /\ LoanScenario.loanPurpose (scenario e)
                = LoanScenario.loanPurpose scenario')
  /\ (isZero (LoanScenario.ltv scenario')
      || isZero (LoanScenario.creditScore scenario')
      || isZero (LoanScenario.loanAmount scenario') = true ->
      findSimilar scenario' tolerance entries = [])
  /\ (isZero (LoanScenario.ltv scenario')
      || isZero (LoanScenario.creditScore scenario')
      || isZero (LoanScenario.loanAmount scenario') = false ->
      (0 <= tolerance)%Q ->
      forall e, In e entries -> scenario e = scenario' ->
                In e (findSimilar scenario' tolerance entries)).
Proof.
  unfold findSimilar. split; [|split].
  - intros e He. apply filter_In in He as [He Hf]. cbv zeta in Hf.
    rewrite !andb_true_iff in Hf.
    destruct Hf as [[_ Ho] Hp].
    apply String.eqb_eq in Ho, Hp. now split.
  - intros Hz.
    match goal with
    | |- filter ?f entries = [] =>
        assert (Hall : forall e, f e = false)
    end.
    { intros e. cbv zeta. unfold within.
      destruct (isZero (LoanScenario.ltv scenario')); [reflexivity|].
      destruct (isZero (LoanScenario.creditScore scenario'));
        [now rewrite andb_false_r|].
      destruct (isZero (LoanScenario.loanAmount scenario'));
        [now rewrite andb_false_r|].
      discriminate. }
    induction entries as [|e l IH]; [reflexivity|].
    cbn [filter]. now rewrite Hall.
  - intros Hz Ht e He <-. apply filter_In. split; [exact He|].
    cbv zeta. rewrite !within_self, !String.eqb_refl.
    apply orb_false_iff in Hz as [Hz H3].
    apply orb_false_iff in Hz as [H1 H2].
    rewrite H1, H2, H3.
    assert (E : leb 0 tolerance = true) by now apply leb_le.
    now rewrite E.
Qed.

Lemma count_pos (l : list Entry) : l <> [] -> (0 < count l)%Q.
Proof.
  intros H. unfold count. destruct l as [|e l]; [now elim H|].
  cbn [List.length]. unfold Qlt. cbn. lia.
Qed.

Lemma count_filter (f : Entry -> bool) (l : list Entry) :
  (0 <= count (filter f l))%Q /\ (count (filter f l) <= count l)%Q.
Proof.
  unfold count. pose proof (filter_length_le f l) as H.
  unfold Qle. cbn. lia.
Qed.

Lemma round_range (x : Q) (lo hi : Z) :
  (inject_Z lo <= x)%Q -> (x <= inject_Z hi)%Q ->
  (inject_Z lo <= round x)%Q /\ (round x <= inject_Z hi)%Q.
Proof.
  intros Hlo Hhi. unfold round. rewrite <- !Zle_Qle. split.
  - rewrite <- (Qfloor_Z lo). apply Qfloor_resp_le. lra.
  - assert (H : (Qfloor (x + (1 # 2)) <= Qfloor (inject_Z hi + (1 # 2)))%Z)
      by (apply Qfloor_resp_le; lra).
    assert (H' : (Qfloor (inject_Z hi + (1 # 2)) < hi + 1)%Z).
    { pose proof (Qfloor_le (inject_Z hi + (1 # 2))) as Hf.
      rewrite Zlt_Qlt, inject_Z_plus.
      change (inject_Z 1) with 1%Q. lra. }
    lia.
Qed.

(** X23.  The statistics of the store: the number of queries is the
    number of entries, the success rate is a whole percentage between 0
    and 100, which is 100 when every pricing of a store that is not empty
    succeeded, and everything is zero for the empty store. *)
Theorem getStats_bounds (entries : Store) :
  let stats := getStats apiError entries in
  totalQueries stats = List.length entries
  /\ (0 <= successRate stats)%Q /\ (successRate stats <= 100)%Q
  /\ (exists percent : Z, successRate stats = inject_Z percent)
  /\ (entries = [] -> stats = mkStats 0 0 0 0)
  /\ (entries <> [] -> forallb (succeeded apiError) entries = true ->
      successRate stats = 100%Q).
Proof.
  cbv zeta. unfold getStats. cbv zeta. cbn [totalQueries successRate].
  split; [reflexivity|].
  destruct entries as [|e l].
  - cbn. repeat split; try (unfold Qle; cbn; lia).
    + now exists 0%Z.
    + intros H. now elim H.
  - set (entries := e :: l).
    assert (Hne : entries <> []) by discriminate.
    change (0 <? List.length entries) with true. cbv iota.
    pose proof (count_pos entries Hne) as Hpos.
    destruct (count_filter (succeeded apiError) entries) as [H0 H1].
    assert (Hx : (0 <= mul (div (count (filter (succeeded apiError) entries))
                                (count entries)) 100)%Q
                 /\ (mul (div (count (filter (succeeded apiError) entries))
                              (count entries)) 100 <= 100)%Q).
    { rewrite mul_correct, div_correct.
      set (s := count (filter (succeeded apiError) entries)) in *.
      set (n := count entries) in *.
      assert (Hq : (0 <= s / n)%Q /\ (s / n <= 1)%Q).
      { split.
        - apply Qle_shift_div_l; [exact Hpos|]. lra.
        - apply Qle_shift_div_r; [exact Hpos|]. lra. }
      destruct Hq. split; lra. }
    destruct Hx as [Hx0 Hx1].
    destruct (round_range _ 0 100 Hx0 Hx1) as [R0 R1].
    split; [exact R0|]. split; [exact R1|].
    split; [eexists; reflexivity|].
    split; [discriminate|].
    intros _ Hall.
    assert (Hf : filter (succeeded apiError) entries = entries).
    { clear -Hall. induction entries as [|x xs IH]; [reflexivity|].
      cbn [forallb] in Hall. apply andb_true_iff in Hall as [Hx Hxs].
      cbn [filter]. rewrite Hx. now rewrite IH. }
    rewrite Hf. unfold round.
    assert (Hv : (mul (div (count entries) (count entries)) 100 == 100)%Q).
    { rewrite mul_correct, div_correct. field. lra. }
    rewrite Hv. reflexivity.
Qed.

End Memory.

Section MemorySamples.
Import PricingMemory MemorySamples.

Lemma memory_is_bounded_witness :
  List.length
    (snd (add 0 "abc" 0 (scenarioAt 80) (Some (@None string)) None 1200
              [entryAt 75 None]))
  <= 100.
Proof.
  apply (proj1 (memory_is_bounded 0 "abc" 0 (scenarioAt 80)
                                  (Some (@None string)) None 1200 [])).
  apply reach_add.
  change (Reachable
            (snd (add 0 "abc" 0 (scenarioAt 75) (Some (@None string)) None
                      1200 empty))).
  apply reach_add, reach_empty.
Defined.

Lemma getRecent_prefix_witness :
  getRecent (-1) [entryAt 80 None; entryAt 75 None]
  = firstn (2 - Z.to_nat 1) [entryAt 80 None; entryAt 75 None].
Proof.
  apply (proj2 (proj2 (getRecent_prefix
                         (-1) [entryAt 80 None; entryAt 75 None]))).
  reflexivity.
Defined.

Lemma findSimilar_edges_witness :
  findSimilar (scenarioAt 0) (1 # 10) [entryAt 0 None] = []
  /\ In (entryAt 80 None)
        (findSimilar (scenarioAt 80) (1 # 10)
                     [entryAt 75 None; entryAt 80 None]).
Proof.
  split.
  - apply (proj1 (proj2 (findSimilar_edges
                           (scenarioAt 0) (1 # 10) [entryAt 0 None]))).
    reflexivity.
  - apply (proj2 (proj2 (findSimilar_edges
                           (scenarioAt 80) (1 # 10)
                           [entryAt 75 None; entryAt 80 None]))).
    + reflexivity.
    + unfold Qle; cbn; lia.
    + cbn. tauto.
    + reflexivity.
Defined.

Lemma getStats_bounds_witness :
  successRate
    (getStats (fun r : option string => r)
              [entryAt 80 None; entryAt 75 None])
  = 100%Q.
Proof.
  apply (proj2 (proj2 (proj2 (proj2 (proj2
           (getStats_bounds
              (fun r : option string => r)
              [entryAt 80 None; entryAt 75 None])))))).
  - discriminate.
  - reflexivity.
Defined.

(** One failed pricing in three gives 67 percent. *)
Example getStats_sample :
  successRate
    (getStats (fun r : option string => r)
              [entryAt 80 None; entryAt 75 (Some "timeout");
               entryAt 70 None])
  = 67%Q.
Proof. reflexivity. Qed.

End MemorySamples.

(** ** The bounds of a scenario *)

Section ScenarioBounds.
Import JsNumber Validation.

Lemma pushIf_nil (test : bool) (message : string) (l : list string) :
  pushIf test message l = [] <-> test = false /\ l = [].
Proof.
  unfold pushIf. destruct test.
  - split; [|intros [H _]; discriminate].
    intros H. now apply app_eq_nil in H as [_ H].
  - tauto.
Qed.

Lemma ltb_false (a b : Q) : ltb a b = false <-> (b <= a)%Q.
Proof. apply ltb_ge. Qed.

(** X24.  [validateScenario] accepts a scenario exactly when the loan
    amount is between 50,000 and 5,000,000, the property value between
    125,000 and 100,000,000, the credit score between 620 and 999, the DTI
    between 1 and 55 and the LTV at most 90, bounds included; the loan
    amount is not compared with the property value, nor the LTV with
    their quotient.  A scenario rejected for its LTV carries the warning
    of a high LTV as well, and an accepted scenario is free of warnings
    exactly when its LTV is at most 80, its credit score at least 680 and
    its DTI at most 43. *)
Theorem validateScenario_bounds (scenario : LoanScenario.t) :
  let r := validateScenario scenario in
  (isValid r = true <->
   (50000 <= LoanScenario.loanAmount scenario <= 5000000)%Q
   /\ (125000 <= LoanScenario.propertyValue scenario <= 100000000)%Q
   /\ (620 <= LoanScenario.creditScore scenario <= 999)%Q
   /\ (1 <= LoanScenario.dti scenario <= 55)%Q
   /\ (LoanScenario.ltv scenario <= 90)%Q)
  /\ (isValid r = true <-> errors r = [])
  /\ (In "LTV cannot exceed 90%" (errors r) ->
      In "High LTV may limit program availability" (warnings r))
  /\ (warnings r = [] <->
      (LoanScenario.ltv scenario <= 80)%Q
      /\ (680 <= LoanScenario.creditScore scenario)%Q
      /\ (LoanScenario.dti scenario <= 43)%Q).
Proof.
  cbv zeta. unfold validateScenario. cbv zeta.
  cbn [isValid errors warnings].
  set (loanAmount := LoanScenario.loanAmount scenario).
  set (propertyValue := LoanScenario.propertyValue scenario).
  set (creditScore := LoanScenario.creditScore scenario).
  set (dti := LoanScenario.dti scenario).
  set (ltv := LoanScenario.ltv scenario).
  assert (Herr : forall l : list string,
             match l with [] => true | _ :: _ => false end = true
             <-> l = []).
  { intros [|x l]; split; intros H; try reflexivity; discriminate. }
  split; [|split; [|split]].
  - rewrite Herr, !pushIf_nil, !orb_false_iff. unfold gtb.
    rewrite !ltb_false. intuition lra.
  - apply Herr.
  - unfold pushIf at 1, gtb. intros Hin.
    destruct (ltb 90 ltv) eqn:E.
    + apply ltb_lt in E.
      assert (E' : ltb 80 ltv = true) by (apply ltb_lt; lra).
      rewrite E'. unfold pushIf.
      destruct (ltb creditScore 680), (ltb 43 dti), (ltb 50 dti);
        cbn; tauto.
    + exfalso. revert Hin. unfold pushIf.
      repeat match goal with
             | |- context [if ?b then _ else _] => destruct b
             end; cbn; intuition discriminate.
  - rewrite !pushIf_nil. unfold gtb. rewrite !ltb_false.
    intuition lra.
Qed.


Lemma validateScenario_bounds_witness :
  isValid (validateScenario
             (LoanScenario.make 400000 500000 80 740 35 "primary" "sfr"
                                "purchase" 360 None))
  = true.
Proof.
  apply (proj2 (proj1 (validateScenario_bounds
                         (LoanScenario.make 400000 500000 80 740 35
                                            "primary" "sfr" "purchase" 360
                                            None)))).
  cbn. repeat split; unfold Qle; cbn; lia.
Defined.

(** A loan of five millions on a property of 125,000 at an LTV of 50
    is accepted. *)
Example validateScenario_unrelated :
  isValid (validateScenario
             (LoanScenario.make 5000000 125000 50 740 35 "primary" "sfr"
                                "purchase" 360 None))
  = true.
Proof. reflexivity. Qed.

End ScenarioBounds.

(** ** What the parser builds *)

Section ParsedPrograms.
Import Parser JsString ParserSpec.

Lemma nonEmpty_not_nil {A : Type} (l : list A) : nonEmpty l <> Some [].
Proof. destruct l; discriminate. Qed.

(** X25.  The representative rate option of a program: there is none
    exactly for the empty list; otherwise it is a rate option of the
    list, namely the first one flagged best price when one is, else the
    first one whose status is Available when one is, else the first. *)
Theorem bestOption_priority (rateOptions : list RateOption.t) :
  (bestOption rateOptions = None <-> rateOptions = [])
  /\ (forall best, bestOption rateOptions = Some best ->
        In best rateOptions
        /\ (existsb RateOption.bestPrice rateOptions = true ->
            find RateOption.bestPrice rateOptions = Some best)
        /\ (existsb RateOption.bestPrice rateOptions = false ->
            existsb (fun r => String.eqb (RateOption.status r) "Available")
                    rateOptions = true ->
            find (fun r => String.eqb (RateOption.status r) "Available")
                 rateOptions = Some best)
        /\ (existsb RateOption.bestPrice rateOptions = false ->
            existsb (fun r => String.eqb (RateOption.status r) "Available")
                    rateOptions = false ->
            hd_error rateOptions = Some best)).
Proof.
  assert (Hfind : forall (f : RateOption.t -> bool) l,
             existsb f l = true <-> find f l <> None).
  { intros f l. induction l as [|x l IH]; cbn.
    - split; [discriminate|intros H; now elim H].
    - destruct (f x); cbn; [split; [discriminate|reflexivity]|exact IH]. }
  unfold bestOption. split.
  - destruct rateOptions as [|x l]; [tauto|].
    split; [|discriminate].
    destruct (find RateOption.bestPrice (x :: l)); [discriminate|].
    destruct (find _ (x :: l)); discriminate.
  - intros best E. split; [now apply bestOption_In|].
    destruct (find RateOption.bestPrice rateOptions) as [r|] eqn:E1.
    + split; [intros _; exact E|].
      split; intros H; exfalso;
        (destruct (existsb RateOption.bestPrice rateOptions) eqn:Ex;
         [discriminate|]);
        assert (Hn : existsb RateOption.bestPrice rateOptions = true)
          by (apply Hfind; rewrite E1; discriminate);
        congruence.
    + split.
      { intros H. apply Hfind in H. now elim H. }
      destruct (find (fun r => String.eqb (RateOption.status r) "Available")
                     rateOptions) as [r|] eqn:E2.
      * split; [intros _ _; exact E|].
        intros _ H. exfalso.
        assert (Hn : existsb
                       (fun r => String.eqb (RateOption.status r) "Available")
                       rateOptions = true)
          by (apply Hfind; rewrite E2; discriminate).
        congruence.
      * split; [|intros _ _; exact E].
        intros _ H. apply Hfind in H. now elim H.
Qed.


Lemma bestOption_priority_witness :
  find (fun r => String.eqb (RateOption.status r) "Available")
       [RateOption.make 6 0 6 0 "first" EmptyString EmptyString false 0 0
                        None;
        RateOption.make 7 0 7 0 "second" EmptyString "Available" false 0 0
                        None]
  = Some (RateOption.make 7 0 7 0 "second" EmptyString "Available" false
                          0 0 None).
Proof.
  apply (proj2 (bestOption_priority
                  [RateOption.make 6 0 6 0 "first" EmptyString EmptyString
                                   false 0 0 None;
                   RateOption.make 7 0 7 0 "second" EmptyString "Available"
                                   false 0 0 None])
               (RateOption.make 7 0 7 0 "second" EmptyString "Available"
                                false 0 0 None)
               eq_refl);
    reflexivity.
Defined.

Lemma parseRateOption_adjustments (byTemplate : TemplateMap)
      (m : Regex.MatchResult) :
  RateOption.adjustments (parseRateOption byTemplate m) <> Some [].
Proof. unfold parseRateOption. cbv zeta. apply nonEmpty_not_nil. Qed.

Lemma parseProgram_wellFormed (byTemplate : TemplateMap)
      (m : Regex.MatchResult) (p : Program.t) :
  parseProgram byTemplate m = Some p -> wellFormed p.
Proof.
  unfold parseProgram. cbv zeta.
  destruct (bestOption _) as [best|] eqn:E; [|discriminate].
  destruct (truthy _) eqn:Et; [|discriminate].
  intros H; injection H as <-. unfold wellFormed.
  cbn [Program.name Program.programName Program.rateOptions
       Program.adjustments Program.rate Program.apr Program.points
       Program.payment Program.description Program.investorName
       Program.totalClosingCost Program.cashToClose].
  split; [intros H; now rewrite H in Et|].
  split; [reflexivity|].
  split; [intros H; now rewrite H in E|].
  split; [apply nonEmpty_not_nil|].
  split.
  - apply Forall_map, Forall_forall. intros m' _.
    apply parseRateOption_adjustments.
  - exists best. repeat split. exact E.
Qed.

(** X26.  Whatever the payload, the parser counts the programs it
    returns in [totalPrograms], never returns an empty list of adjustments
    (a missing list instead), and every program it returns has a name
    that is not empty and is also its [programName], at least one rate
    option, and for its rate, APR, points, payment, description, investor
    and costs those of its representative rate option. *)
Theorem parsed_programs_wellFormed (xmlString : string) :
  let r := parseSOAPResponse xmlString in
  totalPrograms r = List.length (programs r)
  /\ globalAdjustments r <> Some []
  /\ Forall wellFormed (programs r).
Proof.
  cbv zeta. unfold parseSOAPResponse. cbv zeta.
  cbn [totalPrograms programs globalAdjustments].
  split; [reflexivity|]. split; [apply nonEmpty_not_nil|].
  apply Forall_forall. intros p Hp.
  apply sort_In, in_flat_map in Hp. destruct Hp as (m & _ & Hm).
  destruct (parseProgram _ m) as [q|] eqn:E; [|contradiction].
  destruct Hm as [<-|[]]. eapply parseProgram_wellFormed; eassumption.
Qed.

End ParsedPrograms.

(** ** The penalty classifier and the filter by occupancy *)

Section Classifier.
Import PricingLogic JsNumber JsString Regex.

(** X27.  The three copies of the penalty classifier (of the handler,
    of PricingLogic and of the client) give the same answer on every
    text, and the answer does not depend on the case of the letters.  The
    clause on YR PPP never decides: a text is a penalty exactly when it
    holds none of the three exemptions and holds PPP after a space or
    matches the regular expression. *)
Theorem classifier_copies_agree (text : string) :
  Handler.hasPPP text = hasPPPInName text
  /\ App.hasPPPInName text = hasPPPInName text
  /\ hasPPPInName (toUpperCase text) = hasPPPInName text
  /\ hasPPPInName text
     = negb (includes (toUpperCase text) "0MO PPP"
             || includes (toUpperCase text) "0 YR PPP"
             || includes (toUpperCase text) "0YR PPP")
       && (includes (toUpperCase text) " PPP"
           || test pppRegExp (toUpperCase text)).
Proof.
  split; [apply hasPPP_eq|]. split; [reflexivity|].
  split; [apply hasPPPInName_upper|].
  unfold hasPPPInName. cbv zeta.
  destruct (_ || _ || _); [reflexivity|]. cbn [negb andb].
  destruct (includes (toUpperCase text) "YR PPP") eqn:E;
    [|now rewrite orb_false_r].
  assert (H : includes (toUpperCase text) " PPP" = true).
  { apply includes_spec. apply includes_spec in E.
    apply (Contains_trans _ _ _ E). now exists "YR", EmptyString. }
  now rewrite H.
Qed.

(** The third clause decides where no space stands before PPP. *)
Example classifier_regex_clause :
  hasPPPInName "30YR FIXED 5YRPPP" = true
  /\ includes "30YR FIXED 5YRPPP" " PPP" = false.
Proof. split; reflexivity. Qed.

End Classifier.

Section OccupancyFilter.
Import PricingLogic JsNumber JsString Handler HandlerSpec Examples.

Lemma filter_all {A : Type} (f : A -> bool) (l : list A) :
  (forall x, In x l -> f x = true) -> filter f l = l.
Proof.
  induction l as [|x l IH]; intros H; [reflexivity|].
  cbn [filter]. rewrite (H x) by now left.
  f_equal. apply IH. intros y Hy. apply H. now right.
Qed.

Lemma setRateOptions_same (p : Program.t) :
  Program.setRateOptions p (Program.rateOptions p) = p.
Proof. now destruct p. Qed.

(** The programs the filter has nothing to say against. *)
Lemma filterProgramsByOccupancy_fixed (programs : list Program.t)
      (occupancyType : string) :
  (forall p, In p programs ->
             hasPPPInName (Program.name p) = false
             /\ Program.rateOptions p <> []
             /\ forall o, In o (Program.rateOptions p) ->
                          hasPPPInName (RateOption.description o) = false) ->
  filterProgramsByOccupancy programs occupancyType = programs.
Proof.
  intros H. unfold filterProgramsByOccupancy.
  destruct (String.eqb occupancyType "investment"); [reflexivity|].
  induction programs as [|p ps IH]; [reflexivity|].
  cbn [flat_map]. rewrite IH by (intros q Hq; apply H; now right).
  destruct (H p (or_introl eq_refl)) as (Hn & Hne & Ho).
  cbv zeta. rewrite orElse_empty, Hn.
  rewrite filter_all.
  - rewrite setRateOptions_same.
    destruct (Program.rateOptions p); [now elim Hne|reflexivity].
  - intros o Hin. rewrite orElse_empty, (Ho o Hin). reflexivity.
Qed.

Lemma filterProgramsByOccupancy_out (programs : list Program.t)
      (occupancyType : string) (p : Program.t) :
  String.eqb occupancyType "investment" = false ->
  In p (filterProgramsByOccupancy programs occupancyType) ->
  hasPPPInName (Program.name p) = false
  /\ Program.rateOptions p <> []
  /\ (forall o, In o (Program.rateOptions p) ->
                hasPPPInName (RateOption.description o) = false)
  /\ exists q, In q programs
               /\ p = Program.setRateOptions
                        q (filter (fun o => negb (hasPPPInName
                                                    (RateOption.description o)))
                                  (Program.rateOptions q)).
Proof.
  intros Hocc Hin. unfold filterProgramsByOccupancy in Hin.
  rewrite Hocc in Hin. apply in_flat_map in Hin as (q & Hq & Hin).
  cbv zeta in Hin. rewrite orElse_empty in Hin.
  destruct (hasPPPInName (Program.name q)) eqn:Hn; [contradiction|].
  assert (Hf : filter (fun opt => negb (hasPPPInName
                                          (orElse (RateOption.description opt)
                                                  EmptyString)))
                      (Program.rateOptions q)
               = filter (fun o => negb (hasPPPInName
                                          (RateOption.description o)))
                        (Program.rateOptions q)).
  { apply filter_ext. intros o. now rewrite orElse_empty. }
  rewrite Hf in Hin.
  set (p' := Program.setRateOptions q _) in *.
  destruct (Program.rateOptions p') as [|o os] eqn:E; [contradiction|].
  destruct Hin as [<-|[]].
  split; [now destruct q|]. split; [now rewrite E|]. split.
  - intros x Hx. unfold p' in Hx. destruct q; cbn in Hx.
    apply filter_In in Hx as [_ Hx]. now apply negb_true_iff in Hx.
  - now exists q.
Qed.

(** X28.  [filterProgramsByOccupancy] changes nothing when it is
    applied a second time, returns the programs as they are for an
    investment property, and otherwise returns programs without a penalty
    in their name, each with at least one rate option and none with a
    penalty in its description.  The programs that the handler sends for a
    property that is not an investment go through it unchanged. *)
Theorem filterProgramsByOccupancy_idempotent (programs : list Program.t)
        (occupancyType : string) :
  filterProgramsByOccupancy
    (filterProgramsByOccupancy programs occupancyType) occupancyType
  = filterProgramsByOccupancy programs occupancyType
  /\ (occupancyType = "investment" ->
      filterProgramsByOccupancy programs occupancyType = programs)
  /\ (occupancyType <> "investment" ->
      forall p, In p (filterProgramsByOccupancy programs occupancyType) ->
                hasPPPInName (Program.name p) = false
                /\ Program.rateOptions p <> []
                /\ forall o, In o (Program.rateOptions p) ->
                             hasPPPInName (RateOption.description o) = false)
  /\ (forall formData st,
         isInvestment formData = false ->
         filterProgramsByOccupancy (selectOutput formData st) occupancyType
         = selectOutput formData st).
Proof.
  split; [|split; [|split]].
  - destruct (String.eqb occupancyType "investment") eqn:E.
    + unfold filterProgramsByOccupancy. now rewrite E.
    + apply filterProgramsByOccupancy_fixed. intros p Hp.
      destruct (filterProgramsByOccupancy_out _ _ _ E Hp) as (H1 & H2 & H3 & _).
      now split.
  - intros ->. reflexivity.
  - intros Hocc p Hp. apply String.eqb_neq in Hocc.
    destruct (filterProgramsByOccupancy_out _ _ _ Hocc Hp)
      as (H1 & H2 & H3 & _).
    now split.
  - intros formData st Hinv.
    apply filterProgramsByOccupancy_fixed. intros p Hp.
    pose proof (selectOutput_penaltyFree formData st Hinv) as Hfree.
    unfold Spec.penaltyFree in Hfree. rewrite Forall_forall in Hfree.
    destruct (Hfree p Hp) as [Hn Ho]. rewrite Forall_forall in Ho.
    split; [exact Hn|]. split; [|exact Ho].
    rewrite selectOutput_spec in Hp.
    apply in_map_iff in Hp as (q & <- & Hq).
    apply filter_In in Hq as [_ Hk].
    unfold afterAll. rewrite Hk.
    destruct (kept_not_investment formData q Hinv Hk) as (_ & _ & -> & Hne).
    unfold sanitized. cbn [Program.rateOptions Program.setRateOptions].
    destruct (Program.rateOptions (withoutPenalties q)); [now elim Hne|].
    destruct (withoutPenalties q); discriminate.
Qed.

Lemma filterProgramsByOccupancy_idempotent_witness :
  filterProgramsByOccupancy
    (selectOutput primaryForm samplePrograms) "primary"
  = selectOutput primaryForm samplePrograms.
Proof.
  apply (proj2 (proj2 (proj2 (filterProgramsByOccupancy_idempotent
                                samplePrograms "primary")))).
  reflexivity.
Defined.

(** On the unfiltered sample the filter keeps, for a primary residence,
    the one program without a penalty in its name, with the two rate
    options that are exempt. *)
Example filterProgramsByOccupancy_sample :
  map (fun p => (Program.name p,
                 map RateOption.description (Program.rateOptions p)))
      (filterProgramsByOccupancy samplePrograms "primary")
  = [("NonQM 30yr Fixed", ["30yr Fixed 0MO PPP"; "30yr Fixed 10 YR PPP"]);
     ("Jumbo 30yr", ["Jumbo"])].
Proof. vm_compute. reflexivity. Qed.

End OccupancyFilter.

(** ** Reading an attribute *)

Section Attributes.
Import JsString Regex Xml Parser RegexSpec.

Lemma toUpperCase_cons_inv (a' : string) (x : ascii) (t : string) :
  toUpperCase a' = toUpperCase (String x t) ->
  exists x' t', a' = String x' t' /\ upperChar x' = upperChar x
                /\ toUpperCase t' = toUpperCase t.
Proof.
  destruct a' as [|x' t']; cbn; [discriminate|].
  intros H. injection H as H1 H2. now exists x', t'.
Qed.

Lemma toUpperCase_length (s : string) :
  String.length (toUpperCase s) = String.length s.
Proof. induction s; cbn; congruence. Qed.

(** A literal matches the text that is equal to it but for the case of
    letters. *)
Lemma rmatch_RLit_ok {A : Type} (a a' r : string) (p : nat)
      (c : list (nat * string)) (k : mstate -> option A) :
  toUpperCase a' = toUpperCase a ->
  rmatch true (RLit a) (mkState (a' ++ r) p c) k
  = k (mkState r (p + String.length a) c).
Proof.
  revert a' p. induction a as [|x t IH]; intros a' p H.
  - destruct a'; [|discriminate]. cbn. now rewrite Nat.add_0_r.
  - apply toUpperCase_cons_inv in H as (x' & t' & -> & Hx & Ht).
    destruct t as [|y t2].
    + destruct t'; [|discriminate]. cbn [RLit rmatch rest append].
      unfold charEq. rewrite Hx, Ascii.eqb_refl. unfold advance.
      cbn [rest pos caps String.length]. now rewrite Nat.add_1_r.
    + change (RLit (String x (String y t2)))
        with (RSeq (RChar x) (RLit (String y t2))).
      cbn [rmatch rest append]. unfold charEq.
      rewrite Hx, Ascii.eqb_refl. unfold advance. cbn [pos caps].
      rewrite (IH t' (S p) Ht). f_equal. f_equal.
      cbn [String.length]. lia.
Qed.

(** A literal consumes as many characters as it has, or fails. *)
Lemma rmatch_RLit_cases {A : Type} (a : string) (s : mstate)
      (k : mstate -> option A) :
  rmatch true (RLit a) s k = None
  \/ exists a' r,
       rest s = (a' ++ r)%string
       /\ String.length a' = String.length a
       /\ rmatch true (RLit a) s k
          = k (mkState r (pos s + String.length a) (caps s)).
Proof.
  revert s. induction a as [|x t IH]; intros [r p c].
  - right. exists EmptyString, r. cbn. now rewrite Nat.add_0_r.
  - destruct t as [|y t2].
    + cbn [RLit rmatch rest]. destruct r as [|d r]; [now left|].
      destruct (charEq true x d); [|now left].
      right. exists (String d EmptyString), r. unfold advance.
      cbn [rest pos caps append String.length].
      now rewrite Nat.add_1_r.
    + change (RLit (String x (String y t2)))
        with (RSeq (RChar x) (RLit (String y t2))).
      cbn [rmatch rest]. destruct r as [|d r]; [now left|].
      destruct (charEq true x d); [|now left].
      unfold advance. cbn [pos caps].
      destruct (IH (mkState r (S p) c)) as [H|(a' & r' & Hr & Hl & H)].
      * left. exact H.
      * right. exists (String d a'), r'. cbn [rest pos caps] in *.
        subst r. cbn [append String.length]. rewrite Hl.
        split; [reflexivity|]. split; [reflexivity|].
        rewrite H. f_equal. f_equal. cbn [String.length]. lia.
Qed.

Lemma lacks_app (c : ascii) (a b : string) :
  lacks c (a ++ b) = lacks c a && lacks c b.
Proof.
  induction a as [|x a IH]; [reflexivity|].
  cbn. now rewrite IH, andb_assoc.
Qed.

(** What follows a proper prefix of a text without [c] does not start
    with [c]. *)
Lemma split_lacks (c : ascii) (a' r u v : string) :
  (a' ++ r)%string = (u ++ v)%string ->
  String.length a' < String.length u ->
  lacks c u = true ->
  exists d r', r = String d r' /\ Ascii.eqb d c = false.
Proof.
  revert u. induction a' as [|x a' IH]; intros u E Hlen Hu.
  - destruct u as [|d u]; [cbn in Hlen; lia|].
    cbn in E. subst r. cbn in Hu. apply andb_true_iff in Hu as [Hd _].
    exists d, (u ++ v)%string. split; [reflexivity|].
    now apply negb_true_iff.
  - destruct u as [|d u]; [cbn in Hlen; lia|].
    cbn in E. injection E as _ E. cbn in Hlen, Hu.
    apply andb_true_iff in Hu as [_ Hu].
    apply (IH u E); [lia|exact Hu].
Qed.

Lemma upperChar_dquote (d : ascii) :
  Ascii.eqb d dquote = false ->
  Ascii.eqb (upperChar dquote) (upperChar d) = false.
Proof.
  destruct d as [[] [] [] [] [] [] [] []]; cbn; intros H;
    first [reflexivity|discriminate].
Qed.

Lemma RNot_step {A : Type} (d : ascii) (t : string) (p : nat)
      (c : list (nat * string)) (k : mstate -> option A) :
  rmatch true (RNot dquote) (mkState (String d t) p c) k
  = if Ascii.eqb d dquote then None else k (mkState t (S p) c).
Proof.
  cbn [rmatch RNot rest existsb csetMem]. unfold charEq.
  destruct (Ascii.eqb d dquote) eqn:E.
  - apply Ascii.eqb_eq in E. subst d. now rewrite Ascii.eqb_refl.
  - now rewrite (upperChar_dquote d E).
Qed.

(** The greedy loop over the characters other than the quotation mark
    runs up to the next one. *)
Lemma starLoop_value {A : Type} (v : string) :
  forall (fuel p : nat) (c : list (nat * string)) (r : string)
         (k : mstate -> option A) (y : A),
    lacks dquote v = true ->
    String.length v <= fuel ->
    k (mkState (String dquote r) (p + String.length v) c) = Some y ->
    starLoop fuel (rmatch true (RNot dquote)) true
             (mkState (v ++ String dquote r) p c) k
    = Some y.
Proof.
  induction v as [|d v IH]; intros fuel p c r k y Hv Hfuel Hk.
  - cbn [String.length] in Hk. rewrite Nat.add_0_r in Hk.
    destruct fuel as [|fuel]; [exact Hk|].
    cbn [starLoop append]. cbv zeta.
    rewrite RNot_step, Ascii.eqb_refl. exact Hk.
  - destruct fuel as [|fuel]; [cbn in Hfuel; lia|].
    cbn in Hv. apply andb_true_iff in Hv as [Hd Hv].
    apply negb_true_iff in Hd.
    cbn [starLoop append]. cbv zeta.
    rewrite RNot_step, Hd. cbn [pos].
    assert (Hlt : (p <? S p) = true) by (apply Nat.ltb_lt; lia).
    rewrite Hlt.
    rewrite (IH fuel (S p) c r k y Hv).
    + reflexivity.
    + cbn in Hfuel. lia.
    + cbn [String.length] in Hk. now rewrite Nat.add_succ_r in Hk.
Qed.

Lemma take_app_length (a b : string) :
  take (String.length a) (a ++ b) = a.
Proof. induction a as [|x a IH]; [now destruct b|]. cbn. now rewrite IH. Qed.

(** The expression of [getAttr] matches where the attribute is
    written. *)
Lemma matchHere_attribute (name attr value more : string) (at_ : nat) :
  toUpperCase name = toUpperCase attr ->
  lacks dquote value = true ->
  exists m,
    matchHere (attrRegExp attr)
              (name ++ "=" ++ quot ++ value ++ quot ++ more) at_
    = Some m
    /\ groupOr 1 m = value.
Proof.
  intros Hname Hvalue. unfold matchHere, attrRegExp.
  cbn [ignoreCase source RSeqs].
  cbn [rmatch]. rewrite (rmatch_RLit_ok attr name _ _ _ _ Hname).
  unfold quot. cbn [append rmatch rest]. unfold charEq.
  cbn [upperChar isLower nat_of_ascii]. 
  change (Ascii.eqb (upperChar "=") (upperChar "=")) with true. cbv iota.
  unfold advance. cbn [rest pos caps].
  change (Ascii.eqb (upperChar dquote) (upperChar dquote)) with true.
  cbv iota. cbn [rest pos caps].
  match goal with
  | |- exists m, starLoop ?fuel ?step true ?s ?k = Some m /\ _ =>
      set (kk := k)
  end.
  eexists. split.
  - apply (starLoop_value value); [exact Hvalue| |].
    + rewrite length_append. cbn. lia.
    + unfold kk. unfold capture. cbn [rest pos caps].
      change (Ascii.eqb (upperChar dquote) (upperChar dquote)) with true.
      cbv iota. reflexivity.
  - unfold groupOr. cbn [groups group Nat.eqb].
    replace (S (S (at_ + String.length attr)) + String.length value
             - S (S (at_ + String.length attr)))
      with (String.length value) by lia.
    apply take_app_length.
Qed.

(** It matches nowhere in front of it, where no equals sign is. *)
Lemma matchHere_before (prefix name attr tail : string) (c : ascii)
      (at_ : nat) :
  toUpperCase name = toUpperCase attr ->
  lacks "=" (String c prefix ++ name) = true ->
  matchHere (attrRegExp attr)
            (String c prefix ++ name ++ String "=" tail) at_
  = None.
Proof.
  intros Hname Hlacks. unfold matchHere, attrRegExp.
  cbn [ignoreCase source RSeqs]. cbn [rmatch].
  match goal with
  | |- rmatch true (RLit attr) ?s ?k = None =>
      destruct (rmatch_RLit_cases attr s k) as [H|(a' & r & Hr & Hl & H)]
  end; [exact H|].
  rewrite H. cbn [rest pos caps] in *.
  assert (Hlen : String.length a' < String.length (String c prefix ++ name)).
  { rewrite Hl, length_append. cbn [String.length].
    rewrite <- (toUpperCase_length name), Hname, toUpperCase_length. lia. }
  assert (E : (a' ++ r)%string
              = ((String c prefix ++ name) ++ String "=" tail)%string)
    by (rewrite <- Hr; now rewrite append_assoc).
  destruct (split_lacks "=" a' r _ _ E Hlen Hlacks) as (d & r' & -> & Hd).
  unfold charEq. 
  assert (Hu : Ascii.eqb (upperChar "=") (upperChar d) = false).
  { clear -Hd. destruct d as [[] [] [] [] [] [] [] []]; cbn in *;
      first [reflexivity|discriminate]. }
  now rewrite Hu.
Qed.

Lemma execFrom_attribute (prefix name attr value more : string) (at_ : nat) :
  toUpperCase name = toUpperCase attr ->
  lacks "=" (prefix ++ name) = true ->
  lacks dquote value = true ->
  exists m,
    execFrom (attrRegExp attr)
             (prefix ++ name ++ "=" ++ quot ++ value ++ quot ++ more) at_
    = Some m
    /\ groupOr 1 m = value.
Proof.
  intros Hname Hlacks Hvalue. revert at_ Hlacks.
  induction prefix as [|c prefix IH]; intros at_ Hlacks.
  - destruct (matchHere_attribute name attr value more at_ Hname Hvalue)
      as (m & Hm & Hg).
    exists m. split; [|exact Hg].
    cbn [append]. destruct (name ++ _)%string; cbn [execFrom];
      cbn [append] in Hm; now rewrite Hm.
  - pose proof (matchHere_before prefix name attr
                                 (quot ++ value ++ quot ++ more) c at_
                                 Hname Hlacks) as Hb.
    cbn [append] in Hb. cbn [append execFrom]. rewrite Hb.
    cbn [append]. apply IH.
    cbn in Hlacks. now apply andb_true_iff in Hlacks as [_ H].
Qed.

(** X29.  [getAttr] reads the value of the first attribute whose name
    ends with the name asked for, whatever the case of letters: when no
    equals sign stands in front of the name and no quotation mark in the
    value, the value between the quotation marks is returned as it is.
    So asked for Rate it reads ParRate when that comes first.  (The name
    asked for is made of letters, digits and underscores, as in every
    call of the source, and so stands for itself in the regular
    expression.) *)
Theorem getAttr_reads (prefix name attr value more : string)
        (Hattr : isWord attr = true)
        (Hname : toUpperCase name = toUpperCase attr)
        (Hprefix : lacks "=" prefix = true)
        (Hvalue : lacks dquote value = true) :
  getAttr (prefix ++ name ++ "=" ++ quot ++ value ++ quot ++ more) attr
  = value.
Proof.
  assert (Hn : lacks "=" name = true).
  { clear -Hattr Hname. revert name Hname.
    induction attr as [|x t IH]; intros name H.
    - destruct name; [reflexivity|discriminate].
    - apply toUpperCase_cons_inv in H as (x' & t' & -> & Hx & Ht).
      cbn in Hattr. apply andb_true_iff in Hattr as [Hw Hattr].
      cbn. rewrite (IH Hattr t' Ht), andb_true_r.
      clear -Hx Hw.
      destruct x' as [[] [] [] [] [] [] [] []]; try reflexivity.
      exfalso.
      destruct x as [[] [] [] [] [] [] [] []]; cbn in Hx, Hw;
        discriminate. }
  unfold getAttr, exec.
  destruct (execFrom_attribute prefix name attr value more 0 Hname)
    as (m & Hm & Hg).
  - now rewrite lacks_app, Hprefix, Hn.
  - exact Hvalue.
  - unfold quot in *. now rewrite Hm.
Qed.

Lemma getAttr_reads_witness :
  getAttr ("ParRate=" ++ quot ++ "6.125" ++ quot ++ " Rate=" ++ quot
             ++ "6.500" ++ quot) "Rate"
  = "6.125".
Proof.
  exact (getAttr_reads "Par" "Rate" "Rate" "6.125"
                       (" Rate=" ++ quot ++ "6.500" ++ quot)
                       eq_refl eq_refl eq_refl eq_refl).
Defined.

End Attributes.

(** ** The synonyms of the request *)

Section Synonyms.
Import JsString Request RequestSamples.

Lemma fill_fill (a b : JsValue.t) : fill a (fill a b) = fill a b.
Proof.
  unfold fill.
  destruct (JsValue.truthy a) eqn:Ea, (JsValue.truthy b) eqn:Eb;
    cbn [andb negb]; rewrite ?Ea, ?Eb; cbn [andb negb]; reflexivity.
Qed.

Lemma firstMatch_In (text : string) (rules : list (list string * string))
      (v : string) :
  firstMatch text rules = Some v -> In v (map snd rules).
Proof.
  induction rules as [|[keys w] rules IH]; cbn; [discriminate|].
  destruct (existsb (includes text) keys).
  - intros H; injection H as <-. now left.
  - intros H. right. now apply IH.
Qed.

(** A field assigned from another field is assigned the same again. *)
Lemma assignBy_again (source current current' : JsValue.t)
      (rules : list (list string * string)) :
  assignBy source current rules = Some current' ->
  assignBy source current' rules = Some current'.
Proof.
  unfold assignBy. destruct (JsValue.truthy source).
  - destruct (lower source) as [text|]; [|discriminate].
    destruct (firstMatch text rules); intros H; injection H as <-;
      reflexivity.
  - intros H; injection H as <-. reflexivity.
Qed.

(** A field assigned from itself: the values of the rules are assigned
    themselves. *)
Lemma assignBy_self (field field' : JsValue.t)
      (rules : list (list string * string)) :
  (forall v, In v (map snd rules) ->
             assignBy (JsValue.VStr v) (JsValue.VStr v) rules
             = Some (JsValue.VStr v)) ->
  assignBy field field rules = Some field' ->
  assignBy field' field' rules = Some field'.
Proof.
  intros Hrules. unfold assignBy at 1.
  destruct (JsValue.truthy field) eqn:Et.
  - destruct (lower field) as [text|] eqn:El; [|discriminate].
    destruct (firstMatch text rules) as [v|] eqn:Ef;
      intros H; injection H as <-.
    + apply Hrules. now apply (firstMatch_In text).
    + unfold assignBy. now rewrite Et, El, Ef.
  - intros H; injection H as <-. unfold assignBy. now rewrite Et.
Qed.

(** X30.  [normalizeFormData] changes nothing when it is applied to
    its own result: the canonical values it writes are read back as
    themselves, and a field filled from its synonym stays filled. *)
Theorem normalizeFormData_idempotent (data norm : Body)
        (Hnorm : normalizeFormData data = Some norm) :
  normalizeFormData norm = Some norm.
Proof.
  unfold normalizeFormData in Hnorm.
  destruct (assignBy (occupancy data) _ _) as [o|] eqn:Eo; [|discriminate].
  destruct (assignBy (propertyType data) _ _) as [p|] eqn:Ep;
    [|discriminate].
  destruct (assignBy (loanPurpose data) _ _) as [l|] eqn:El;
    [|discriminate].
  destruct (assignBy (incomeDocType data) _ _) as [d|] eqn:Ed;
    [|discriminate].
  injection Hnorm as <-. unfold normalizeFormData.
  cbn [fico creditScore zipCode propertyZip state propertyState
       purchasePrice propertyValue occupancy occupancyType propertyType
       loanPurpose incomeDocType documentationType].
  rewrite (assignBy_again _ _ _ _ Eo), (assignBy_again _ _ _ _ Ed).
  rewrite (assignBy_self _ _ propertyTypeRules) with (2 := Ep).
  - rewrite (assignBy_self _ _ loanPurposeRules) with (2 := El).
    + now rewrite !fill_fill.
    + intros v Hv. cbn in Hv.
      repeat (destruct Hv as [<-|Hv]; [reflexivity|]). contradiction.
  - intros v Hv. cbn in Hv.
    repeat (destruct Hv as [<-|Hv]; [reflexivity|]). contradiction.
Qed.

Lemma normalizeFormData_idempotent_witness :
  exists norm,
    normalizeFormData synonymBody = Some norm
    /\ normalizeFormData norm = Some norm
    /\ loanPurpose norm = JsValue.VStr "refinance"
    /\ occupancyType norm = JsValue.VStr "investment"
    /\ documentationType norm = JsValue.VStr "dscr"
    /\ creditScore norm = JsValue.VNum (Some 740%Q).
Proof.
  eexists. split; [reflexivity|].
  split; [apply (normalizeFormData_idempotent synonymBody); reflexivity|].
  repeat split.
Defined.

End Synonyms.
